(** * AssetVerse server: the asset-request workflow of [index.js]

    A shallow embedding of the Express handlers of [src/index.js] that
    touch the [assets], [requests] and [users] collections, and the
    properties of the request workflow proved or refuted on them.

    Modelling choices, all of them read off the source:
    - a MongoDB collection is a finite map from [_id] to document;
    - every [await col.op(...)] of a handler is one atomic call on the
      store; a handler is a tree of such calls ([Prog]), so that the same
      handler can be run alone ([serve]) or interleaved with another one at
      its [await] points ([interleave]);
    - an awaited call may reject; the handler's [try]/[catch] turns that
      into a 500 response;
    - [new ObjectId(s)], [new Date()], the driver-generated [_id] of an
      inserted document and the salted hash that [bcrypt] returns are inputs
      of the model;
    - quantities are integers ([Z]), which JavaScript represents exactly
      between the opposite of [Number.MAX_SAFE_INTEGER] and
      [Number.MAX_SAFE_INTEGER]; the code checks nowhere that a quantity is
      an integer, and a number with a fraction, or [Number(x)] of a string
      that does not spell an integer, is outside the model. The statements
      that need the arithmetic to be exact (the bound on the stock, the
      conservation of units, the round trip of approval and return) say
      that their quantities are in that range ([safeInteger]);
    - the [productQuantity] of a body is kept as the body gives it
      ([Quantity]): absent, [null], a number or a string, since the
      handlers test the value before they convert it. *)

From stdpp Require Import base option gmap list strings sorting.
From Stdlib Require Import ZArith Lia.

Local Open Scope string_scope.
Local Open Scope Z_scope.

(** ** JavaScript values used by the handlers *)

(** A timestamp, as milliseconds since the epoch. *)
Definition Date := Z.

(** A possibly absent string: [None] is [undefined] or [null]. *)
Definition truthy (v : option string) : bool :=
  match v with
  | Some s => negb (String.eqb s EmptyString)
  | None => false
  end.

(** [v || d] for a string default. *)
Definition orElse (v : option string) (d : string) : string :=
  match v with
  | Some s => if String.eqb s EmptyString then d else s
  | None => d
  end.

(** [v || null]. *)
Definition orNull (v : option string) : option string :=
  if truthy v then v else None.

(** The [productQuantity] of a body that has one: [null], a number, or a
    string together with the number that [Number] makes of it (0 of the
    empty string). The numbers of this development are integers, which
    JavaScript represents exactly up to [Number.MAX_SAFE_INTEGER]: a number
    with a fraction, a string that does not spell an integer, and a value
    of another type are not covered. *)
Inductive Quantity :=
| QNull
| QNumber (q : Z)
| QString (s : string) (q : Z).

(** [Number(v)] *)
Definition toNumber (v : Quantity) : Z :=
  match v with
  | QNull => 0
  | QNumber q => q
  | QString _ q => q
  end.

(** [Number.MAX_SAFE_INTEGER], and the integers between it and its
    opposite: on them adding and subtracting 1 is exact as long as the
    result is one of them. *)
Definition maxSafeInteger : Z := 2 ^ 53 - 1.

Definition safeInteger (q : Z) : Prop :=
  - maxSafeInteger ≤ q ≤ maxSafeInteger.

(** [new Set(l)] followed by iteration: the distinct elements of [l], each
    at the place of its first occurrence. *)
Definition Set_add (acc : list string) (x : string) : list string :=
  if bool_decide (x ∈ acc) then acc else acc ++ [x].

Definition new_Set (l : list string) : list string :=
  fold_left Set_add l [].

(** ** Documents *)

Section Server.

(** The driver's [ObjectId] and its constructor from a string, which throws
    ([None]) on a string that is not an id. *)
Context {ObjectId : Type} `{Countable ObjectId}.
Variable newObjectId : string → option ObjectId.

(** An asset document. The code stores in the two quantities whatever
    number it is given; here they are integers. *)
Record Asset := mkAsset {
  productName : string;
  productImage : string;
  productType : string;
  productQuantity : Z;
  availableQuantity : Z;
  dateAdded : Date;
  asset_hrEmail : option string;
  asset_companyName : string;
}.

Record Request := mkRequest {
  assetId : option ObjectId;
  assetName : option string;
  assetType : option string;
  hrEmail : option string;
  companyName : string;
  requesterName : option string;
  requesterEmail : string;
  assetImage : option string;
  requestDate : Date;
  approvalDate : option Date;
  requestStatus : string;
  note : string;
  processedBy : option string;
  returnDate : option Date;
}.

(** A user document. [profileImage] and [position] are read by [myTeam]
    and written by no handler. *)
Record User := mkUser {
  name : string;
  email : string;
  password : string;
  role : string;
  user_companyName : option string;
  companyLogo : option string;
  dateOfBirth : option string;
  subscription : option string;
  packageLimit : option Z;
  currentEmployees : option Z;
  approved : bool;
  createdAt : Date;
  profileImage : option string;
  position : option string;
}.

(** The projection [{_id: 0, name: 1, email: 1, profileImage: 1,
    dateOfBirth: 1, position: 1}] of a user. *)
Record Profile := mkProfile {
  p_name : string;
  p_email : string;
  p_profileImage : option string;
  p_dateOfBirth : option string;
  p_position : option string;
}.

Definition project (u : User) : Profile :=
  {| p_name := name u; p_email := email u;
     p_profileImage := profileImage u;
     p_dateOfBirth := dateOfBirth u;
     p_position := position u |}.

Record Team := mkTeam {
  team_companyName : string;
  colleagues : list Profile;
}.

(** ** The store *)

Record World := mkWorld {
  assetsCol : gmap ObjectId Asset;
  requestsCol : gmap ObjectId Request;
  usersCol : gmap ObjectId User;
}.

Definition emptyWorld : World :=
  {| assetsCol := ∅; requestsCol := ∅; usersCol := ∅ |}.

(** Update operators on an asset: the fields of a [$set], and [$inc] of
    [availableQuantity]. *)
Inductive AssetUpdate :=
| SetProductName (s : string)
| SetProductImage (s : string)
| SetProductType (s : string)
| SetProductQuantity (q : Z)
| SetAvailableQuantity (q : Z)
| IncAvailableQuantity (d : Z).

Definition applyAssetUpdate (a : Asset) (u : AssetUpdate) : Asset :=
  match u with
  | SetProductName s =>
      mkAsset s (productImage a) (productType a) (productQuantity a)
        (availableQuantity a) (dateAdded a) (asset_hrEmail a)
        (asset_companyName a)
  | SetProductImage s =>
      mkAsset (productName a) s (productType a) (productQuantity a)
        (availableQuantity a) (dateAdded a) (asset_hrEmail a)
        (asset_companyName a)
  | SetProductType s =>
      mkAsset (productName a) (productImage a) s (productQuantity a)
        (availableQuantity a) (dateAdded a) (asset_hrEmail a)
        (asset_companyName a)
  | SetProductQuantity q =>
      mkAsset (productName a) (productImage a) (productType a) q
        (availableQuantity a) (dateAdded a) (asset_hrEmail a)
        (asset_companyName a)
  | SetAvailableQuantity q =>
      mkAsset (productName a) (productImage a) (productType a)
        (productQuantity a) q (dateAdded a) (asset_hrEmail a)
        (asset_companyName a)
  | IncAvailableQuantity d =>
      mkAsset (productName a) (productImage a) (productType a)
        (productQuantity a) (availableQuantity a + d) (dateAdded a)
        (asset_hrEmail a) (asset_companyName a)
  end.

(** The fields of a [$set] on a request. *)
Inductive RequestUpdate :=
| SetRequestStatus (s : string)
| SetApprovalDate (d : Date)
| SetProcessedBy (s : string)
| SetReturnDate (d : Date).

Definition applyRequestUpdate (r : Request) (u : RequestUpdate) : Request :=
  match u with
  | SetRequestStatus s =>
      mkRequest (assetId r) (assetName r) (assetType r) (hrEmail r)
        (companyName r) (requesterName r) (requesterEmail r) (assetImage r)
        (requestDate r) (approvalDate r) s (note r) (processedBy r)
        (returnDate r)
  | SetApprovalDate d =>
      mkRequest (assetId r) (assetName r) (assetType r) (hrEmail r)
        (companyName r) (requesterName r) (requesterEmail r) (assetImage r)
        (requestDate r) (Some d) (requestStatus r) (note r) (processedBy r)
        (returnDate r)
  | SetProcessedBy s =>
      mkRequest (assetId r) (assetName r) (assetType r) (hrEmail r)
        (companyName r) (requesterName r) (requesterEmail r) (assetImage r)
        (requestDate r) (approvalDate r) (requestStatus r) (note r) (Some s)
        (returnDate r)
  | SetReturnDate d =>
      mkRequest (assetId r) (assetName r) (assetType r) (hrEmail r)
        (companyName r) (requesterName r) (requesterEmail r) (assetImage r)
        (requestDate r) (approvalDate r) (requestStatus r) (note r)
        (processedBy r) (Some d)
  end.

(** Query filters used by the handlers. *)
Inductive RequestFilter :=
| ByRequesterStatus (requester status : string)
| ByCompanyStatus (company status : string).

Definition matchesRequest (f : RequestFilter) (r : Request) : bool :=
  match f with
  | ByRequesterStatus e s =>
      String.eqb (requesterEmail r) e && String.eqb (requestStatus r) s
  | ByCompanyStatus c s =>
      String.eqb (companyName r) c && String.eqb (requestStatus r) s
  end.

(** What an awaited call can reject with, and what [new ObjectId] throws. *)
Inductive Error :=
| BSONError
| DuplicateKey
| StorageUnavailable.

(** The awaited calls, indexed by the type of their result. An update or
    delete returns the number of documents it matched. [BcryptHash] is
    [bcrypt.hash(plain, 10)], whose salted result [hashed] is an input of
    the model. *)
Inductive Call : Type → Type :=
| AssetsInsertOne (oid : ObjectId) (doc : Asset) : Call ObjectId
| AssetsUpdateOne (oid : ObjectId) (upd : list AssetUpdate) : Call nat
| AssetsDeleteOne (oid : ObjectId) : Call nat
| RequestsInsertOne (oid : ObjectId) (doc : Request) : Call ObjectId
| RequestsFindOne (oid : ObjectId) : Call (option Request)
| RequestsUpdateOne (oid : ObjectId) (upd : list RequestUpdate) : Call nat
| RequestsFind (f : RequestFilter) : Call (list (ObjectId * Request))
| UsersFindIn (emails : list string) : Call (list Profile)
| UsersFindOne (address : string) : Call (option User)
| UsersInsertOne (oid : ObjectId) (doc : User) : Call ObjectId
| BcryptHash (plain hashed : string) : Call string.

(** [requestsCol.find(f).toArray()]: the requests that match, in the order
    of the store, which no handler relies on. *)
Definition findRequests (f : RequestFilter) (w : World)
  : list (ObjectId * Request) :=
  filter (λ p, matchesRequest f p.2 = true) (map_to_list (requestsCol w)).

(** [usersCol.find({email: {$in: emails}}).project(...).toArray()]. *)
Definition findUsersIn (emails : list string) (w : World) : list Profile :=
  project
    <$> filter (λ u, email u ∈ emails) (snd <$> map_to_list (usersCol w)).

(** [usersCol.findOne({email})]. *)
Definition findUser (address : string) (w : World) : option User :=
  head (filter (λ u, email u = address) (snd <$> map_to_list (usersCol w))).

Definition matched {A} (o : option A) : nat :=
  match o with Some _ => 1%nat | None => 0%nat end.

(** One call on the store: its result (or the error it rejects with) and
    the store after it. A single-document call is atomic. *)
Definition exec {X} (c : Call X) (w : World) : (Error + X) * World :=
  match c in Call X return (Error + X) * World with
  | AssetsInsertOne oid doc =>
      match assetsCol w !! oid with
      | Some _ => (inl DuplicateKey, w)
      | None =>
          (inr oid, mkWorld (<[oid := doc]> (assetsCol w)) (requestsCol w)
                      (usersCol w))
      end
  | AssetsUpdateOne oid upd =>
      (inr (matched (assetsCol w !! oid)),
       mkWorld (alter (λ a, fold_left applyAssetUpdate upd a) oid
                  (assetsCol w))
         (requestsCol w) (usersCol w))
  | AssetsDeleteOne oid =>
      (inr (matched (assetsCol w !! oid)),
       mkWorld (delete oid (assetsCol w)) (requestsCol w) (usersCol w))
  | RequestsInsertOne oid doc =>
      match requestsCol w !! oid with
      | Some _ => (inl DuplicateKey, w)
      | None =>
          (inr oid, mkWorld (assetsCol w) (<[oid := doc]> (requestsCol w))
                      (usersCol w))
      end
  | RequestsFindOne oid => (inr (requestsCol w !! oid), w)
  | RequestsUpdateOne oid upd =>
      (inr (matched (requestsCol w !! oid)),
       mkWorld (assetsCol w)
         (alter (λ r, fold_left applyRequestUpdate upd r) oid
            (requestsCol w))
         (usersCol w))
  | RequestsFind f => (inr (findRequests f w), w)
  | UsersFindIn emails => (inr (findUsersIn emails w), w)
  | UsersFindOne address => (inr (findUser address w), w)
  | UsersInsertOne oid doc =>
      match usersCol w !! oid with
      | Some _ => (inl DuplicateKey, w)
      | None =>
          (inr oid, mkWorld (assetsCol w) (requestsCol w)
                      (<[oid := doc]> (usersCol w)))
      end
  | BcryptHash plain hashed => (inr hashed, w)
  end.

(** ** Handlers as trees of awaited calls *)

(** The body of an [async] handler: it responds ([Ret]), throws ([Throw]),
    or awaits a call and goes on with its result. *)
Inductive Prog (A : Type) : Type :=
| Ret (a : A)
| Throw (e : Error)
| Await {X : Type} (c : Call X) (k : X → Prog A).

Arguments Ret {A} a.
Arguments Throw {A} e.
Arguments Await {A X} c k.

Notation "'await!' x ← c ; k" := (Await c (λ x, k))
  (at level 10, x binder, c at level 100, k at level 200,
   format "'[v' 'await!'  x  ←  c ;  '/' k ']'").

(** The body of a response: [{msg}], [{msg, id}] (also [requestId], [hrId],
    [employeeId]), [{msg, result}], [{msg: 'Server Error', error}], or the
    array of teams. *)
Inductive Body :=
| Msg (msg : string)
| MsgId (msg : string) (id : ObjectId)
| MsgResult (msg : string) (matchedCount : nat)
| ServerError (error : Error)
| SendTeams (teams : list Team).

Record Response := mkResponse {
  status : nat;
  body : Body;
}.

(** [res.send(b)] and [res.status(c).send(b)]. *)
Definition send (b : Body) : Response := mkResponse 200 b.
Definition sendStatus (c : nat) (b : Body) : Response := mkResponse c b.

(** Running a handler body alone. [fault n] tells whether the [n]-th
    awaited call rejects instead of being applied. *)
Fixpoint run {A} (fault : nat → bool) (p : Prog A) (n : nat) (w : World)
  : (Error + A) * World :=
  match p with
  | Ret a => (inr a, w)
  | Throw e => (inl e, w)
  | Await c k =>
      if fault n then (inl StorageUnavailable, w)
      else
        match exec c w with
        | (inl e, w') => (inl e, w')
        | (inr x, w') => run fault (k x) (S n) w'
        end
  end.

(** The [try { ... } catch (err) { res.status(500)... }] around every
    handler body. *)
Definition serve (fault : nat → bool) (p : Prog Response) (w : World)
  : Response * World :=
  match run fault p 0 w with
  | (inr r, w') => (r, w')
  | (inl e, w') => (sendStatus 500 (ServerError e), w')
  end.

Definition noFault : nat → bool := λ _, false.

(** Two handlers on the event loop: at each [await] the other one may run.
    [step] performs the next awaited call of a body. *)
Definition step {A} (p : Prog A) (w : World) : Prog A * World :=
  match p with
  | Ret a => (Ret a, w)
  | Throw e => (Throw e, w)
  | Await c k =>
      match exec c w with
      | (inl e, w') => (Throw e, w')
      | (inr x, w') => (k x, w')
      end
  end.

(** [interleave sched p q w]: [true] in the schedule lets [p] perform its
    next call, [false] lets [q]; when the schedule is exhausted [p] runs to
    its end and then [q]. *)
Fixpoint interleave (sched : list bool) (p q : Prog Response) (w : World)
  : Response * Response * World :=
  match sched with
  | [] =>
      let '(r1, w1) := serve noFault p w in
      let '(r2, w2) := serve noFault q w1 in
      (r1, r2, w2)
  | true :: sched' =>
      let '(p', w') := step p w in interleave sched' p' q w'
  | false :: sched' =>
      let '(q', w') := step q w in interleave sched' p q' w'
  end.

(** ** The handlers *)

(** [req.body] of [POST /auth/register/hr] and
    [POST /auth/register/employee]. *)
Record RegisterBody := mkRegisterBody {
  body_name : option string;
  body_email : option string;
  body_password : option string;
  body_regCompanyName : option string;
  body_companyLogo : option string;
  body_dateOfBirth : option string;
}.

(** [POST /auth/register/hr] *)
Definition registerHR (oid : ObjectId) (now : Date) (salted : string)
  (b : RegisterBody) : Prog Response :=
  if negb (truthy (body_name b)) || negb (truthy (body_email b))
     || negb (truthy (body_password b))
     || negb (truthy (body_regCompanyName b))
     || negb (truthy (body_companyLogo b))
  then Ret (sendStatus 400 (Msg "All fields required"))
  else
    await! exist_ ← UsersFindOne (default EmptyString (body_email b));
    match exist_ with
    | Some _ => Ret (sendStatus 400 (Msg "Email already exists"))
    | None =>
        await! hashed ←
          BcryptHash (default EmptyString (body_password b)) salted;
        let hr :=
          {| name := default EmptyString (body_name b);
             email := default EmptyString (body_email b);
             password := hashed;
             role := "hr";
             user_companyName := body_regCompanyName b;
             companyLogo := body_companyLogo b;
             dateOfBirth := body_dateOfBirth b;
             subscription := Some "basic";
             packageLimit := Some 5;
             currentEmployees := Some 0;
             approved := true;
             createdAt := now;
             profileImage := None;
             position := None |} in
        await! insertedId ← UsersInsertOne oid hr;
        Ret (sendStatus 201 (MsgId "HR Registered" insertedId))
    end.

(** [POST /auth/register/employee] *)
Definition registerEmployee (oid : ObjectId) (now : Date) (salted : string)
  (b : RegisterBody) : Prog Response :=
  if negb (truthy (body_name b)) || negb (truthy (body_email b))
     || negb (truthy (body_password b))
  then Ret (sendStatus 400 (Msg "All fields required"))
  else
    await! exist_ ← UsersFindOne (default EmptyString (body_email b));
    match exist_ with
    | Some _ => Ret (sendStatus 400 (Msg "Email already exists"))
    | None =>
        await! hashed ←
          BcryptHash (default EmptyString (body_password b)) salted;
        let employee :=
          {| name := default EmptyString (body_name b);
             email := default EmptyString (body_email b);
             password := hashed;
             role := "employee";
             user_companyName := None;
             companyLogo := None;
             dateOfBirth := body_dateOfBirth b;
             subscription := None;
             packageLimit := None;
             currentEmployees := None;
             approved := false;
             createdAt := now;
             profileImage := None;
             position := None |} in
        await! insertedId ← UsersInsertOne oid employee;
        Ret (sendStatus 201
               (MsgId "Employee Registered, waiting approval" insertedId))
    end.

(** [req.body] of [POST /hr/assets] and [PATCH /hr/assets/:id]. A body
    without [productQuantity] has [None] there: the field is
    [undefined]. *)
Record AssetBody := mkAssetBody {
  body_productName : option string;
  body_productImage : option string;
  body_productType : option string;
  body_productQuantity : option Quantity;
  body_hrEmail : option string;
  body_companyName : option string;
}.

(** Truthiness of [productQuantity] as the body gives it, before any
    conversion: [undefined], [null], the number 0 and the empty string are
    falsy; every other number and every other string, "0" too, is
    truthy. *)
Definition truthyNum (v : option Quantity) : bool :=
  match v with
  | Some (QNumber q) => negb (q =? 0)%Z
  | Some (QString s _) => negb (String.eqb s EmptyString)
  | Some QNull => false
  | None => false
  end.

(** [POST /hr/assets] *)
Definition addAsset (oid : ObjectId) (now : Date) (b : AssetBody)
  : Prog Response :=
  if negb (truthy (body_productName b))
     || negb (truthy (body_productImage b))
     || negb (truthy (body_productType b))
     || negb (truthyNum (body_productQuantity b))
  then Ret (sendStatus 400 (Msg "All fields required"))
  else
    let qty := default 0 (toNumber <$> body_productQuantity b) in
    let asset :=
      {| productName := default EmptyString (body_productName b);
         productImage := default EmptyString (body_productImage b);
         productType := default EmptyString (body_productType b);
         productQuantity := qty;
         availableQuantity := qty;
         dateAdded := now;
         asset_hrEmail := orNull (body_hrEmail b);
         asset_companyName := orElse (body_companyName b) EmptyString |} in
    await! insertedId ← AssetsInsertOne oid asset;
    Ret (sendStatus 201 (MsgId "Asset created" insertedId)).

(** The [update] object of [PATCH /hr/assets/:id]. The quantity is taken
    from every body that has the field ([productQuantity !== undefined]),
    from one that has it as [null] too. *)
Definition assetUpdateOf (b : AssetBody) : list AssetUpdate :=
  (if truthy (body_productName b)
   then [SetProductName (default EmptyString (body_productName b))] else [])
  ++ (if truthy (body_productImage b)
      then [SetProductImage (default EmptyString (body_productImage b))] else [])
  ++ (if truthy (body_productType b)
      then [SetProductType (default EmptyString (body_productType b))] else [])
  ++ match body_productQuantity b with
     | Some v =>
         let qty := toNumber v in
         [SetProductQuantity qty; SetAvailableQuantity qty]
     | None => []
     end.

(** [PATCH /hr/assets/:id]. An [update] without fields is taken as an
    update that changes nothing. *)
Definition updateAsset (id : string) (b : AssetBody) : Prog Response :=
  let update := assetUpdateOf b in
  match newObjectId id with
  | None => Throw BSONError
  | Some oid =>
      await! matchedCount ← AssetsUpdateOne oid update;
      if (matchedCount =? 0)%nat
      then Ret (sendStatus 404 (Msg "Asset not found"))
      else Ret (send (MsgResult "Asset updated" matchedCount))
  end.

(** [DELETE /hr/assets/:id] *)
Definition deleteAsset (id : string) : Prog Response :=
  match newObjectId id with
  | None => Throw BSONError
  | Some oid =>
      await! deletedCount ← AssetsDeleteOne oid;
      if (deletedCount =? 0)%nat
      then Ret (sendStatus 404 (Msg "Asset not found"))
      else Ret (send (Msg "Asset deleted"))
  end.

(** [req.body] of [POST /employee/requests]. *)
Record RequestBody := mkRequestBody {
  body_assetId : option string;
  body_assetName : option string;
  body_assetType : option string;
  body_reqCompanyName : option string;
  body_reqHrEmail : option string;
  body_requesterName : option string;
  body_requesterEmail : option string;
  body_note : option string;
  body_assetImage : option string;
}.

(** The [requestDoc] of [POST /employee/requests], for a body whose
    [assetId] makes the id [aid]. *)
Definition requestDoc (aid : ObjectId) (now : Date) (b : RequestBody)
  : Request :=
  {| assetId := Some aid;
     assetName := body_assetName b;
     assetType := body_assetType b;
     hrEmail := orNull (body_reqHrEmail b);
     companyName := orElse (body_reqCompanyName b) "Unknown Company";
     requesterName := body_requesterName b;
     requesterEmail := default EmptyString (body_requesterEmail b);
     assetImage := orNull (body_assetImage b);
     requestDate := now;
     approvalDate := None;
     requestStatus := "pending";
     note := orElse (body_note b) EmptyString;
     processedBy := None;
     returnDate := None |}.

(** [POST /employee/requests] *)
Definition createRequest (oid : ObjectId) (now : Date) (b : RequestBody)
  : Prog Response :=
  if negb (truthy (body_assetId b)) || negb (truthy (body_requesterEmail b))
  then Ret (sendStatus 400 (Msg "assetId and requesterEmail are required"))
  else
    match newObjectId (default EmptyString (body_assetId b)) with
    | None => Throw BSONError
    | Some aid =>
        await! insertedId ← RequestsInsertOne oid (requestDoc aid now b);
        Ret (sendStatus 201 (MsgId "Request created" insertedId))
    end.

(** [PATCH /employee/requests/:id/return] *)
Definition returnAsset (now : Date) (id : string) : Prog Response :=
  match newObjectId id with
  | None => Throw BSONError
  | Some rid =>
      await! found ← RequestsFindOne rid;
      match found with
      | None => Ret (sendStatus 404 (Msg "Request not found"))
      | Some request =>
          if negb (String.eqb (requestStatus request) "approved")
          then Ret (sendStatus 400
                      (Msg "Only approved requests can be returned"))
          else if negb (bool_decide (assetType request = Some "Returnable"))
          then Ret (sendStatus 400
                      (Msg "Only returnable assets can be returned"))
          else
            await! _ ← RequestsUpdateOne rid
                         [SetRequestStatus "returned"; SetReturnDate now];
            match assetId request with
            | Some aid =>
                await! _ ← AssetsUpdateOne aid [IncAvailableQuantity 1];
                Ret (send (Msg "Asset returned"))
            | None => Ret (send (Msg "Asset returned"))
            end
      end
  end.

(** [PATCH /hr/requests/:id/approve] *)
Definition approve (now : Date) (id : string) : Prog Response :=
  match newObjectId id with
  | None => Throw BSONError
  | Some rid =>
      await! found ← RequestsFindOne rid;
      match found with
      | None => Ret (sendStatus 404 (Msg "Request not found"))
      | Some request =>
          if negb (String.eqb (requestStatus request) "pending")
          then Ret (sendStatus 400 (Msg "Request already processed"))
          else
            let setApproved :=
              await! _ ← RequestsUpdateOne rid
                           [SetRequestStatus "approved"; SetApprovalDate now;
                            SetProcessedBy "HR"];
              Ret (send (Msg "Request approved")) in
            match assetId request with
            | Some aid =>
                await! _ ← AssetsUpdateOne aid [IncAvailableQuantity (-1)];
                setApproved
            | None => setApproved
            end
      end
  end.

(** [PATCH /hr/requests/:id/reject] *)
Definition reject (now : Date) (id : string) : Prog Response :=
  match newObjectId id with
  | None => Throw BSONError
  | Some rid =>
      await! found ← RequestsFindOne rid;
      match found with
      | None => Ret (sendStatus 404 (Msg "Request not found"))
      | Some request =>
          if negb (String.eqb (requestStatus request) "pending")
          then Ret (sendStatus 400 (Msg "Request already processed"))
          else
            await! _ ← RequestsUpdateOne rid
                         [SetRequestStatus "rejected"; SetApprovalDate now;
                          SetProcessedBy "HR"];
            Ret (send (Msg "Request rejected"))
      end
  end.

(** The loop [for (const companyName of companySet)] of
    [GET /employee/my-team/:email], with the [teams] built so far. *)
Fixpoint teamsOf (companySet : list string) (teams : list Team)
  : Prog Response :=
  match companySet with
  | [] => Ret (send (SendTeams teams))
  | company :: rest =>
      await! companyReqs ← RequestsFind (ByCompanyStatus company "approved");
      if (length companyReqs =? 0)%nat then teamsOf rest teams
      else
        let emails :=
          new_Set ((λ r, requesterEmail r.2) <$> companyReqs) in
        await! found ← UsersFindIn emails;
        teamsOf rest (teams ++ [mkTeam company found])
  end.

(** [GET /employee/my-team/:email] *)
Definition myTeam (employee : string) : Prog Response :=
  await! myApproved ← RequestsFind (ByRequesterStatus employee "approved");
  if (length myApproved =? 0)%nat then Ret (send (SendTeams []))
  else
    let companySet :=
      new_Set ((λ r, orElse (Some (companyName r.2)) "Unknown Company")
                 <$> myApproved) in
    teamsOf companySet [].

(** ** Calls of the API, and sequences of them *)

Inductive Op :=
| OpRegisterHR (oid : ObjectId) (now : Date) (salted : string)
    (b : RegisterBody)
| OpRegisterEmployee (oid : ObjectId) (now : Date) (salted : string)
    (b : RegisterBody)
| OpAddAsset (oid : ObjectId) (now : Date) (b : AssetBody)
| OpUpdateAsset (id : string) (b : AssetBody)
| OpDeleteAsset (id : string)
| OpCreateRequest (oid : ObjectId) (now : Date) (b : RequestBody)
| OpReturn (now : Date) (id : string)
| OpApprove (now : Date) (id : string)
| OpReject (now : Date) (id : string)
| OpMyTeam (employee : string).

Definition handler (op : Op) : Prog Response :=
  match op with
  | OpRegisterHR oid now salted b => registerHR oid now salted b
  | OpRegisterEmployee oid now salted b => registerEmployee oid now salted b
  | OpAddAsset oid now b => addAsset oid now b
  | OpUpdateAsset id b => updateAsset id b
  | OpDeleteAsset id => deleteAsset id
  | OpCreateRequest oid now b => createRequest oid now b
  | OpReturn now id => returnAsset now id
  | OpApprove now id => approve now id
  | OpReject now id => reject now id
  | OpMyTeam employee => myTeam employee
  end.

(** The store after a sequence of calls served one after the other. *)
Definition perform (ops : list Op) (w : World) : World :=
  fold_left (λ w op, (serve noFault (handler op) w).2) ops w.

(** ** Vocabulary of the statements *)

(** A request after [approve] or [reject] has set its status, approval date
    and processor, and after [returnAsset] has set its status and return
    date: every other field is kept. *)
Definition processed (r : Request) (s : string) (now : Date) : Request :=
  mkRequest (assetId r) (assetName r) (assetType r) (hrEmail r)
    (companyName r) (requesterName r) (requesterEmail r) (assetImage r)
    (requestDate r) (Some now) s (note r) (Some "HR") (returnDate r).

Definition returned (r : Request) (now : Date) : Request :=
  mkRequest (assetId r) (assetName r) (assetType r) (hrEmail r)
    (companyName r) (requesterName r) (requesterEmail r) (assetImage r)
    (requestDate r) (approvalDate r) "returned" (note r) (processedBy r)
    (Some now).

(** An asset whose available quantity is [q], every other field kept. *)
Definition withAvailable (a : Asset) (q : Z) : Asset :=
  mkAsset (productName a) (productImage a) (productType a)
    (productQuantity a) q (dateAdded a) (asset_hrEmail a)
    (asset_companyName a).

(** The inventory bound of the data model. *)
Definition bounded (a : Asset) : Prop :=
  (0 ≤ availableQuantity a ≤ productQuantity a)%Z.

Definition stockInvariant (w : World) : Prop :=
  ∀ aid a, assetsCol w !! aid = Some a → bounded a.

(** The bound on a stock of integers that JavaScript represents exactly:
    every asset is within the bound and its total is at most
    [Number.MAX_SAFE_INTEGER]. *)
Definition safeStock (w : World) : Prop :=
  ∀ aid a,
    assetsCol w !! aid = Some a →
    bounded a ∧ (productQuantity a ≤ maxSafeInteger)%Z.

(** A call that stays within the stock: a quantity that is a non-negative
    integer, at most [Number.MAX_SAFE_INTEGER], for an asset that is
    created or updated, a unit left to hand out for an approval, a unit out
    for a return. *)
Definition withinStock (op : Op) (w : World) : Prop :=
  match op with
  | OpAddAsset _ _ b =>
      ∀ v, body_productQuantity b = Some v →
           (0 ≤ toNumber v ≤ maxSafeInteger)%Z
  | OpUpdateAsset _ b =>
      ∀ v, body_productQuantity b = Some v →
           (0 ≤ toNumber v ≤ maxSafeInteger)%Z
  | OpApprove _ id =>
      ∀ rid r aid a,
        newObjectId id = Some rid → requestsCol w !! rid = Some r →
        requestStatus r = "pending" →
        assetId r = Some aid → assetsCol w !! aid = Some a →
        (0 < availableQuantity a)%Z
  | OpReturn _ id =>
      ∀ rid r aid a,
        newObjectId id = Some rid → requestsCol w !! rid = Some r →
        requestStatus r = "approved" → assetType r = Some "Returnable" →
        assetId r = Some aid → assetsCol w !! aid = Some a →
        (availableQuantity a < productQuantity a)%Z
  | _ => True
  end.

Fixpoint allWithinStock (ops : list Op) (w : World) : Prop :=
  match ops with
  | [] => True
  | op :: ops' =>
      withinStock op w
      ∧ allWithinStock ops' (serve noFault (handler op) w).2
  end.

(** What the handlers maintain in the store when they are served one at a
    time: no two user documents have the same email, and every request has
    a company name. *)
Definition emailsUnique (w : World) : Prop :=
  ∀ i j u v,
    usersCol w !! i = Some u → usersCol w !! j = Some v →
    email u = email v → i = j.

Definition companiesNamed (w : World) : Prop :=
  ∀ i r, requestsCol w !! i = Some r → companyName r ≠ EmptyString.

Definition storeInvariant (w : World) : Prop :=
  emailsUnique w ∧ companiesNamed w.

(** [e] is the email of a user document. *)
Definition registered (w : World) (e : string) : Prop :=
  ∃ i u, usersCol w !! i = Some u ∧ email u = e.

(** [e] has an approved request at company [c]. *)
Definition approvedAt (w : World) (e c : string) : Prop :=
  ∃ i r, requestsCol w !! i = Some r ∧ requesterEmail r = e
         ∧ companyName r = c ∧ requestStatus r = "approved".






(** The group that one turn of the loop of [myTeam] pushes for a company,
    when it pushes one. *)
Definition teamFor (w : World) (company : string) : option Team :=
  let companyReqs := findRequests (ByCompanyStatus company "approved") w in
  if (length companyReqs =? 0)%nat then None
  else
    Some (mkTeam company
            (findUsersIn
               (new_Set ((λ r, requesterEmail r.2) <$> companyReqs)) w)).

(** How many profiles of a list have the email [e]. *)
Definition countEmail (e : string) (l : list Profile) : nat :=
  length (filter (λ p, p_email p = e) l).

(** The fault plan in which only the [n]-th awaited call rejects. *)
Definition faultAt (n : nat) : nat → bool := λ k, (k =? n)%nat.

End Server.

Arguments Ret {ObjectId A} a.
Arguments Throw {ObjectId A} e.
Arguments Await {ObjectId A X} c k.

(** ** A concrete driver *)

(** Ids as the 96-bit number that a string of 24 hexadecimal characters
    writes; every version of the driver accepts exactly these strings as
    hexadecimal ids. *)
Definition hexDigit (c : Ascii.ascii) : option N :=
  let n := Ascii.N_of_ascii c in
  if (48 <=? n)%N && (n <=? 57)%N then Some (n - 48)%N
  else if (97 <=? n)%N && (n <=? 102)%N then Some (n - 87)%N
  else if (65 <=? n)%N && (n <=? 70)%N then Some (n - 55)%N
  else None.

Fixpoint hexValue (s : string) (acc : N) : option N :=
  match s with
  | EmptyString => Some acc
  | String c s' =>
      match hexDigit c with
      | Some d => hexValue s' (16 * acc + d)%N
      | None => None
      end
  end.

Definition hexObjectId (s : string) : option N :=
  if (String.length s =? 24)%nat then hexValue s 0%N else None.

(** ** Sample stores *)

Module Demo.

Definition laptopId : string := "64b7f0a1c2d3e4f5a6b7c801".
Definition req1Id : string := "64b7f0a1c2d3e4f5a6b7c802".
Definition req2Id : string := "64b7f0a1c2d3e4f5a6b7c803".
Definition req3Id : string := "64b7f0a1c2d3e4f5a6b7c804".
Definition eveId : string := "64b7f0a1c2d3e4f5a6b7c8e1".
Definition fayId : string := "64b7f0a1c2d3e4f5a6b7c8f1".

Definition oid (s : string) : N := default 0%N (hexObjectId s).

Definition laptopBody (qty : Z) : AssetBody :=
  {| body_productName := Some "Laptop";
     body_productImage := Some "laptop.png";
     body_productType := Some "Returnable";
     body_productQuantity := Some (QNumber qty);
     body_hrEmail := Some "hr@acme.test";
     body_companyName := Some "Acme" |}.

Definition requestBody (who : string) : RequestBody :=
  {| body_assetId := Some laptopId;
     body_assetName := Some "Laptop";
     body_assetType := Some "Returnable";
     body_reqCompanyName := Some "Acme";
     body_reqHrEmail := Some "hr@acme.test";
     body_requesterName := Some who;
     body_requesterEmail := Some (who +:+ "@acme.test");
     body_note := None;
     body_assetImage := Some "laptop.png" |}.

(** A request for the laptop that claims to be for a yacht. *)
Definition yachtBody : RequestBody :=
  {| body_assetId := Some laptopId;
     body_assetName := Some "Yacht";
     body_assetType := Some "Non-returnable";
     body_reqCompanyName := Some "Globex";
     body_reqHrEmail := None;
     body_requesterName := Some "eve";
     body_requesterEmail := Some "eve@acme.test";
     body_note := None;
     body_assetImage := Some "yacht.png" |}.

Definition eveRequest : Request :=
  requestDoc (oid laptopId) 20 (requestBody "eve").
Definition fayRequest : Request :=
  requestDoc (oid laptopId) 30 (requestBody "fay").

Definition laptop (qty available : Z) : Asset :=
  mkAsset "Laptop" "laptop.png" "Returnable" qty available 10
    (Some "hr@acme.test") "Acme".

(** The laptop asset with [qty] units. *)
Definition setUp (qty : Z) : list Op :=
  [OpAddAsset (oid laptopId) 10 (laptopBody qty)].

(** The laptop asset with [qty] units and two pending requests for it. *)
Definition twoRequests (qty : Z) : World (ObjectId := N) :=
  perform hexObjectId
    (setUp qty
     ++ [OpCreateRequest (oid req1Id) 20 (requestBody "eve");
         OpCreateRequest (oid req2Id) 30 (requestBody "fay")])
    emptyWorld.

(** One unit, handed out to the first request: none is left for the
    second, which is still pending. *)
Definition soldOut : World (ObjectId := N) :=
  perform hexObjectId [OpApprove 40 req1Id] (twoRequests 1).

(** The asset is deleted while its requests are pending. *)
Definition orphaned : World (ObjectId := N) :=
  perform hexObjectId [OpDeleteAsset laptopId] (twoRequests 1).

(** The asset is deleted after the first request has been approved. *)
Definition orphanedApproved : World (ObjectId := N) :=
  perform hexObjectId [OpApprove 40 req1Id; OpDeleteAsset laptopId]
    (twoRequests 1).

(** A call sequence that approves both requests for a single unit, and one
    that resets the quantity of an asset while a unit is out and then takes
    the unit back. *)
Definition overApprove : list Op :=
  setUp 1
  ++ [OpCreateRequest (oid req1Id) 20 (requestBody "eve");
      OpCreateRequest (oid req2Id) 30 (requestBody "fay");
      OpApprove 40 req1Id;
      OpApprove 50 req2Id].

Definition resetThenReturn : list Op :=
  setUp 1
  ++ [OpCreateRequest (oid req1Id) 20 (requestBody "eve");
      OpApprove 40 req1Id;
      OpUpdateAsset laptopId (laptopBody 1);
      OpReturn 60 req1Id].

(** A call sequence that stays within the stock. *)
Definition lendAndReturn : list Op :=
  setUp 2
  ++ [OpCreateRequest (oid req1Id) 20 (requestBody "eve");
      OpCreateRequest (oid req2Id) 30 (requestBody "fay");
      OpApprove 40 req1Id;
      OpReject 50 req2Id;
      OpReturn 60 req1Id].

Definition eve : User :=
  mkUser "eve" "eve@acme.test" "$2b$10$eve" "employee" None None None None
    None None false 5 None None.
Definition fay : User :=
  mkUser "fay" "fay@acme.test" "$2b$10$fay" "employee" None None None None
    None None false 6 None None.

Definition registerBody (who : string) : RegisterBody :=
  {| body_name := Some who;
     body_email := Some (who +:+ "@acme.test");
     body_password := Some "secret";
     body_regCompanyName := None;
     body_companyLogo := None;
     body_dateOfBirth := None |}.

(** Eve and Fay register; Eve has two approved requests at Acme and Fay has
    one. *)
Definition staffing : list Op :=
  [OpRegisterEmployee (oid eveId) 5 "$2b$10$eve" (registerBody "eve");
   OpRegisterEmployee (oid fayId) 6 "$2b$10$fay" (registerBody "fay")]
  ++ setUp 5
  ++ [OpCreateRequest (oid req1Id) 20 (requestBody "eve");
      OpCreateRequest (oid req2Id) 30 (requestBody "fay");
      OpCreateRequest (oid req3Id) 35 (requestBody "eve");
      OpApprove 40 req1Id; OpApprove 50 req2Id; OpApprove 55 req3Id].

Definition staffed : World (ObjectId := N) :=
  perform hexObjectId staffing emptyWorld.

(** A requester without user document: the requests of "ghost", who never
    registered, and of Eve, who did, are approved at Acme. *)
Definition unregistered : World (ObjectId := N) :=
  perform hexObjectId
    ([OpRegisterEmployee (oid eveId) 5 "$2b$10$eve" (registerBody "eve")]
     ++ setUp 5
     ++ [OpCreateRequest (oid req1Id) 20 (requestBody "ghost");
         OpCreateRequest (oid req2Id) 30 (requestBody "eve");
         OpApprove 40 req1Id; OpApprove 50 req2Id])
    emptyWorld.

(** Two registrations of Eve that both look her email up before either
    inserts; then Fay registers, and a request of each is approved at
    Acme. *)
Definition eveTwinId : string := "64b7f0a1c2d3e4f5a6b7c8e2".

Definition registeredTwice : World (ObjectId := N) :=
  perform hexObjectId
    ([OpRegisterEmployee (oid fayId) 6 "$2b$10$fay" (registerBody "fay")]
     ++ setUp 5
     ++ [OpCreateRequest (oid req1Id) 20 (requestBody "eve");
         OpCreateRequest (oid req2Id) 30 (requestBody "fay");
         OpApprove 40 req1Id; OpApprove 50 req2Id])
    (interleave [true; false]
       (registerEmployee (oid eveId) 5 "$2b$10$eve" (registerBody "eve"))
       (registerEmployee (oid eveTwinId) 5 "$2b$10$eve" (registerBody "eve"))
       emptyWorld).2.

End Demo.

(** * The rest of the server *)

(** ** Vocabulary of the life cycle of a request *)

Section Lifecycle.

Context {ObjectId : Type} `{Countable ObjectId}.

(** The status [s'] is [s] or a later status of the workflow: a pending
    request is approved or rejected, an approved one is returned. *)
Definition laterStatus (s s' : string) : Prop :=
  s' = s
  ∨ (s = "pending"
     ∧ (s' = "approved" ∨ s' = "rejected" ∨ s' = "returned"))
  ∨ (s = "approved" ∧ s' = "returned").

(** What a request is created with and keeps: the asset it names, the
    snapshot of the asset, the requester, the date and the note. *)
Definition sameSnapshot (r r' : Request (ObjectId := ObjectId)) : Prop :=
  assetId r' = assetId r ∧ assetName r' = assetName r
  ∧ assetType r' = assetType r ∧ hrEmail r' = hrEmail r
  ∧ companyName r' = companyName r ∧ requesterName r' = requesterName r
  ∧ requesterEmail r' = requesterEmail r ∧ assetImage r' = assetImage r
  ∧ requestDate r' = requestDate r ∧ note r' = note r.

(** The dates and the processor of a request agree with its status. *)
Definition wellTimed (r : Request (ObjectId := ObjectId)) : Prop :=
  (requestStatus r = "pending"
   ∧ approvalDate r = None ∧ processedBy r = None ∧ returnDate r = None)
  ∨ ((requestStatus r = "approved" ∨ requestStatus r = "rejected")
     ∧ is_Some (approvalDate r) ∧ processedBy r = Some "HR"
     ∧ returnDate r = None)
  ∨ (requestStatus r = "returned"
     ∧ is_Some (approvalDate r) ∧ processedBy r = Some "HR"
     ∧ is_Some (returnDate r)).

Definition requestsWellTimed (w : World (ObjectId := ObjectId)) : Prop :=
  ∀ rid r, requestsCol w !! rid = Some r → wellTimed r.

(** The approved requests of the store that name the asset [aid]: the units
    of the asset that are out. *)
Definition outstanding (aid : ObjectId) (w : World (ObjectId := ObjectId))
  : nat :=
  length
    (filter (λ p, requestStatus p.2 = "approved" ∧ assetId p.2 = Some aid)
       (map_to_list (requestsCol w))).

(** The calls that write an asset document as a whole. *)
Definition writesAsset (op : Op (ObjectId := ObjectId)) : bool :=
  match op with
  | OpAddAsset _ _ _ | OpUpdateAsset _ _ | OpDeleteAsset _ => true
  | _ => false
  end.

End Lifecycle.

(** ** Tokens and the guarded routes *)

(** [s.split(sep)] for a separator of one character. *)
Fixpoint split (sep : Ascii.ascii) (s : string) : list string :=
  match s with
  | EmptyString => [EmptyString]
  | String c s' =>
      if Ascii.eqb c sep then EmptyString :: split sep s'
      else
        match split sep s' with
        | piece :: pieces => String c piece :: pieces
        | [] => [String c EmptyString]
        end
  end.

(** No character of [s] is [sep]. *)
Fixpoint freeOf (sep : Ascii.ascii) (s : string) : bool :=
  match s with
  | EmptyString => true
  | String c s' => negb (Ascii.eqb c sep) && freeOf sep s'
  end.

(** The distinct elements of a list, each at the place of its first
    occurrence, and the groups of [{$group: {_id: key, count: {$sum: 1}}}]:
    one for each distinct key, with the number of its occurrences. *)
Definition distinct {A} `{EqDecision A} (l : list A) : list A :=
  fold_left
    (λ (acc : list A) x,
       if bool_decide (x ∈ acc) then acc else (acc ++ [x])%list)
    l [].

Definition occurrences {A} `{EqDecision A} (k : A) (l : list A) : nat :=
  length (filter (λ x, x = k) l).

Definition groupCount {A} `{EqDecision A} (keys : list A) : list (A * nat) :=
  (λ k, (k, occurrences k keys)) <$> distinct keys.

Section Routes.

Context {ObjectId : Type} `{Countable ObjectId}.
Variable newObjectId : string → option ObjectId.

Local Abbreviation Store := (World (ObjectId := ObjectId)).

(** The payload that [login] signs into a token: [{id, role, email}]. *)
Record Claims := mkClaims {
  claim_id : ObjectId;
  claim_role : string;
  claim_email : string;
}.

(** [jwt.verify(token, secret)], which throws ([None]) on a token that it
    does not accept, [jwt.sign(payload, secret, {expiresIn: '1d'})], and
    [bcrypt.compare(plain, hash)], which rejects on arguments that it does
    not accept. *)
Variable jwtVerify : string → option Claims.
Variable jwtSign : Claims → string.
Variable bcryptCompare : option string → string → Error + bool.

(** What the routes of this part send: a body of the first part, or
    documents. *)
Inductive Payload :=
| Plain (b : Body (ObjectId := ObjectId))
| SendUsers (users : list (ObjectId * User))
| SendUser (user : option (ObjectId * User))
| SendRequests (requests : list (ObjectId * Request (ObjectId := ObjectId)))
| SendProfile (user : ObjectId * User) (employees : list (ObjectId * User))
| SendAsset (asset : ObjectId * Asset)
| SendLogin (token : string) (user : ObjectId * User)
| SendAssetTypes (returnable nonReturnable : nat)
| SendTopRequested (top : list (option string * nat)).

Record Reply := mkReply {
  code : nat;
  payload : Payload;
}.

Definition serverError (e : Error) : Reply :=
  mkReply 500 (Plain (ServerError e)).

(** [verifyToken]: it answers ([inl]), or sets [req.user] and calls
    [next()] ([inr]). *)
Definition verifyToken (authorization : option string) : Reply + Claims :=
  if negb (truthy authorization)
  then inl (mkReply 401 (Plain (Msg "No token provided")))
  else
    let token :=
      split Ascii.Space (default EmptyString authorization) !! 1%nat in
    match token ≫= jwtVerify with
    | Some decoded => inr decoded
    | None => inl (mkReply 403 (Plain (Msg "Invalid token")))
    end.

(** [verifyHR] and [verifyEmployee]: they answer, or call [next()]
    ([None]). *)
Definition verifyHR (user : option Claims) : option Reply :=
  match user with
  | None => Some (mkReply 401 (Plain (Msg "Unauthorized")))
  | Some u =>
      if negb (String.eqb (claim_role u) "hr")
      then Some (mkReply 403 (Plain (Msg "HR only")))
      else None
  end.

Definition verifyEmployee (user : option Claims) : option Reply :=
  match user with
  | None => Some (mkReply 401 (Plain (Msg "Unauthorized")))
  | Some u =>
      if negb (String.eqb (claim_role u) "employee")
      then Some (mkReply 403 (Plain (Msg "Employee only")))
      else None
  end.

(** A route [app.METHOD(path, verifyToken, verifyRole, handler)]. *)
Definition guarded (verifyRole : option Claims → option Reply)
  (handle : Claims → Store → Reply * Store)
  (authorization : option string) (w : Store) : Reply * Store :=
  match verifyToken authorization with
  | inl r => (r, w)
  | inr user =>
      match verifyRole (Some user) with
      | Some r => (r, w)
      | None => handle user w
      end
  end.

(** ** Users *)

(** [usersCol.findOne({email})], with the [_id] of the document. An absent
    email matches no document. *)
Definition findUserDoc (address : option string) (w : Store)
  : option (ObjectId * User) :=
  match address with
  | Some e => head (filter (λ p, email p.2 = e) (map_to_list (usersCol w)))
  | None => None
  end.

(** [usersCol.find({role: 'employee', approved: flag})]. *)
Definition employeesWhere (flag : bool) (w : Store)
  : list (ObjectId * User) :=
  filter (λ p, role p.2 = "employee" ∧ approved p.2 = flag)
    (map_to_list (usersCol w)).

(** [{$set: {approved: true}}] *)
Definition setApproved (u : User) : User :=
  mkUser (name u) (email u) (password u) (role u) (user_companyName u)
    (companyLogo u) (dateOfBirth u) (subscription u) (packageLimit u)
    (currentEmployees u) true (createdAt u) (profileImage u) (position u).

(** [req.body] of [POST /auth/login]. *)
Record LoginBody := mkLoginBody {
  login_email : option string;
  login_password : option string;
}.

(** [POST /auth/login] *)
Definition login (b : LoginBody) (w : Store) : Reply :=
  match findUserDoc (login_email b) w with
  | None => mkReply 400 (Plain (Msg "User not found"))
  | Some user =>
      match bcryptCompare (login_password b) (password user.2) with
      | inl e => serverError e
      | inr false => mkReply 400 (Plain (Msg "Invalid password"))
      | inr true =>
          let token :=
            jwtSign (mkClaims user.1 (role user.2) (email user.2)) in
          mkReply 200 (SendLogin token user)
      end
  end.

(** [GET /hr/employees]: the requests that the query [{hrEmail,
    requestStatus: 'approved'}] finds, and the route. *)
Definition approvedFor (hr : string) (w : Store)
  : list (ObjectId * Request) :=
  filter (λ p, hrEmail p.2 = Some hr ∧ requestStatus p.2 = "approved")
    (map_to_list (requestsCol w)).

Definition hrEmployees (hrEmailQuery : option string) (w : Store) : Reply :=
  if truthy hrEmailQuery then
    let approvedReqs := approvedFor (default EmptyString hrEmailQuery) w in
    if (length approvedReqs =? 0)%nat then mkReply 200 (SendUsers [])
    else
      let emails := new_Set ((λ r, requesterEmail r.2) <$> approvedReqs) in
      mkReply 200
        (SendUsers
           (filter (λ p, email p.2 ∈ emails ∧ role p.2 = "employee")
              (map_to_list (usersCol w))))
  else mkReply 200 (SendUsers (employeesWhere true w)).

(** [GET /hr/employees/pending] *)
Definition pendingEmployees : option string → Store → Reply * Store :=
  guarded verifyHR
    (λ _ w, (mkReply 200 (SendUsers (employeesWhere false w)), w)).

(** [PATCH /hr/approve-employee/:id] *)
Definition approveEmployee (id : string)
  : option string → Store → Reply * Store :=
  guarded verifyHR
    (λ _ w,
       match newObjectId id with
       | None => (serverError BSONError, w)
       | Some oid =>
           (mkReply 200
              (Plain (MsgResult "Employee Approved"
                        (matched (usersCol w !! oid)))),
            mkWorld (assetsCol w) (requestsCol w)
              (alter setApproved oid (usersCol w)))
       end).

(** [GET /employee/my-profile] *)
Definition myProfile : option string → Store → Reply * Store :=
  guarded verifyEmployee
    (λ user w,
       (mkReply 200 (SendUser (findUserDoc (Some (claim_email user)) w)), w)).

(** [GET /users/by-email/:email] *)
Definition userByEmail (address : string) (w : Store) : Reply :=
  match findUserDoc (Some address) w with
  | None => mkReply 404 (Plain (Msg "User not found"))
  | Some user =>
      let employees :=
        if String.eqb (role user.2) "hr" then employeesWhere true w else [] in
      mkReply 200 (SendProfile user employees)
  end.

(** ** Reading assets and requests *)

(** [GET /hr/assets/:id] *)
Definition getAsset (id : string) (w : Store) : Reply :=
  match newObjectId id with
  | None => serverError BSONError
  | Some oid =>
      match assetsCol w !! oid with
      | None => mkReply 404 (Plain (Msg "Asset not found"))
      | Some asset => mkReply 200 (SendAsset (oid, asset))
      end
  end.

(** [.sort({requestDate: -1})]: the later request first; requests of the
    same date come in some order, here that of a stable sort. *)
Definition laterFirst (p q : ObjectId * Request (ObjectId := ObjectId))
  : Prop :=
  (requestDate q.2 ≤ requestDate p.2)%Z.

#[global] Instance laterFirst_dec : RelDecision laterFirst :=
  λ p q, decide (requestDate q.2 ≤ requestDate p.2)%Z.

(** [GET /employee/requests/:email] *)
Definition myRequests (address : string) (w : Store) : Reply :=
  mkReply 200
    (SendRequests
       (merge_sort laterFirst
          (filter (λ p, requesterEmail p.2 = address)
             (map_to_list (requestsCol w))))).

(** [GET /hr/requests] *)
Definition hrRequests (w : Store) : Reply :=
  mkReply 200
    (SendRequests (merge_sort laterFirst (map_to_list (requestsCol w)))).

(** ** Analytics *)

(** [matchStage]: with a [hrEmail] that is given, the documents of that
    HR; without, all. *)
Definition matchStage (hrEmailQuery : option string) (owner : option string)
  : bool :=
  if truthy hrEmailQuery then bool_decide (owner = hrEmailQuery) else true.

(** [GET /hr/analytics/asset-types] *)
Definition assetTypes (hrEmailQuery : option string) (w : Store) : Reply :=
  let agg :=
    groupCount
      (productType
         <$> filter (λ a, matchStage hrEmailQuery (asset_hrEmail a) = true)
               (snd <$> map_to_list (assetsCol w))) in
  let counts :=
    fold_left
      (λ (acc : nat * nat) (item : string * nat),
         if String.eqb item.1 "Returnable" then (item.2, acc.2)
         else if String.eqb item.1 "Non-returnable" then (acc.1, item.2)
         else acc)
      agg (0%nat, 0%nat) in
  mkReply 200 (SendAssetTypes counts.1 counts.2).

(** [{$sort: {count: -1}}]: the larger group first. *)
Definition largerFirst (g g' : option string * nat) : Prop :=
  (g'.2 ≤ g.2)%nat.

#[global] Instance largerFirst_dec : RelDecision largerFirst :=
  λ g g', decide (g'.2 ≤ g.2)%nat.

(** [GET /hr/analytics/top-requested] *)
Definition topRequested (hrEmailQuery : option string) (w : Store) : Reply :=
  let agg :=
    groupCount
      (assetName
         <$> filter (λ r, matchStage hrEmailQuery (hrEmail r) = true)
               (snd <$> map_to_list (requestsCol w))) in
  mkReply 200 (SendTopRequested (take 5 (merge_sort largerFirst agg))).

End Routes.

(** ** Packages *)

Record Package := mkPackage {
  package_name : string;
  employeeLimit : Z;
  price : Z;
  features : list string;
}.

Definition defaultPackages : list Package :=
  [mkPackage "Basic" 5 5
     ["Asset Tracking"; "Employee Management"; "Basic Support"];
   mkPackage "Standard" 10 8
     ["All Basic features"; "Advanced Analytics"; "Priority Support"];
   mkPackage "Premium" 20 15
     ["All Standard features"; "Custom Branding"; "24/7 Support"]].

Section Packages.

Context {ObjectId : Type} `{Countable ObjectId}.

(** [packagesCol.insertMany(docs)]: the documents are inserted in order,
    the [n]-th under the id [newId n] that the driver makes for it; a
    duplicate id stops the insertion and rejects. *)
Fixpoint insertMany (newId : nat → ObjectId) (n : nat) (docs : list Package)
  (col : gmap ObjectId Package) : (Error + unit) * gmap ObjectId Package :=
  match docs with
  | [] => (inr (), col)
  | doc :: docs' =>
      match col !! newId n with
      | Some _ => (inl DuplicateKey, col)
      | None => insertMany newId (S n) docs' (<[newId n := doc]> col)
      end
  end.

(** [seedPackages] *)
Definition seedPackages (newId : nat → ObjectId)
  (col : gmap ObjectId Package) : (Error + unit) * gmap ObjectId Package :=
  let count := size col in
  if (count =? 0)%nat then insertMany newId 0 defaultPackages col
  else (inr (), col).

(** [GET /packages] *)
Definition getPackages (col : gmap ObjectId Package)
  : list (ObjectId * Package) :=
  map_to_list col.

End Packages.

(** ** Two calls on one request *)

Section Races.

Context {ObjectId : Type} `{Countable ObjectId}.








End Races.

(** ** A sample office *)

Module Office.

Import Demo.

Definition hrId : string := "64b7f0a1c2d3e4f5a6b7c8a1".

Definition hrBody : RegisterBody :=
  {| body_name := Some "hana";
     body_email := Some "hr@acme.test";
     body_password := Some "secret";
     body_regCompanyName := Some "Acme";
     body_companyLogo := Some "acme.png";
     body_dateOfBirth := None |}.

Definition hana : User :=
  mkUser "hana" "hr@acme.test" "$2b$10$secret" "hr" (Some "Acme")
    (Some "acme.png") None (Some "basic") (Some 5) (Some 0) true 1 None None.

Definition hanaClaims : Claims (ObjectId := N) :=
  mkClaims (oid hrId) "hr" "hr@acme.test".

(** Stand-ins for the token and the password library: a token spells out
    the role and the email, a hash is the password behind a prefix. *)
Definition jwtSign (c : Claims (ObjectId := N)) : string :=
  "jwt." +:+ claim_role c +:+ "." +:+ claim_email c.

Definition jwtVerify (token : string) : option (Claims (ObjectId := N)) :=
  if String.eqb token "jwt.hr.hr@acme.test" then Some hanaClaims
  else if String.eqb token "jwt.employee.eve@acme.test"
       then Some (mkClaims (oid eveId) "employee" "eve@acme.test")
       else None.

Definition bcryptCompare (plain : option string) (hash : string)
  : Error + bool :=
  inr (bool_decide (Some hash = (λ p, "$2b$10$" +:+ p) <$> plain)).

Definition hanaHeader : option string := Some "Bearer jwt.hr.hr@acme.test".

(** Hana has registered as the HR of Acme. *)
Definition opened : World (ObjectId := N) :=
  perform hexObjectId [OpRegisterHR (oid hrId) 1 "$2b$10$secret" hrBody]
    emptyWorld.

(** Then Eve and Fay register, and their requests are approved. *)
Definition office : World (ObjectId := N) :=
  perform hexObjectId staffing opened.

(** The requests of [lendAndReturn], on the store with two laptops. *)
Definition lending : list Op :=
  [OpCreateRequest (oid req1Id) 20 (requestBody "eve");
   OpCreateRequest (oid req2Id) 30 (requestBody "fay");
   OpApprove 40 req1Id;
   OpReject 50 req2Id;
   OpReturn 60 req1Id].

Definition stocked : World (ObjectId := N) :=
  perform hexObjectId (setUp 2) emptyWorld.

(** A request whose asset id is not an id. *)
Definition strayBody : RequestBody :=
  {| body_assetId := Some "laptop";
     body_assetName := Some "Laptop";
     body_assetType := Some "Returnable";
     body_reqCompanyName := Some "Acme";
     body_reqHrEmail := Some "hr@acme.test";
     body_requesterName := Some "eve";
     body_requesterEmail := Some "eve@acme.test";
     body_note := None;
     body_assetImage := None |}.

(** A laptop whose quantity is sent as the string "0", and an update that
    sends [null] for the quantity and nothing else. *)
Definition zeroTextBody : AssetBody :=
  {| body_productName := Some "Laptop";
     body_productImage := Some "laptop.png";
     body_productType := Some "Returnable";
     body_productQuantity := Some (QString "0" 0);
     body_hrEmail := Some "hr@acme.test";
     body_companyName := Some "Acme" |}.

Definition nullQuantityBody : AssetBody :=
  {| body_productName := None;
     body_productImage := None;
     body_productType := None;
     body_productQuantity := Some QNull;
     body_hrEmail := None;
     body_companyName := None |}.

(** The ids that the driver makes for the packages of two starts. *)
Definition firstStart (n : nat) : N := N.of_nat n.
Definition secondStart (n : nat) : N := N.of_nat (n + 10).

End Office.

(** * Properties of the workflow *)

(** ** Sets of strings and lists without duplicates *)

Lemma Set_add_elem acc x y : y ∈ Set_add acc x ↔ y ∈ acc ∨ y = x.
Proof.
  unfold Set_add. case_bool_decide.
  - split; [by left|]. intros [?| ->]; done.
  - rewrite elem_of_app, list_elem_of_singleton. done.
Qed.

Lemma Set_add_NoDup acc x : NoDup acc → NoDup (Set_add acc x).
Proof.
  intros Hacc. unfold Set_add. case_bool_decide; [done|].
  apply NoDup_app. repeat split; [done| |apply NoDup_singleton].
  intros y Hy. rewrite list_elem_of_singleton. by intros ->.
Qed.

Lemma fold_Set_add_elem l :
  ∀ acc y, y ∈ fold_left Set_add l acc ↔ y ∈ acc ∨ y ∈ l.
Proof.
  induction l as [|x l IH]; intros acc y; cbn.
  - split; [by left|]. intros [?|Hy]; [done|by apply elem_of_nil in Hy].
  - rewrite IH, Set_add_elem, elem_of_cons. tauto.
Qed.

Lemma fold_Set_add_NoDup l :
  ∀ acc, NoDup acc → NoDup (fold_left Set_add l acc).
Proof.
  induction l as [|x l IH]; intros acc Hacc; cbn; [done|].
  by apply IH, Set_add_NoDup.
Qed.

Lemma new_Set_elem l y : y ∈ new_Set l ↔ y ∈ l.
Proof.
  unfold new_Set. rewrite fold_Set_add_elem.
  split; [|by right]. intros [Hy|?]; [by apply elem_of_nil in Hy|done].
Qed.

Lemma new_Set_NoDup l : NoDup (new_Set l).
Proof. apply fold_Set_add_NoDup, NoDup_nil_2. Qed.

Lemma NoDup_all_equal {A} (l : list A) :
  NoDup l → (∀ x y, x ∈ l → y ∈ l → x = y) → (length l ≤ 1)%nat.
Proof.
  intros Hnd Hall. destruct l as [|x [|y l]]; cbn; [lia|lia|].
  assert (x = y) as ->.
  { apply Hall; [apply list_elem_of_here|].
    apply list_elem_of_further, list_elem_of_here. }
  apply NoDup_cons in Hnd as [Hnd _]. destruct Hnd. by left.
Qed.

Lemma orElse_truthy v d : d ≠ EmptyString → orElse v d ≠ EmptyString.
Proof.
  intros Hd. unfold orElse. destruct v as [s|]; [|done].
  destruct (String.eqb s EmptyString) eqn:Hs; [done|].
  by apply String.eqb_neq in Hs.
Qed.

Lemma eqb_string_true (s t : string) : String.eqb s t = true ↔ s = t.
Proof. apply String.eqb_eq. Qed.

Lemma eqb_string_false (s t : string) : String.eqb s t = false ↔ s ≠ t.
Proof. apply String.eqb_neq. Qed.

Section Properties.

Context {ObjectId : Type} `{Countable ObjectId}.
Variable newObjectId : string → option ObjectId.

(** ** The store under single-document updates *)

Lemma alter_found {A} (f : A → A) (m : gmap ObjectId A) i x :
  m !! i = Some x → alter f i m = <[i := f x]> m.
Proof.
  intros Hi. apply map_eq. intros j. rewrite lookup_alter, lookup_insert.
  destruct (decide (i = j)) as [->|]; [by rewrite Hi|done].
Qed.

Lemma alter_missing {A} (f : A → A) (m : gmap ObjectId A) i :
  m !! i = None → alter f i m = m.
Proof.
  intros Hi. apply map_eq. intros j. rewrite lookup_alter.
  destruct (decide (i = j)) as [->|]; [by rewrite Hi|done].
Qed.

(** ** [approve] *)

(** What [approve] does to a pending request when no call rejects: the
    asset it names, if it is in the store, loses one unit, whatever its
    available quantity is, and the request is approved. *)
Lemma approve_pending now id rid r w :
  newObjectId id = Some rid →
  requestsCol w !! rid = Some r →
  requestStatus r = "pending" →
  serve noFault (approve newObjectId now id) w =
    (send (Msg "Request approved"),
     mkWorld
       (match assetId r with
        | Some aid =>
            alter (λ a, withAvailable a (availableQuantity a + -1)) aid
              (assetsCol w)
        | None => assetsCol w
        end)
       (<[rid := processed r "approved" now]> (requestsCol w))
       (usersCol w)).
Proof.
  intros Hid Hr Hst.
  unfold serve, approve. rewrite Hid. cbn. rewrite Hr, Hst. cbn.
  destruct (assetId r) as [aid|] eqn:Haid; cbn;
    rewrite (alter_found _ _ _ _ Hr); done.
Qed.

Lemma approve_processed now id rid r w :
  newObjectId id = Some rid →
  requestsCol w !! rid = Some r →
  requestStatus r ≠ "pending" →
  serve noFault (approve newObjectId now id) w =
    (sendStatus 400 (Msg "Request already processed"), w).
Proof.
  intros Hid Hr Hst. apply eqb_string_false in Hst.
  unfold serve, approve. rewrite Hid. cbn. rewrite Hr, Hst. done.
Qed.

(** C10. Approving a pending request whose asset is no longer in the asset
    store answers 200 "Request approved", sets the request to approved with
    the approval date and the processor, and leaves the asset store as it
    was: the decrement matches no document and is not an error. *)
Theorem approve_missing_asset now id rid r w :
  newObjectId id = Some rid →
  requestsCol w !! rid = Some r →
  requestStatus r = "pending" →
  (∀ aid, assetId r = Some aid → assetsCol w !! aid = None) →
  serve noFault (approve newObjectId now id) w =
    (send (Msg "Request approved"),
     mkWorld (assetsCol w)
       (<[rid := processed r "approved" now]> (requestsCol w))
       (usersCol w)).
Proof.
  intros Hid Hr Hst Ha.
  rewrite (approve_pending _ _ _ _ _ Hid Hr Hst).
  destruct (assetId r) as [aid|]; [|done].
  by rewrite (alter_missing _ _ _ (Ha aid eq_refl)).
Qed.

(** C1, as the code has it. Approving a pending request whose asset has
    no unit available answers 200 "Request approved": the request is set to
    approved with the approval date and the processor, and the available
    quantity of the asset goes from 0 to -1. *)
Theorem approve_empty_stock now id rid r aid a w :
  newObjectId id = Some rid →
  requestsCol w !! rid = Some r →
  requestStatus r = "pending" →
  assetId r = Some aid →
  assetsCol w !! aid = Some a →
  availableQuantity a = 0 →
  serve noFault (approve newObjectId now id) w =
    (send (Msg "Request approved"),
     mkWorld (<[aid := withAvailable a (-1)]> (assetsCol w))
       (<[rid := processed r "approved" now]> (requestsCol w))
       (usersCol w)).
Proof.
  intros Hid Hr Hst Haid Ha Hq.
  rewrite (approve_pending _ _ _ _ _ Hid Hr Hst), Haid.
  by rewrite (alter_found _ _ _ _ Ha), Hq.
Qed.

(** Case analysis on everything a handler branches on. *)
Ltac handler_cases :=
  repeat match goal with
    | |- context [newObjectId ?s] => destruct (newObjectId s) eqn:?; cbn
    | |- context [if ?f ?n then _ else _] =>
        is_var f; destruct (f n) eqn:?; cbn
    | |- context [requestsCol ?w !! ?i] =>
        destruct (requestsCol w !! i) eqn:?; cbn
    | |- context [String.eqb ?s ?t] => destruct (String.eqb s t) eqn:?; cbn
    | |- context [bool_decide ?P] => destruct (bool_decide_reflect P); cbn
    | |- context [assetId ?r] => destruct (assetId r) eqn:?; cbn
    end.


(** ** [reject] *)

Lemma reject_assets fault now id w :
  assetsCol (serve fault (reject newObjectId now id) w).2 = assetsCol w.
Proof. unfold serve, reject. handler_cases; done. Qed.

(** C5. Whatever [reject] answers, and whichever of its calls rejects, the
    asset store after the call is the asset store before it. When it
    answers 200 the request was pending and is now the same request with
    status rejected, the approval date and the processor; on every other
    answer the whole store is unchanged. *)
Theorem reject_keeps_assets fault now id w :
  assetsCol (serve fault (reject newObjectId now id) w).2 = assetsCol w
  ∧ usersCol (serve fault (reject newObjectId now id) w).2 = usersCol w
  ∧ (status (serve fault (reject newObjectId now id) w).1 = 200%nat →
     ∃ rid r,
       newObjectId id = Some rid ∧ requestsCol w !! rid = Some r
       ∧ requestStatus r = "pending"
       ∧ requestsCol (serve fault (reject newObjectId now id) w).2 =
           <[rid := processed r "rejected" now]> (requestsCol w))
  ∧ (status (serve fault (reject newObjectId now id) w).1 ≠ 200%nat →
     (serve fault (reject newObjectId now id) w).2 = w).
Proof.
  unfold serve, reject.
  handler_cases; repeat split; try done.
  intros _.
  match goal with
  | Hi : newObjectId _ = Some ?i, Hr : requestsCol _ !! ?i = Some ?x,
    Hs : String.eqb _ _ = true |- _ =>
      exists i, x; apply eqb_string_true in Hs;
      rewrite (alter_found _ _ _ _ Hr); done
  end.
Qed.

(** ** [returnAsset] *)

Lemma returnAsset_accepted now id rid r w :
  newObjectId id = Some rid →
  requestsCol w !! rid = Some r →
  requestStatus r = "approved" →
  assetType r = Some "Returnable" →
  serve noFault (returnAsset newObjectId now id) w =
    (send (Msg "Asset returned"),
     mkWorld
       (match assetId r with
        | Some aid =>
            alter (λ a, withAvailable a (availableQuantity a + 1)) aid
              (assetsCol w)
        | None => assetsCol w
        end)
       (<[rid := returned r now]> (requestsCol w))
       (usersCol w)).
Proof.
  intros Hid Hr Hst Hty.
  unfold serve, returnAsset. rewrite Hid. cbn. rewrite Hr, Hst. cbn.
  rewrite bool_decide_true by done. cbn.
  destruct (assetId r) as [aid|] eqn:Haid; cbn;
    rewrite (alter_found _ _ _ _ Hr); done.
Qed.

(** C7. Returning an approved, Returnable request whose asset is no longer
    in the asset store answers 200 "Asset returned" and sets the request to
    returned with the return date; the increment matches no document, the
    asset store is left as it was. *)
Theorem returnAsset_missing_asset now id rid r w :
  newObjectId id = Some rid →
  requestsCol w !! rid = Some r →
  requestStatus r = "approved" →
  assetType r = Some "Returnable" →
  (∀ aid, assetId r = Some aid → assetsCol w !! aid = None) →
  serve noFault (returnAsset newObjectId now id) w =
    (send (Msg "Asset returned"),
     mkWorld (assetsCol w) (<[rid := returned r now]> (requestsCol w))
       (usersCol w)).
Proof.
  intros Hid Hr Hst Hty Ha.
  rewrite (returnAsset_accepted _ _ _ _ _ Hid Hr Hst Hty).
  destruct (assetId r) as [aid|]; [|done].
  by rewrite (alter_missing _ _ _ (Ha aid eq_refl)).
Qed.

Lemma returnAsset_refused fault now id rid r w :
  newObjectId id = Some rid →
  requestsCol w !! rid = Some r →
  requestStatus r ≠ "approved" ∨ assetType r ≠ Some "Returnable" →
  status (serve fault (returnAsset newObjectId now id) w).1 ≠ 200%nat
  ∧ (serve fault (returnAsset newObjectId now id) w).2 = w.
Proof.
  intros Hid Hr Hno. unfold serve, returnAsset. rewrite Hid. cbn.
  destruct (fault 0%nat); cbn; [done|]. rewrite Hr.
  destruct (String.eqb (requestStatus r) "approved") eqn:Hst; cbn; [|done].
  apply eqb_string_true in Hst.
  destruct (bool_decide_reflect (assetType r = Some "Returnable")); cbn;
    [|done].
  by destruct Hno.
Qed.



(** ** [createRequest] *)

(** C8, as the code has it. [createRequest] never reads the asset store.
    With an [assetId] that makes an id, a requester email and a fresh
    document id, it answers 201 "Request created" whether or not an asset
    has that id, and stores a request whose name, type, image and company
    are those of the body (with the defaults of the code for an absent image
    or company), whose status is pending, whose request date is the server
    time, and which has no approval date and no processor. *)
Theorem createRequest_trusts_body oid now b aid w :
  truthy (body_assetId b) = true →
  truthy (body_requesterEmail b) = true →
  newObjectId (default EmptyString (body_assetId b)) = Some aid →
  requestsCol w !! oid = None →
  serve noFault (createRequest newObjectId oid now b) w =
    (sendStatus 201 (MsgId "Request created" oid),
     mkWorld (assetsCol w) (<[oid := requestDoc aid now b]> (requestsCol w))
       (usersCol w))
  ∧ assetName (requestDoc aid now b) = body_assetName b
  ∧ assetType (requestDoc aid now b) = body_assetType b
  ∧ assetImage (requestDoc aid now b) = orNull (body_assetImage b)
  ∧ companyName (requestDoc aid now b) =
      orElse (body_reqCompanyName b) "Unknown Company"
  ∧ requestStatus (requestDoc aid now b) = "pending"
  ∧ requestDate (requestDoc aid now b) = now
  ∧ approvalDate (requestDoc aid now b) = None
  ∧ processedBy (requestDoc aid now b) = None.
Proof.
  intros Ha He Hid Hfresh. split; [|done].
  unfold serve, createRequest. rewrite Ha, He, Hid. cbn.
  by rewrite Hfresh.
Qed.

(** ** Two [approve] calls on one request *)













(** ** The inventory bound *)

Lemma bounded_alter_safe (f : Asset → Asset) i (m : gmap ObjectId Asset) :
  (∀ aid a,
     m !! aid = Some a → bounded a ∧ productQuantity a ≤ maxSafeInteger) →
  (∀ a, m !! i = Some a →
        bounded (f a) ∧ productQuantity (f a) ≤ maxSafeInteger) →
  ∀ aid a,
    alter f i m !! aid = Some a →
    bounded a ∧ productQuantity a ≤ maxSafeInteger.
Proof.
  intros Hm Hf aid a. rewrite lookup_alter.
  destruct (decide (i = aid)) as [->|]; [|by apply Hm].
  destruct (m !! aid) as [a0|] eqn:Ha0; [|done].
  cbn. intros [= <-]. by apply Hf.
Qed.

Lemma bounded_assetUpdateOf b a :
  (∀ v, body_productQuantity b = Some v → 0 ≤ toNumber v ≤ maxSafeInteger) →
  bounded a ∧ productQuantity a ≤ maxSafeInteger →
  bounded (fold_left applyAssetUpdate (assetUpdateOf b) a)
  ∧ productQuantity (fold_left applyAssetUpdate (assetUpdateOf b) a)
    ≤ maxSafeInteger.
Proof.
  intros Hq Ha. unfold assetUpdateOf.
  destruct (truthy (body_productName b)),
    (truthy (body_productImage b)), (truthy (body_productType b)),
    (body_productQuantity b) as [v|]; cbn; unfold bounded in *; cbn;
    try done; specialize (Hq v eq_refl); lia.
Qed.

(** The loop of [myTeam] only reads. *)
Lemma teamsOf_reads fault companySet :
  ∀ teams n (w : World (ObjectId := ObjectId)),
    (run fault (teamsOf companySet teams) n w).2 = w.
Proof.
  induction companySet as [|c cs IH]; intros teams n w; cbn; [done|].
  destruct (fault n); [done|].
  destruct (length _ =? 0)%nat; [apply IH|].
  cbn. destruct (fault (S n)); [done|]. apply IH.
Qed.

Lemma myTeam_reads fault employee (w : World (ObjectId := ObjectId)) :
  (serve fault (myTeam employee) w).2 = w.
Proof.
  unfold serve, myTeam. cbn. destruct (fault 0%nat); [done|].
  destruct (length _ =? 0)%nat; [done|].
  match goal with
  | |- context [run fault (teamsOf ?cs ?t) ?n w] =>
      pose proof (teamsOf_reads fault cs t n w) as Hw;
      destruct (run fault (teamsOf cs t) n w) as [[e|r] w']
  end; cbn in *; done.
Qed.

Lemma registerHR_frame (oid : ObjectId) now salted b w :
  assetsCol (serve noFault (registerHR oid now salted b) w).2 = assetsCol w.
Proof.
  unfold serve, registerHR. destruct (negb _ || _ || _ || _ || _); [done|].
  cbn. destruct (findUser _ w); [done|]. cbn.
  by destruct (usersCol w !! oid).
Qed.

Lemma registerEmployee_frame (oid : ObjectId) now salted b w :
  assetsCol (serve noFault (registerEmployee oid now salted b) w).2 =
    assetsCol w.
Proof.
  unfold serve, registerEmployee. destruct (negb _ || _ || _); [done|].
  cbn. destruct (findUser _ w); [done|]. cbn.
  by destruct (usersCol w !! oid).
Qed.

Lemma withinStock_step op w :
  safeStock w → withinStock newObjectId op w →
  safeStock (serve noFault (handler newObjectId op) w).2.
Proof.
  intros Hinv Hop. destruct op as [oid now salted b|oid now salted b
                                   |oid now b|id b|id|oid now b|now id
                                   |now id|now id|employee]; cbn [handler].
  - intros aid a. rewrite registerHR_frame. apply Hinv.
  - intros aid a. rewrite registerEmployee_frame. apply Hinv.
  - unfold serve, addAsset.
    destruct (negb _ || _ || _ || _) eqn:Hb; cbn; [done|].
    destruct (assetsCol w !! oid) eqn:Hfresh; cbn; [done|].
    intros aid a. cbn. rewrite lookup_insert.
    destruct (decide (oid = aid)) as [->|]; [|by apply Hinv].
    intros [= <-]. unfold bounded. cbn.
    destruct (body_productQuantity b) as [v|] eqn:Hq; cbn.
    + specialize (Hop v Hq). cbn in Hop. lia.
    + unfold maxSafeInteger. lia.
  - unfold serve, updateAsset.
    destruct (newObjectId id) as [oid|]; cbn; [|done].
    assert (safeStock
              (mkWorld
                 (alter (λ a, fold_left applyAssetUpdate (assetUpdateOf b) a)
                    oid (assetsCol w))
                 (requestsCol w) (usersCol w))) as Hnew.
    { intros aid a. cbn. apply bounded_alter_safe; [done|].
      intros a0 Ha0. apply bounded_assetUpdateOf; [done|by eapply Hinv]. }
    by destruct (matched _ =? 0)%nat.
  - unfold serve, deleteAsset.
    destruct (newObjectId id) as [oid|]; cbn; [|done].
    assert (safeStock
              (mkWorld (delete oid (assetsCol w)) (requestsCol w)
                 (usersCol w))) as Hnew.
    { intros aid a. cbn. rewrite lookup_delete_Some. intros [_ Ha].
      by eapply Hinv. }
    by destruct (matched _ =? 0)%nat.
  - unfold serve, createRequest.
    destruct (negb _ || _); cbn; [done|].
    destruct (newObjectId _); cbn; [|done].
    by destruct (requestsCol w !! oid).
  - unfold serve, returnAsset.
    destruct (newObjectId id) as [rid|] eqn:Hid; cbn; [|done].
    destruct (requestsCol w !! rid) as [r|] eqn:Hr; cbn; [|done].
    destruct (String.eqb _ _) eqn:Hst; cbn; [|done].
    apply eqb_string_true in Hst.
    destruct (bool_decide_reflect (assetType r = Some "Returnable"));
      cbn; [|done].
    destruct (assetId r) as [aid|] eqn:Haid; cbn; [|done].
    intros aid' a'. cbn. apply bounded_alter_safe; [done|].
    intros a Ha. cbn in Hop.
    specialize (Hop _ _ _ _ Hid Hr Hst ltac:(done) Haid Ha).
    specialize (Hinv _ _ Ha). unfold bounded in *. cbn. lia.
  - unfold serve, approve.
    destruct (newObjectId id) as [rid|] eqn:Hid; cbn; [|done].
    destruct (requestsCol w !! rid) as [r|] eqn:Hr; cbn; [|done].
    destruct (String.eqb _ _) eqn:Hst; cbn; [|done].
    apply eqb_string_true in Hst.
    destruct (assetId r) as [aid|] eqn:Haid; cbn; [|done].
    intros aid' a'. cbn. apply bounded_alter_safe; [done|].
    intros a Ha. cbn in Hop.
    specialize (Hop _ _ _ _ Hid Hr Hst Haid Ha).
    specialize (Hinv _ _ Ha). unfold bounded in *. cbn. lia.
  - intros aid a. rewrite reject_assets. apply Hinv.
  - by rewrite myTeam_reads.
Qed.

(** C2, as the code has it. No handler checks the bound, nor that a
    quantity is an integer: creating or updating an asset sets both
    quantities to the given number, [approve] takes one unit and
    [returnAsset] gives one back unconditionally. On integers that
    JavaScript represents exactly, the bound
    [0 ≤ availableQuantity ≤ productQuantity] holds after a sequence of
    calls, served one at a time from a store within the bound, when every
    call of the sequence stays within the stock: assets are created and
    updated with a non-negative integer quantity of at most
    [Number.MAX_SAFE_INTEGER], each approval of a pending request finds a
    unit available, and each accepted return finds a unit out. Every
    quantity is then an integer between 0 and [Number.MAX_SAFE_INTEGER]. *)
Theorem stock_bound_when_within_stock ops w :
  safeStock w →
  allWithinStock newObjectId ops w →
  safeStock (perform newObjectId ops w)
  ∧ stockInvariant (perform newObjectId ops w).
Proof.
  intros Hinv Hall.
  assert (safeStock (perform newObjectId ops w)) as Hsafe.
  { revert w Hinv Hall.
    induction ops as [|op ops IH]; intros w Hinv Hall; [done|].
    destruct Hall as [Hop Hall]. unfold perform. cbn [fold_left].
    apply IH; [by apply withinStock_step|done]. }
  split; [done|]. intros aid a Ha. exact (proj1 (Hsafe aid a Ha)).
Qed.

(** ** [myTeam] *)

(** The loop of [myTeam], when no call rejects: one group for each company
    of the set that has approved requests, in the order of the set. *)
Lemma teamsOf_run companySet :
  ∀ teams n (w : World (ObjectId := ObjectId)),
    run noFault (teamsOf companySet teams) n w =
      (inr (send (SendTeams (teams ++ omap (teamFor w) companySet))), w).
Proof.
  induction companySet as [|c cs IH]; intros teams n w; cbn.
  - by rewrite app_nil_r.
  - unfold teamFor.
    destruct (length (findRequests _ w) =? 0)%nat; cbn; rewrite IH; [done|].
    by rewrite <- app_assoc.
Qed.

Lemma teamFor_company (w : World (ObjectId := ObjectId)) c t :
  teamFor w c = Some t → team_companyName t = c.
Proof.
  unfold teamFor. destruct (length _ =? 0)%nat; [done|]. by intros [= <-].
Qed.

(** Among the groups of distinct companies, one is the group of [c]. *)
Lemma one_group_per_company (w : World (ObjectId := ObjectId)) cs c t :
  NoDup cs → c ∈ cs → teamFor w c = Some t →
  filter (λ t, team_companyName t = c) (omap (teamFor w) cs) = [t].
Proof.
  intros Hnd Hc Ht.
  assert (∀ l, c ∉ l →
            filter (λ t, team_companyName t = c) (omap (teamFor w) l) = [])
    as Hnone.
  { induction l as [|x l IH]; intros Hx; [done|].
    apply not_elem_of_cons in Hx as [Hx Hl]. cbn.
    destruct (teamFor w x) as [t'|] eqn:Hx'; cbn; [|by apply IH].
    rewrite decide_False; [by apply IH|].
    by rewrite (teamFor_company _ _ _ Hx'). }
  induction Hnd as [|x l Hx Hnd IH]; [by apply elem_of_nil in Hc|].
  cbn. destruct (decide (x = c)) as [->|Hne].
  - rewrite Ht. cbn.
    rewrite decide_True by by apply (teamFor_company w).
    by rewrite Hnone.
  - apply elem_of_cons in Hc as [->|Hl]; [done|].
    destruct (teamFor w x) as [t'|] eqn:Hx'; cbn; [|by apply IH].
    rewrite decide_False; [by apply IH|].
    by rewrite (teamFor_company _ _ _ Hx').
Qed.

(** The profiles found for a set of emails hold a user of the store as
    often as the store holds a document with that email. *)
Lemma countEmail_found e (emails : list string)
  (l : list (ObjectId * User)) :
  e ∈ emails →
  countEmail e (project <$> filter (λ u, email u ∈ emails) (snd <$> l)) =
    length (filter (λ kv, email kv.2 = e) l).
Proof.
  intros He. unfold countEmail.
  induction l as [|[i u] l IH]; [done|].
  rewrite fmap_cons. cbn [snd].
  destruct (decide (email u = e)) as [Hu|Hu].
  - rewrite (filter_cons_True (λ kv, email kv.2 = e)) by done.
    rewrite filter_cons_True by (by rewrite Hu).
    rewrite fmap_cons, filter_cons_True by done.
    cbn [length]. by rewrite IH.
  - rewrite (filter_cons_False (λ kv, email kv.2 = e)) by done.
    destruct (decide (email u ∈ emails)).
    + rewrite filter_cons_True by done.
      by rewrite fmap_cons, filter_cons_False.
    + by rewrite filter_cons_False.
Qed.

Lemma emailsUnique_count_le (w : World (ObjectId := ObjectId)) e :
  emailsUnique w →
  (length (filter (λ kv, email kv.2 = e) (map_to_list (usersCol w))) ≤ 1)%nat.
Proof.
  intros Huniq. apply NoDup_all_equal.
  - apply NoDup_filter, NoDup_map_to_list.
  - intros [i u] [j v].
    rewrite !list_elem_of_filter, !elem_of_map_to_list. cbn.
    intros [Hu Hi] [Hv Hj].
    assert (i = j) as -> by (eapply Huniq; [done..|congruence]).
    congruence.
Qed.

Lemma registered_count (w : World (ObjectId := ObjectId)) e :
  emailsUnique w → registered w e →
  length (filter (λ kv, email kv.2 = e) (map_to_list (usersCol w))) = 1%nat.
Proof.
  intros Huniq (i & u & Hu & He).
  pose proof (emailsUnique_count_le w e Huniq) as Hle.
  destruct (filter _ _) as [|kv l] eqn:Hf; [|cbn in *; lia].
  assert ((i, u) ∈ filter (λ kv, email kv.2 = e) (map_to_list (usersCol w)))
    as Hin.
  { apply list_elem_of_filter. split; [done|by apply elem_of_map_to_list]. }
  rewrite Hf in Hin. by apply elem_of_nil in Hin.
Qed.

Lemma approvedAt_found (w : World (ObjectId := ObjectId)) e c :
  approvedAt w e c →
  ∃ p, p ∈ findRequests (ByCompanyStatus c "approved") w
       ∧ p ∈ findRequests (ByRequesterStatus e "approved") w
       ∧ requesterEmail p.2 = e ∧ companyName p.2 = c.
Proof.
  intros (i & r & Hr & He & Hc & Hst). exists (i, r).
  unfold findRequests. rewrite !list_elem_of_filter, elem_of_map_to_list.
  cbn. rewrite He, Hc, Hst, !String.eqb_refl. done.
Qed.

(** C9, as the code has it. [myTeam] lists user documents, not
    requesters: the colleagues of a group are the documents of [usersCol]
    whose email is that of an approved request at the company. No handler
    checks that a requester has a user document, and nothing but the
    look-up of the registrations keeps two documents from having one
    email. When no two user documents have the same email, every request
    has a company name, [E] has an approved request at the company [C], so
    has [F], and both have a user document, then [myTeam E] answers with
    exactly one group for [C], and the colleagues of that group hold [E]
    once and [F] once, however many approved requests they have at [C]; no
    email is listed twice. *)
Theorem myTeam_one_group (w : World (ObjectId := ObjectId)) E F C :
  storeInvariant w →
  approvedAt w E C → approvedAt w F C →
  registered w E → registered w F →
  ∃ teams found,
    serve noFault (myTeam E) w = (send (SendTeams teams), w)
    ∧ filter (λ t, team_companyName t = C) teams = [mkTeam C found]
    ∧ countEmail E found = 1%nat
    ∧ countEmail F found = 1%nat
    ∧ ∀ e, (countEmail e found ≤ 1)%nat.
Proof.
  intros [Huniq Hnamed] HE HF HuE HuF.
  assert (C ≠ EmptyString) as HC.
  { destruct HE as (i & r & Hr & _ & <- & _). by eapply Hnamed. }
  destruct (approvedAt_found _ _ _ HE) as (pE & HpE & HmyE & HeE & HcE).
  destruct (approvedAt_found _ _ _ HF) as (pF & HpF & _ & HeF & _).
  set (companyReqs := findRequests (ByCompanyStatus C "approved") w) in *.
  set (emails := new_Set ((λ r, requesterEmail r.2) <$> companyReqs)).
  exists (omap (teamFor w)
            (new_Set ((λ r, orElse (Some (companyName r.2)) "Unknown Company")
                        <$> findRequests (ByRequesterStatus E "approved") w))),
    (findUsersIn emails w).
  assert (teamFor w C = Some (mkTeam C (findUsersIn emails w))) as Hteam.
  { unfold teamFor. fold companyReqs.
    destruct companyReqs as [|p l] eqn:Hreqs; [|done].
    by apply elem_of_nil in HpE. }
  assert (∀ e, e ∈ emails →
            countEmail e (findUsersIn emails w) =
              length (filter (λ kv, email kv.2 = e)
                        (map_to_list (usersCol w)))) as Hcount.
  { intros e He. by apply countEmail_found. }
  assert (E ∈ emails) as HEin.
  { apply new_Set_elem, list_elem_of_fmap. by exists pE. }
  assert (F ∈ emails) as HFin.
  { apply new_Set_elem, list_elem_of_fmap. by exists pF. }
  split; [|split; [|split; [|split]]].
  - unfold serve, myTeam. cbn.
    destruct (findRequests (ByRequesterStatus E "approved") w) as [|p l]
      eqn:Hmy; [by apply elem_of_nil in HmyE|].
    cbn [length Nat.eqb]. by rewrite teamsOf_run.
  - apply one_group_per_company; [apply new_Set_NoDup| |done].
    apply new_Set_elem, list_elem_of_fmap. exists pE. split; [|done].
    rewrite HcE. cbn. apply eqb_string_false in HC. by rewrite HC.
  - by rewrite Hcount, registered_count.
  - by rewrite Hcount, registered_count.
  - intros e. destruct (decide (e ∈ emails)) as [Hin|Hout].
    + rewrite Hcount by done. by apply emailsUnique_count_le.
    + unfold countEmail.
      destruct (filter (λ p, p_email p = e) (findUsersIn emails w))
        as [|p l] eqn:Hf; [cbn; lia|].
      assert (p ∈ filter (λ p, p_email p = e) (findUsersIn emails w))
        as Hp by (rewrite Hf; apply list_elem_of_here).
      apply list_elem_of_filter in Hp as [<- Hp]. unfold findUsersIn in Hp.
      apply list_elem_of_fmap in Hp as (u & -> & Hu).
      apply list_elem_of_filter in Hu as [Hu _]. done.
Qed.

(** ** The invariant of the store *)

Lemma findUser_None (w : World (ObjectId := ObjectId)) e i u :
  findUser e w = None → usersCol w !! i = Some u → email u ≠ e.
Proof.
  unfold findUser. intros Hnone Hu He.
  apply head_None in Hnone.
  apply (filter_nil_not_elem_of _ _ u Hnone He), list_elem_of_fmap.
  exists (i, u).
  split; [done|by apply elem_of_map_to_list].
Qed.

Lemma emailsUnique_insert (m : gmap ObjectId User) oid doc :
  (∀ i j u v, m !! i = Some u → m !! j = Some v → email u = email v → i = j) →
  m !! oid = None →
  (∀ i u, m !! i = Some u → email u ≠ email doc) →
  ∀ i j u v,
    <[oid := doc]> m !! i = Some u → <[oid := doc]> m !! j = Some v →
    email u = email v → i = j.
Proof.
  intros Huniq Hfresh Hnew i j u v. rewrite !lookup_insert.
  destruct (decide (oid = i)) as [<-|Hi], (decide (oid = j)) as [<-|Hj];
    try done.
  - intros [= <-] Hv He. symmetry in He. by destruct (Hnew _ _ Hv).
  - intros Hu [= <-] He. by destruct (Hnew _ _ Hu).
  - apply Huniq.
Qed.

Lemma companiesNamed_alter
  (f : Request (ObjectId := ObjectId) → Request (ObjectId := ObjectId)) i
  (m : gmap ObjectId Request) :
  (∀ r, companyName (f r) = companyName r) →
  (∀ j r, m !! j = Some r → companyName r ≠ EmptyString) →
  ∀ j r, alter f i m !! j = Some r → companyName r ≠ EmptyString.
Proof.
  intros Hf Hm j r. rewrite lookup_alter.
  destruct (decide (i = j)) as [->|]; [|by apply Hm].
  destruct (m !! j) as [r0|] eqn:Hr0; [|done].
  cbn. intros [= <-]. rewrite Hf. by eapply Hm.
Qed.

(** Every call of the API, served alone, keeps the invariant. *)
Lemma storeInvariant_step op w :
  storeInvariant w →
  storeInvariant (serve noFault (handler newObjectId op) w).2.
Proof.
  intros [Huniq Hnamed].
  destruct op as [oid now salted b|oid now salted b|oid now b|id b|id
                 |oid now b|now id|now id|now id|employee]; cbn [handler].
  - unfold serve, registerHR. destruct (negb _ || _ || _ || _ || _); [done|].
    cbn. destruct (findUser _ w) eqn:Hnone; [done|]. cbn.
    destruct (usersCol w !! oid) eqn:Hfresh; [done|]. cbn.
    split; [|done]. unfold emailsUnique. cbn.
    apply emailsUnique_insert; [done..|].
    intros i u Hu. by eapply findUser_None.
  - unfold serve, registerEmployee. destruct (negb _ || _ || _); [done|].
    cbn. destruct (findUser _ w) eqn:Hnone; [done|]. cbn.
    destruct (usersCol w !! oid) eqn:Hfresh; [done|]. cbn.
    split; [|done]. unfold emailsUnique. cbn.
    apply emailsUnique_insert; [done..|].
    intros i u Hu. by eapply findUser_None.
  - unfold serve, addAsset. destruct (negb _ || _ || _ || _); [done|].
    cbn. by destruct (assetsCol w !! oid).
  - unfold serve, updateAsset. destruct (newObjectId id); [|done].
    cbn. by destruct (matched _ =? 0)%nat.
  - unfold serve, deleteAsset. destruct (newObjectId id); [|done].
    cbn. by destruct (matched _ =? 0)%nat.
  - unfold serve, createRequest. destruct (negb _ || _); [done|].
    destruct (newObjectId _) as [aid|]; [|done]. cbn.
    destruct (requestsCol w !! oid) eqn:Hfresh; [done|]. cbn.
    split; [done|]. intros i r. cbn. rewrite lookup_insert.
    destruct (decide (oid = i)) as [->|]; [|by apply Hnamed].
    intros [= <-]. by apply orElse_truthy.
  - unfold serve, returnAsset.
    handler_cases; try done; (split; [done|]);
      intros ? ?; cbn; by apply companiesNamed_alter.
  - unfold serve, approve.
    handler_cases; try done; (split; [done|]);
      intros ? ?; cbn; by apply companiesNamed_alter.
  - unfold serve, reject.
    handler_cases; try done; (split; [done|]);
      intros ? ?; cbn; by apply companiesNamed_alter.
  - by rewrite myTeam_reads.
Qed.

Lemma perform_storeInvariant ops :
  ∀ w, storeInvariant w → storeInvariant (perform newObjectId ops w).
Proof.
  induction ops as [|op ops IH]; intros w Hw; [done|].
  unfold perform. cbn [fold_left]. by apply IH, storeInvariant_step.
Qed.

Lemma emptyWorld_storeInvariant :
  storeInvariant (emptyWorld (ObjectId := ObjectId)).
Proof.
  split.
  - intros i j u v Hu. cbn in Hu. by rewrite lookup_empty in Hu.
  - intros i r Hr. cbn in Hr. by rewrite lookup_empty in Hr.
Qed.

End Properties.

(** * The theorems on the sample stores *)

Import Demo.

(** ** [approve] *)

(** The asset is deleted, its first request is pending and is approved. *)
Lemma approve_missing_asset_witness :
  serve noFault (approve hexObjectId 40 req1Id) orphaned =
    (send (Msg "Request approved"),
     mkWorld (assetsCol orphaned)
       (<[oid req1Id := processed eveRequest "approved" 40]>
          (requestsCol orphaned))
       (usersCol orphaned)).
Proof.
  apply (approve_missing_asset hexObjectId 40 req1Id (oid req1Id) eveRequest
           orphaned).
  - reflexivity.
  - reflexivity.
  - reflexivity.
  - intros aid [= <-]. reflexivity.
Defined.

(** The only unit is out, the second request is pending and is approved. *)
Lemma approve_empty_stock_witness :
  serve noFault (approve hexObjectId 50 req2Id) soldOut =
    (send (Msg "Request approved"),
     mkWorld (<[oid laptopId := withAvailable (laptop 1 0) (-1)]>
                (assetsCol soldOut))
       (<[oid req2Id := processed fayRequest "approved" 50]>
          (requestsCol soldOut))
       (usersCol soldOut)).
Proof.
  apply (approve_empty_stock hexObjectId 50 req2Id (oid req2Id) fayRequest
           (oid laptopId) (laptop 1 0) soldOut); reflexivity.
Defined.

(** C1 fails on the code: with no unit available and the request pending,
    [approve] answers 200, sets the request to approved and takes the
    available quantity from 0 to -1. *)
Lemma approve_empty_stock_counterexample :
  let w := soldOut in
  let out := serve noFault (approve hexObjectId 50 req2Id) w in
  requestStatus <$> requestsCol w !! oid req2Id = Some "pending"
  ∧ assetId <$> requestsCol w !! oid req2Id = Some (Some (oid laptopId))
  ∧ availableQuantity <$> assetsCol w !! oid laptopId = Some 0
  ∧ status out.1 = 200%nat
  ∧ requestStatus <$> requestsCol out.2 !! oid req2Id = Some "approved"
  ∧ availableQuantity <$> assetsCol out.2 !! oid laptopId = Some (-1)
  ∧ ¬ (status out.1 ≠ 200%nat
       ∧ requestsCol out.2 = requestsCol w
       ∧ availableQuantity <$> assetsCol out.2 !! oid laptopId =
           availableQuantity <$> assetsCol w !! oid laptopId).
Proof.
  cbv zeta. repeat split; try reflexivity.
  intros (Hst & _). apply Hst. reflexivity.
Qed.





(** ** [reject] *)

(** The pending second request is rejected. *)
Lemma reject_keeps_assets_witness :
  assetsCol (serve noFault (reject hexObjectId 50 req2Id) soldOut).2 =
    assetsCol soldOut
  ∧ ∃ rid r,
      hexObjectId req2Id = Some rid ∧ requestsCol soldOut !! rid = Some r
      ∧ requestStatus r = "pending"
      ∧ requestsCol (serve noFault (reject hexObjectId 50 req2Id) soldOut).2 =
          <[rid := processed r "rejected" 50]> (requestsCol soldOut).
Proof.
  split.
  - apply (reject_keeps_assets hexObjectId noFault 50 req2Id soldOut).
  - apply (reject_keeps_assets hexObjectId noFault 50 req2Id soldOut).
    reflexivity.
Defined.

(** ** [returnAsset] *)


(** The first request is approved, the asset is deleted, the request is
    returned. *)
Lemma returnAsset_missing_asset_witness :
  serve noFault (returnAsset hexObjectId 60 req1Id) orphanedApproved =
    (send (Msg "Asset returned"),
     mkWorld (assetsCol orphanedApproved)
       (<[oid req1Id := returned (processed eveRequest "approved" 40) 60]>
          (requestsCol orphanedApproved))
       (usersCol orphanedApproved)).
Proof.
  apply (returnAsset_missing_asset hexObjectId 60 req1Id (oid req1Id)
           (processed eveRequest "approved" 40) orphanedApproved).
  - reflexivity.
  - reflexivity.
  - reflexivity.
  - reflexivity.
  - intros aid [= <-]. reflexivity.
Defined.

(** ** [createRequest] *)

(** A request is created in the empty store from the body that claims a
    yacht. *)
Lemma createRequest_trusts_body_witness :
  serve noFault (createRequest hexObjectId (oid req1Id) 20 yachtBody)
    emptyWorld =
    (sendStatus 201 (MsgId "Request created" (oid req1Id)),
     mkWorld ∅ (<[oid req1Id := requestDoc (oid laptopId) 20 yachtBody]> ∅) ∅)
  ∧ assetName (requestDoc (oid laptopId) 20 yachtBody) = Some "Yacht".
Proof.
  split.
  - apply (createRequest_trusts_body hexObjectId (oid req1Id) 20 yachtBody
             (oid laptopId) emptyWorld); reflexivity.
  - apply (createRequest_trusts_body hexObjectId (oid req1Id) 20 yachtBody
             (oid laptopId) emptyWorld); reflexivity.
Defined.

(** C8 fails on the code. In the empty store, where no asset has the id of
    the body, [createRequest] answers 201 and stores the request. In a
    store that holds the laptop, a Returnable asset of Acme, a body that
    names this asset and claims a yacht of Globex is stored with the name,
    type, image and company of the body, not those of the asset. *)
Lemma createRequest_counterexample :
  let out :=
    serve noFault (createRequest hexObjectId (oid req1Id) 20 yachtBody)
      emptyWorld in
  let w := perform hexObjectId (setUp 3) emptyWorld in
  let out' :=
    serve noFault (createRequest hexObjectId (oid req1Id) 20 yachtBody) w in
  assetsCol (emptyWorld (ObjectId := N)) !! oid laptopId = None
  ∧ status out.1 = 201%nat
  ∧ is_Some (requestsCol out.2 !! oid req1Id)
  ∧ assetsCol w !! oid laptopId = Some (laptop 3 3)
  ∧ status out'.1 = 201%nat
  ∧ assetName <$> requestsCol out'.2 !! oid req1Id = Some (Some "Yacht")
  ∧ assetType <$> requestsCol out'.2 !! oid req1Id
      = Some (Some "Non-returnable")
  ∧ assetImage <$> requestsCol out'.2 !! oid req1Id = Some (Some "yacht.png")
  ∧ companyName <$> requestsCol out'.2 !! oid req1Id = Some "Globex"
  ∧ ¬ (status out.1 = 404%nat)
  ∧ ¬ (assetName <$> requestsCol out'.2 !! oid req1Id
         = Some (Some (productName (laptop 3 3)))).
Proof.
  cbv zeta. repeat split; try reflexivity; try discriminate.
  by eexists.
Qed.

(** ** The inventory bound *)

(** Two units, one lent and returned, the other request rejected. *)
Lemma stock_bound_when_within_stock_witness :
  safeStock (perform hexObjectId lendAndReturn emptyWorld)
  ∧ stockInvariant (perform hexObjectId lendAndReturn emptyWorld).
Proof.
  apply (stock_bound_when_within_stock hexObjectId lendAndReturn emptyWorld).
  - intros aid a. cbn. rewrite lookup_empty. discriminate.
  - cbn -[perform serve]. split; [|repeat split].
    + intros v [= <-]. cbn. unfold maxSafeInteger. lia.
    + intros rid r aid a [= <-] Hr _ Haid Ha.
      vm_compute in Hr. injection Hr as <-.
      injection Haid as <-. vm_compute in Ha. injection Ha as <-.
      reflexivity.
    + intros rid r aid a [= <-] Hr _ _ Haid Ha.
      vm_compute in Hr. injection Hr as <-.
      injection Haid as <-. vm_compute in Ha. injection Ha as <-.
      reflexivity.
Defined.

(** C2 fails on the code. One unit and two requests, both approved: the
    available quantity is -1. One unit handed out, the quantity of the
    asset set to 1 again, the unit returned: the available quantity is 2 of
    a total of 1. *)
Lemma stock_bound_counterexample :
  (∃ a,
     assetsCol (perform hexObjectId overApprove emptyWorld) !! oid laptopId
       = Some a
     ∧ availableQuantity a = -1 ∧ ¬ bounded a)
  ∧ (∃ a,
       assetsCol (perform hexObjectId resetThenReturn emptyWorld)
         !! oid laptopId = Some a
       ∧ availableQuantity a = 2 ∧ productQuantity a = 1 ∧ ¬ bounded a).
Proof.
  split.
  - exists (laptop 1 (-1)). repeat split. unfold bounded. cbn. lia.
  - exists (laptop 1 2). repeat split. unfold bounded. cbn. lia.
Qed.

(** ** [myTeam] *)

(** Eve, with two approved requests at Acme, asks for her team. *)
Lemma myTeam_one_group_witness :
  ∃ teams found,
    serve noFault (myTeam "eve@acme.test") staffed =
      (send (SendTeams teams), staffed)
    ∧ filter (λ t, team_companyName t = "Acme") teams = [mkTeam "Acme" found]
    ∧ countEmail "eve@acme.test" found = 1%nat
    ∧ countEmail "fay@acme.test" found = 1%nat
    ∧ ∀ e, (countEmail e found ≤ 1)%nat.
Proof.
  apply (myTeam_one_group staffed "eve@acme.test" "fay@acme.test" "Acme").
  - apply perform_storeInvariant, emptyWorld_storeInvariant.
  - exists (oid req1Id), (processed eveRequest "approved" 40).
    repeat split; reflexivity.
  - exists (oid req2Id), (processed fayRequest "approved" 50).
    repeat split; reflexivity.
  - exists (oid eveId), eve. split; reflexivity.
  - exists (oid fayId), fay. split; reflexivity.
Defined.

(** C9 fails on the code. A requester who never registered has an approved
    request at Acme, as has Eve: the group of Acme that [myTeam] gives the
    requester holds Eve and not the requester. And after two registrations
    of Eve that both looked her email up before either inserted, the group
    of Acme that [myTeam] gives Eve, who has an approved request there as
    has Fay, holds Eve twice. *)
Lemma myTeam_one_group_counterexample :
  (approvedAt unregistered "ghost@acme.test" "Acme"
   ∧ approvedAt unregistered "eve@acme.test" "Acme"
   ∧ ∃ found,
       serve noFault (myTeam "ghost@acme.test") unregistered =
         (send (SendTeams [mkTeam "Acme" found]), unregistered)
       ∧ countEmail "ghost@acme.test" found = 0%nat
       ∧ countEmail "eve@acme.test" found = 1%nat)
  ∧ (approvedAt registeredTwice "eve@acme.test" "Acme"
     ∧ approvedAt registeredTwice "fay@acme.test" "Acme"
     ∧ ∃ found,
         serve noFault (myTeam "eve@acme.test") registeredTwice =
           (send (SendTeams [mkTeam "Acme" found]), registeredTwice)
         ∧ countEmail "eve@acme.test" found = 2%nat
         ∧ countEmail "fay@acme.test" found = 1%nat).
Proof.
  split.
  - split; [|split].
    + exists (oid req1Id),
        (processed (requestDoc (oid laptopId) 20 (requestBody "ghost"))
           "approved" 40).
      repeat split; reflexivity.
    + exists (oid req2Id),
        (processed (requestDoc (oid laptopId) 30 (requestBody "eve"))
           "approved" 50).
      repeat split; reflexivity.
    + eexists. split; [reflexivity|]. split; reflexivity.
  - split; [|split].
    + exists (oid req1Id), (processed eveRequest "approved" 40).
      repeat split; reflexivity.
    + exists (oid req2Id), (processed fayRequest "approved" 50).
      repeat split; reflexivity.
    + eexists. split; [reflexivity|]. split; reflexivity.
Qed.

(** * Properties of the rest of the server *)

Section MoreProperties.

Context {ObjectId : Type} `{Countable ObjectId}.
Variable newObjectId : string → option ObjectId.

(** Case analysis on what a handler branches on. *)
Ltac branch :=
  repeat match goal with
    | |- context [newObjectId ?s] => destruct (newObjectId s) eqn:?; cbn
    | |- context [if ?f ?n then _ else _] =>
        is_var f; destruct (f n) eqn:?; cbn
    | |- context [requestsCol ?w !! ?i] =>
        destruct (requestsCol w !! i) eqn:?; cbn
    | |- context [assetsCol ?w !! ?i] =>
        destruct (assetsCol w !! i) eqn:?; cbn
    | |- context [usersCol ?w !! ?i] =>
        destruct (usersCol w !! i) eqn:?; cbn
    | |- context [findUser ?e ?w] => destruct (findUser e w) eqn:?; cbn
    | |- context [String.eqb ?s ?t] => destruct (String.eqb s t) eqn:?; cbn
    | |- context [bool_decide ?P] => destruct (bool_decide_reflect P); cbn
    | |- context [assetId ?r] => destruct (assetId r) eqn:?; cbn
    end.

(** ** Ids that the driver refuses *)

(** X1. A handler that takes an [:id] builds an [ObjectId] from it before
    any call on the store: when the driver refuses the string, the handler
    answers 500 and the store is left as it was, whichever calls would have
    rejected. *)
Theorem refused_id_changes_nothing fault now b id w p :
  newObjectId id = None →
  p ∈ [updateAsset newObjectId id b; deleteAsset newObjectId id;
       approve newObjectId now id; reject newObjectId now id;
       returnAsset newObjectId now id] →
  serve fault p w = (sendStatus 500 (ServerError BSONError), w).
Proof.
  intros Hid Hp.
  repeat (apply elem_of_cons in Hp as [->|Hp]);
    [..|by apply elem_of_nil in Hp];
    unfold serve, updateAsset, deleteAsset, approve, reject, returnAsset;
    by rewrite Hid.
Qed.

(** ** The life cycle of a request *)

Lemma laterStatus_trans s1 s2 s3 :
  laterStatus s1 s2 → laterStatus s2 s3 → laterStatus s1 s3.
Proof.
  unfold laterStatus.
  intros [->|[[-> Hs]| [-> ->]]] [->|[[Hp Hl]| [Hp ->]]]; subst;
    try discriminate; try tauto;
    repeat match goal with H : _ ∨ _ |- _ => destruct H end;
    subst; try discriminate; tauto.
Qed.

Lemma sameSnapshot_trans (r1 r2 r3 : Request (ObjectId := ObjectId)) :
  sameSnapshot r1 r2 → sameSnapshot r2 r3 → sameSnapshot r1 r3.
Proof.
  unfold sameSnapshot. intros H12 H23.
  destruct_and!. repeat split; congruence.
Qed.

(** What one call of the API, served alone, does to the store. *)
Lemma op_effect op (w : World (ObjectId := ObjectId)) :
  (serve noFault (handler newObjectId op) w).2 = w
  ∨ (∃ oid u,
       usersCol w !! oid = None
       ∧ (serve noFault (handler newObjectId op) w).2 =
           mkWorld (assetsCol w) (requestsCol w) (<[oid := u]> (usersCol w)))
  ∨ (∃ assets,
       writesAsset op = true
       ∧ (serve noFault (handler newObjectId op) w).2 =
           mkWorld assets (requestsCol w) (usersCol w))
  ∨ (∃ oid aid now b,
       requestsCol w !! oid = None
       ∧ (serve noFault (handler newObjectId op) w).2 =
           mkWorld (assetsCol w)
             (<[oid := requestDoc aid now b]> (requestsCol w)) (usersCol w))
  ∨ (∃ rid r now,
       requestsCol w !! rid = Some r ∧ requestStatus r = "pending"
       ∧ (serve noFault (handler newObjectId op) w).2 =
           mkWorld
             (match assetId r with
              | Some aid =>
                  alter (λ a, withAvailable a (availableQuantity a + -1)) aid
                    (assetsCol w)
              | None => assetsCol w
              end)
             (<[rid := processed r "approved" now]> (requestsCol w))
             (usersCol w))
  ∨ (∃ rid r now,
       requestsCol w !! rid = Some r ∧ requestStatus r = "pending"
       ∧ (serve noFault (handler newObjectId op) w).2 =
           mkWorld (assetsCol w)
             (<[rid := processed r "rejected" now]> (requestsCol w))
             (usersCol w))
  ∨ (∃ rid r now,
       requestsCol w !! rid = Some r ∧ requestStatus r = "approved"
       ∧ assetType r = Some "Returnable"
       ∧ (serve noFault (handler newObjectId op) w).2 =
           mkWorld
             (match assetId r with
              | Some aid =>
                  alter (λ a, withAvailable a (availableQuantity a + 1)) aid
                    (assetsCol w)
              | None => assetsCol w
              end)
             (<[rid := returned r now]> (requestsCol w))
             (usersCol w)).
Proof.
  destruct op as [oid now salted b|oid now salted b|oid now b|id b|id
                 |oid now b|now id|now id|now id|employee]; cbn [handler].
  - unfold serve, registerHR.
    destruct (negb _ || _ || _ || _ || _); cbn; [by left|].
    destruct (findUser _ w); cbn; [by left|].
    destruct (usersCol w !! oid) eqn:Hfresh; cbn; [by left|].
    right; left. by eexists _, _.
  - unfold serve, registerEmployee.
    destruct (negb _ || _ || _); cbn; [by left|].
    destruct (findUser _ w); cbn; [by left|].
    destruct (usersCol w !! oid) eqn:Hfresh; cbn; [by left|].
    right; left. by eexists _, _.
  - right; right; left. unfold serve, addAsset.
    destruct (negb _ || _ || _ || _); cbn; [by exists (assetsCol w); destruct w|].
    destruct (assetsCol w !! oid); cbn;
      [by exists (assetsCol w); destruct w|by eexists].
  - unfold serve, updateAsset.
    destruct (newObjectId id); cbn; [|by left]. right; right; left.
    destruct (matched _ =? 0)%nat; by eexists.
  - unfold serve, deleteAsset.
    destruct (newObjectId id); cbn; [|by left]. right; right; left.
    destruct (matched _ =? 0)%nat; by eexists.
  - unfold serve, createRequest.
    destruct (negb _ || _); cbn; [by left|].
    destruct (newObjectId _) as [aid|]; cbn; [|by left].
    destruct (requestsCol w !! oid) eqn:Hfresh; cbn; [by left|].
    do 3 right; left. by eexists _, _, _, _.
  - destruct (newObjectId id) as [rid|] eqn:Hid;
      [|left; unfold serve, returnAsset; by rewrite Hid].
    destruct (requestsCol w !! rid) as [r|] eqn:Hr;
      [|left; unfold serve, returnAsset; rewrite Hid; cbn; by rewrite Hr].
    destruct (decide (requestStatus r = "approved")) as [Hst|Hst];
      [|left; by eapply (returnAsset_refused newObjectId noFault); eauto].
    destruct (decide (assetType r = Some "Returnable")) as [Hty|Hty];
      [|left; by eapply (returnAsset_refused newObjectId noFault); eauto].
    do 6 right. exists rid, r, now.
    by rewrite (returnAsset_accepted _ _ _ _ _ _ Hid Hr Hst Hty).
  - destruct (newObjectId id) as [rid|] eqn:Hid;
      [|left; unfold serve, approve; by rewrite Hid].
    destruct (requestsCol w !! rid) as [r|] eqn:Hr;
      [|left; unfold serve, approve; rewrite Hid; cbn; by rewrite Hr].
    destruct (decide (requestStatus r = "pending")) as [Hst|Hst];
      [|left; by rewrite (approve_processed _ _ _ _ _ _ Hid Hr Hst)].
    do 4 right; left. exists rid, r, now.
    by rewrite (approve_pending _ _ _ _ _ _ Hid Hr Hst).
  - destruct (newObjectId id) as [rid|] eqn:Hid;
      [|left; unfold serve, reject; by rewrite Hid].
    destruct (requestsCol w !! rid) as [r|] eqn:Hr;
      [|left; unfold serve, reject; rewrite Hid; cbn; by rewrite Hr].
    destruct (String.eqb (requestStatus r) "pending") eqn:Hst;
      [|left; unfold serve, reject; rewrite Hid; cbn; by rewrite Hr, Hst].
    do 5 right; left. exists rid, r, now. apply String.eqb_eq in Hst.
    split; [done|]. split; [done|].
    unfold serve, reject. rewrite Hid. cbn.
    rewrite Hr, (proj2 (String.eqb_eq _ _) Hst). cbn.
    by rewrite (alter_found _ _ _ _ Hr).
  - left. apply myTeam_reads.
Qed.

(** One call of the API on a request of the store. *)
Lemma request_step op (w : World (ObjectId := ObjectId)) rid r :
  requestsCol w !! rid = Some r →
  ∃ r',
    requestsCol (serve noFault (handler newObjectId op) w).2 !! rid = Some r'
    ∧ laterStatus (requestStatus r) (requestStatus r') ∧ sameSnapshot r r'.
Proof.
  intros Hr.
  assert (∃ r', requestsCol w !! rid = Some r'
                ∧ laterStatus (requestStatus r) (requestStatus r')
                ∧ sameSnapshot r r') as Hkeep.
  { exists r. split; [done|]. split; [by left|by repeat split]. }
  assert (∀ i x f,
            requestsCol w !! i = Some x →
            laterStatus (requestStatus x) (requestStatus (f x)) →
            sameSnapshot x (f x) →
            ∃ r', <[i := f x]> (requestsCol w) !! rid = Some r'
                  ∧ laterStatus (requestStatus r) (requestStatus r')
                  ∧ sameSnapshot r r') as Hset.
  { intros i x f Hx Hs Hk. destruct (decide (i = rid)) as [->|Hne].
    - rewrite lookup_insert_eq. exists (f x). by simplify_eq.
    - by rewrite lookup_insert_ne. }
  destruct (op_effect op w)
    as [->|[(oid & u & _ & ->)|[(assets & _ & ->)|[(oid & aid & now & b & Hf & ->)
       |[(i & x & now & Hx & Hst & ->)|[(i & x & now & Hx & Hst & ->)
       |(i & x & now & Hx & Hst & _ & ->)]]]]]]; cbn; try done.
  - rewrite lookup_insert_ne; [done|]. intros ->. congruence.
  - apply (Hset i x (λ x, processed x "approved" now)); [done| |by repeat split].
    right; left. rewrite Hst. cbn. tauto.
  - apply (Hset i x (λ x, processed x "rejected" now)); [done| |by repeat split].
    right; left. rewrite Hst. cbn. tauto.
  - apply (Hset i x (λ x, returned x now)); [done| |by repeat split].
    right; right. by rewrite Hst.
Qed.

(** X2. A request is never deleted and never goes back. After any sequence
    of calls, a request of the store is still there with the asset, the
    snapshot, the requester, the date and the note it had, and its status
    is the one it had or a later one: pending to approved or rejected,
    approved to returned. A rejected or returned request keeps its status
    for ever. *)
Theorem request_only_advances ops :
  ∀ (w : World (ObjectId := ObjectId)) rid r,
    requestsCol w !! rid = Some r →
    ∃ r',
      requestsCol (perform newObjectId ops w) !! rid = Some r'
      ∧ laterStatus (requestStatus r) (requestStatus r')
      ∧ sameSnapshot r r'
      ∧ (requestStatus r = "rejected" ∨ requestStatus r = "returned" →
         requestStatus r' = requestStatus r).
Proof.
  assert (∀ s s', laterStatus s s' → s = "rejected" ∨ s = "returned" → s' = s)
    as Hterminal.
  { intros s s' [->|[[-> _]|[-> _]]] [?|?]; done. }
  induction ops as [|op ops IH]; intros w rid r Hr.
  - exists r. split; [done|]. split; [by left|]. by repeat split.
  - destruct (request_step op w rid r Hr) as (r1 & Hr1 & Hs1 & Hk1).
    destruct (IH _ _ _ Hr1) as (r' & Hr' & Hs' & Hk' & _).
    exists r'. split; [done|].
    pose proof (laterStatus_trans _ _ _ Hs1 Hs') as Hs.
    split; [done|]. split; [by eapply sameSnapshot_trans|].
    by apply Hterminal.
Qed.

Lemma wellTimed_step op (w : World (ObjectId := ObjectId)) :
  requestsWellTimed w →
  requestsWellTimed (serve noFault (handler newObjectId op) w).2.
Proof.
  intros Hw.
  assert (∀ i x x',
            requestsCol w !! i = Some x → wellTimed x' →
            requestsWellTimed
              (mkWorld (assetsCol w) (<[i := x']> (requestsCol w))
                 (usersCol w)) ) as Hset.
  { intros i x x' Hx Hx' j r. cbn. rewrite lookup_insert.
    destruct (decide (i = j)) as [->|]; [by intros [= <-]|apply Hw]. }
  destruct (op_effect op w)
    as [->|[(oid & u & _ & ->)|[(assets & _ & ->)|[(oid & aid & now & b & Hf & ->)
       |[(i & x & now & Hx & Hst & ->)|[(i & x & now & Hx & Hst & ->)
       |(i & x & now & Hx & Hst & _ & ->)]]]]]]; try done.
  - intros j r. cbn. rewrite lookup_insert.
    destruct (decide (oid = j)) as [->|]; [|apply Hw].
    intros [= <-]. by left.
  - apply (Hset i x); [done|]. right; left. cbn.
    destruct (Hw _ _ Hx) as [(_ & _ & _ & Hret)|[([?|?] & _)|(? & _)]];
      [|congruence..].
    split; [by left|]. by split; [eexists|].
  - apply (Hset i x); [done|]. right; left. cbn.
    destruct (Hw _ _ Hx) as [(_ & _ & _ & Hret)|[([?|?] & _)|(? & _)]];
      [|congruence..].
    split; [by right|]. by split; [eexists|].
  - intros j r. cbn. rewrite lookup_insert.
    destruct (decide (i = j)) as [->|]; [|apply Hw].
    intros [= <-]. right; right. cbn.
    destruct (Hw _ _ Hx) as [(Hp & _)|[(_ & Ha & Hb & _)|(Hp & _)]];
      [congruence| |congruence].
    split; [done|]. split; [done|]. by split; [|eexists].
Qed.

(** X3. The dates and the processor of a request follow its status. When
    they do for every request of a store, they still do after any sequence
    of calls: a pending request has no approval date, no processor and no
    return date; an approved or rejected one has an approval date and the
    processor "HR" and no return date; a returned one has all three. *)
Theorem requests_stay_well_timed ops :
  ∀ w : World (ObjectId := ObjectId),
    requestsWellTimed w → requestsWellTimed (perform newObjectId ops w).
Proof.
  induction ops as [|op ops IH]; intros w Hw; [done|].
  unfold perform. cbn [fold_left]. by apply IH, wellTimed_step.
Qed.

(** ** Units out and approved requests *)

Section Counting.

Context (P : Request (ObjectId := ObjectId) → Prop)
  `{∀ r, Decision (P r)}.

Lemma count_insert_fresh (m : gmap ObjectId Request) i x :
  m !! i = None →
  length (filter (λ p, P p.2) (map_to_list (<[i := x]> m))) =
    ((if decide (P x) then 1 else 0)
     + length (filter (λ p, P p.2) (map_to_list m)))%nat.
Proof.
  intros Hi. rewrite (map_to_list_insert m i x Hi).
  rewrite filter_cons. cbn. by destruct (decide (P x)).
Qed.

Lemma count_insert (m : gmap ObjectId Request) i x x' :
  m !! i = Some x →
  (length (filter (λ p, P p.2) (map_to_list (<[i := x']> m)))
   + (if decide (P x) then 1 else 0)
   = length (filter (λ p, P p.2) (map_to_list m))
     + (if decide (P x') then 1 else 0))%nat.
Proof.
  intros Hi.
  rewrite <- (insert_delete_eq m i x').
  rewrite count_insert_fresh by apply lookup_delete_eq.
  rewrite <- (map_to_list_delete m i x Hi).
  rewrite filter_cons. cbn.
  destruct (decide (P x)), (decide (P x')); cbn; lia.
Qed.

End Counting.

Lemma outstanding_step op (w : World (ObjectId := ObjectId)) aid a :
  writesAsset op = false →
  assetsCol w !! aid = Some a →
  ∃ a',
    assetsCol (serve noFault (handler newObjectId op) w).2 !! aid = Some a'
    ∧ productQuantity a' = productQuantity a
    ∧ (availableQuantity a'
       + Z.of_nat
           (outstanding aid (serve noFault (handler newObjectId op) w).2)
       = availableQuantity a + Z.of_nat (outstanding aid w)
       ∧ availableQuantity a - 1 ≤ availableQuantity a'
                             ≤ availableQuantity a + 1).
Proof.
  intros Hop Ha.
  pose (P := λ r : Request (ObjectId := ObjectId),
               requestStatus r = "approved" ∧ assetId r = Some aid).
  assert (∀ x, requestStatus x ≠ "approved" → ¬ P x) as Hnot
    by (intros x Hx [? _]; done).
  assert (∀ x, assetId x ≠ Some aid → ¬ P x) as Hother
    by (intros x Hx [_ ?]; done).
  destruct (op_effect op w)
    as [->|[(oid & u & _ & ->)|[(assets & Hw & _)|[(oid & aid0 & now & b & Hf & ->)
       |[(i & x & now & Hx & Hst & ->)|[(i & x & now & Hx & Hst & ->)
       |(i & x & now & Hx & Hst & _ & ->)]]]]]].
  - exists a. split; [done|]. split; [done|]. split; [done|lia].
  - exists a. split; [done|]. split; [done|]. split; [done|lia].
  - congruence.
  - pose proof (count_insert_fresh P _ oid (requestDoc aid0 now b) Hf) as Hc.
    rewrite decide_False in Hc by by apply Hnot.
    exists a. split; [done|]. split; [done|].
    unfold outstanding. cbn. unfold P in Hc. cbn in Hc. lia.
  - pose proof (count_insert P _ i x (processed x "approved" now) Hx) as Hc.
    rewrite (decide_False (P := P x)) in Hc by (apply Hnot; congruence).
    destruct (assetId x) as [aid0|] eqn:Haid.
    + destruct (decide (aid0 = aid)) as [->|Hne].
      * rewrite (decide_True (P := P _)) in Hc by (split; [done|by cbn]).
        exists (withAvailable a (availableQuantity a + -1)).
        split; [cbn; by rewrite (alter_found _ _ _ _ Ha), lookup_insert_eq|].
        split; [done|].
        unfold outstanding. cbn. unfold P in Hc. cbn in Hc. lia.
      * rewrite (decide_False (P := P _)) in Hc
          by (apply Hother; cbn; congruence).
        exists a. split; [cbn; by rewrite lookup_alter_ne|]. split; [done|].
        unfold outstanding. cbn. unfold P in Hc. cbn in Hc. lia.
    + rewrite (decide_False (P := P _)) in Hc
        by (apply Hother; cbn; congruence).
      exists a. split; [done|]. split; [done|].
      unfold outstanding. cbn. unfold P in Hc. cbn in Hc. lia.
  - pose proof (count_insert P _ i x (processed x "rejected" now) Hx) as Hc.
    rewrite (decide_False (P := P x)) in Hc by (apply Hnot; congruence).
    rewrite (decide_False (P := P _)) in Hc by by apply Hnot.
    exists a. split; [done|]. split; [done|].
    unfold outstanding. cbn. unfold P in Hc. cbn in Hc. lia.
  - pose proof (count_insert P _ i x (returned x now) Hx) as Hc.
    rewrite (decide_False (P := P (returned _ _))) in Hc by by apply Hnot.
    destruct (decide (assetId x = Some aid)) as [Haid|Haid].
    + rewrite (decide_True (P := P _)) in Hc by done.
      unfold P in Hc. cbn in Hc. rewrite Haid.
      exists (withAvailable a (availableQuantity a + 1)).
      split; [cbn; by rewrite (alter_found _ _ _ _ Ha), lookup_insert_eq|].
      split; [done|]. unfold outstanding. cbn. lia.
    + rewrite (decide_False (P := P _)) in Hc by by apply Hother.
      unfold P in Hc. cbn in Hc.
      exists a. split; [|split; [done|unfold outstanding; cbn; lia]].
      destruct (assetId x) as [aid0|]; cbn; [|done].
      rewrite lookup_alter_ne; [done|]. by intros ->.
Qed.

Lemma outstanding_run ops :
  ∀ (w : World (ObjectId := ObjectId)) aid a,
    forallb (λ op, negb (writesAsset op)) ops = true →
    assetsCol w !! aid = Some a →
    ∃ a',
      assetsCol (perform newObjectId ops w) !! aid = Some a'
      ∧ productQuantity a' = productQuantity a
      ∧ availableQuantity a'
        + Z.of_nat (outstanding aid (perform newObjectId ops w))
        = availableQuantity a + Z.of_nat (outstanding aid w)
      ∧ availableQuantity a - Z.of_nat (length ops)
        ≤ availableQuantity a'
        ≤ availableQuantity a + Z.of_nat (length ops).
Proof.
  induction ops as [|op ops IH]; intros w aid a Hops Ha.
  - exists a. cbn. split; [done|]. split; [done|]. lia.
  - cbn in Hops. apply andb_prop in Hops as [Hop Hops].
    apply negb_true_iff in Hop.
    destruct (outstanding_step op w aid a Hop Ha)
      as (a1 & Ha1 & Ht1 & Hq1 & Hr1).
    destruct (IH _ _ _ Hops Ha1) as (a' & Ha' & Ht' & Hq' & Hr').
    change (perform newObjectId (op :: ops) w)
      with (perform newObjectId ops
              (serve noFault (handler newObjectId op) w).2).
    exists a'. split; [done|]. split; [congruence|].
    cbn [length]. lia.
Qed.

(** X4. The units of an asset that are out are its approved requests, on
    integers that JavaScript represents exactly. Take a sequence of [n]
    calls that does not create, update or delete assets, and an asset of
    the store whose available quantity [q] is an integer with [q - n] and
    [q + n] between the opposite of [Number.MAX_SAFE_INTEGER] and
    [Number.MAX_SAFE_INTEGER]. The asset stays in the store with its total
    quantity, its available quantity stays such an integer, and its
    available quantity plus the number of approved requests that name it
    does not change: an approval takes a unit and adds an approved request,
    a return gives the unit back and ends the approval, and nothing else
    touches either. *)
Theorem units_out_are_approved_requests ops :
  ∀ (w : World (ObjectId := ObjectId)) aid a,
    forallb (λ op, negb (writesAsset op)) ops = true →
    assetsCol w !! aid = Some a →
    safeInteger (availableQuantity a - Z.of_nat (length ops)) →
    safeInteger (availableQuantity a + Z.of_nat (length ops)) →
    ∃ a',
      assetsCol (perform newObjectId ops w) !! aid = Some a'
      ∧ productQuantity a' = productQuantity a
      ∧ safeInteger (availableQuantity a')
      ∧ availableQuantity a'
        + Z.of_nat (outstanding aid (perform newObjectId ops w))
        = availableQuantity a + Z.of_nat (outstanding aid w).
Proof.
  intros w aid a Hops Ha Hlow Hhigh.
  destruct (outstanding_run ops w aid a Hops Ha)
    as (a' & Ha' & Ht & Hq & Hr).
  exists a'. split; [done|]. split; [done|]. split; [|done].
  unfold safeInteger in *. lia.
Qed.

(** X5. Served one at a time from the empty store, the handlers never
    store two user documents with the same email, nor a request without a
    company name. *)
Theorem api_keeps_emails_unique ops :
  emailsUnique (perform newObjectId ops emptyWorld)
  ∧ companiesNamed (perform newObjectId ops emptyWorld).
Proof. apply perform_storeInvariant, emptyWorld_storeInvariant. Qed.

(** ** Registration *)

Lemma findUser_found (w : World (ObjectId := ObjectId)) e i u :
  usersCol w !! i = Some u → email u = e → is_Some (findUser e w).
Proof.
  intros Hu He. unfold findUser.
  destruct (filter _ _) as [|v l] eqn:Hf; [|by eexists].
  assert (u ∈ filter (λ u, email u = e) (snd <$> map_to_list (usersCol w)))
    as Hin.
  { apply list_elem_of_filter. split; [done|].
    apply list_elem_of_fmap. exists (i, u).
    split; [done|by apply elem_of_map_to_list]. }
  rewrite Hf in Hin. by apply elem_of_nil in Hin.
Qed.

(** X6. An email that a user document already has cannot be registered
    again, as an employee or as an HR: with the required fields present,
    both registrations answer 400 "Email already exists" and leave the
    store as it was. *)
Theorem register_refuses_taken_email oid now salted b
  (w : World (ObjectId := ObjectId)) i u :
  truthy (body_name b) = true →
  truthy (body_email b) = true →
  truthy (body_password b) = true →
  usersCol w !! i = Some u →
  email u = default EmptyString (body_email b) →
  serve noFault (registerEmployee oid now salted b) w =
    (sendStatus 400 (Msg "Email already exists"), w)
  ∧ (truthy (body_regCompanyName b) = true →
     truthy (body_companyLogo b) = true →
     serve noFault (registerHR oid now salted b) w =
       (sendStatus 400 (Msg "Email already exists"), w)).
Proof.
  intros Hn He Hp Hu Hmail.
  destruct (findUser_found w _ i u Hu Hmail) as [v Hv].
  split.
  - unfold serve, registerEmployee. rewrite Hn, He, Hp. cbn. by rewrite Hv.
  - intros Hc Hl. unfold serve, registerHR. rewrite Hn, He, Hp, Hc, Hl. cbn.
    by rewrite Hv.
Qed.

(** ** Assets *)

(** X7. [addAsset] tests [productQuantity] as the body gives it and stores
    [Number(productQuantity)]. With a name, an image and a type: a body
    without the field, or with [null], the number 0 or the empty string
    there, is answered 400 "All fields required" and nothing is stored; a
    body with any other number [q], a negative one too, is answered 201 and
    the asset is stored under the new id with both its total and its
    available quantity equal to [q]; and so is a body with a string that is
    not empty, with the number that [Number] makes of the string: the
    string "0" creates an asset with the quantity 0. *)
Theorem addAsset_quantity oid now b (w : World (ObjectId := ObjectId)) :
  truthy (body_productName b) = true →
  truthy (body_productImage b) = true →
  truthy (body_productType b) = true →
  assetsCol w !! oid = None →
  (body_productQuantity b = None
   ∨ body_productQuantity b = Some QNull
   ∨ body_productQuantity b = Some (QNumber 0)
   ∨ (∃ q, body_productQuantity b = Some (QString EmptyString q)) →
   serve noFault (addAsset oid now b) w =
     (sendStatus 400 (Msg "All fields required"), w))
  ∧ (∀ v,
       body_productQuantity b = Some v →
       (∃ q, v = QNumber q ∧ q ≠ 0)
       ∨ (∃ s q, v = QString s q ∧ s ≠ EmptyString) →
       ∃ a,
         serve noFault (addAsset oid now b) w =
           (sendStatus 201 (MsgId "Asset created" oid),
            mkWorld (<[oid := a]> (assetsCol w)) (requestsCol w)
              (usersCol w))
         ∧ productQuantity a = toNumber v
         ∧ availableQuantity a = toNumber v
         ∧ Some (productName a) = body_productName b
         ∧ Some (productType a) = body_productType b
         ∧ dateAdded a = now).
Proof.
  intros Hn Hi Ht Hfresh. split.
  - intros [Hq|[Hq|[Hq|[q Hq]]]]; unfold serve, addAsset;
      by rewrite Hn, Hi, Ht, Hq.
  - intros v Hq Hv.
    assert (truthyNum (Some v) = true) as Hnum.
    { destruct Hv as [(q & -> & Hq0)|(t & q & -> & Ht0)]; cbn.
      - apply negb_true_iff. by apply Z.eqb_neq.
      - apply negb_true_iff. by apply String.eqb_neq. }
    unfold serve, addAsset. rewrite Hn, Hi, Ht, Hq, Hnum. cbn.
    rewrite Hfresh. eexists. split; [done|]. cbn.
    destruct (body_productName b), (body_productType b); done.
Qed.

(** X8. [updateAsset] sets both quantities from every body that has
    [productQuantity]: with a number [q] there, or a string of which
    [Number] makes [q], the total and the available quantity of the asset
    become [q], whatever was available and however many units are out, and
    with [null] there both become 0. A body without the field leaves both
    quantities; a name, image or type that is absent or empty leaves the
    stored one. An id that matches no asset is answered 404 and nothing
    changes. *)
Theorem updateAsset_resets_available id oid b
  (w : World (ObjectId := ObjectId)) :
  newObjectId id = Some oid →
  (assetsCol w !! oid = None →
   serve noFault (updateAsset newObjectId id b) w =
     (sendStatus 404 (Msg "Asset not found"), w))
  ∧ (∀ a, assetsCol w !! oid = Some a →
     ∃ a',
       serve noFault (updateAsset newObjectId id b) w =
         (send (MsgResult "Asset updated" 1),
          mkWorld (<[oid := a']> (assetsCol w)) (requestsCol w) (usersCol w))
       ∧ productName a' =
           (if truthy (body_productName b)
            then default EmptyString (body_productName b) else productName a)
       ∧ productQuantity a' =
           match body_productQuantity b with
           | None => productQuantity a
           | Some QNull => 0
           | Some (QNumber q) => q
           | Some (QString _ q) => q
           end
       ∧ availableQuantity a' =
           match body_productQuantity b with
           | None => availableQuantity a
           | Some QNull => 0
           | Some (QNumber q) => q
           | Some (QString _ q) => q
           end
       ∧ dateAdded a' = dateAdded a
       ∧ asset_hrEmail a' = asset_hrEmail a
       ∧ asset_companyName a' = asset_companyName a).
Proof.
  intros Hid. split.
  - intros Ha. unfold serve, updateAsset. rewrite Hid. cbn. rewrite Ha. cbn.
    rewrite (alter_missing _ _ _ Ha). by destruct w.
  - intros a Ha. unfold serve, updateAsset. rewrite Hid. cbn. rewrite Ha. cbn.
    rewrite (alter_found _ _ _ _ Ha). eexists. split; [done|].
    unfold assetUpdateOf.
    destruct (truthy (body_productName b)),
      (truthy (body_productImage b)), (truthy (body_productType b)),
      (body_productQuantity b) as [[|q|t q]|]; done.
Qed.

(** X9. [deleteAsset] removes the one asset and nothing else: the other
    assets, all requests (those that name the asset too) and all users are
    as before, and a second delete of the same id is answered 404. An id
    that matches no asset is answered 404 and nothing changes. *)
Theorem deleteAsset_removes_one id oid (w : World (ObjectId := ObjectId)) :
  newObjectId id = Some oid →
  (assetsCol w !! oid = None →
   serve noFault (deleteAsset newObjectId id) w =
     (sendStatus 404 (Msg "Asset not found"), w))
  ∧ (is_Some (assetsCol w !! oid) →
     serve noFault (deleteAsset newObjectId id) w =
       (send (Msg "Asset deleted"),
        mkWorld (delete oid (assetsCol w)) (requestsCol w) (usersCol w))
     ∧ serve noFault (deleteAsset newObjectId id)
         (serve noFault (deleteAsset newObjectId id) w).2 =
         (sendStatus 404 (Msg "Asset not found"),
          (serve noFault (deleteAsset newObjectId id) w).2)).
Proof.
  intros Hid.
  assert (∀ w : World (ObjectId := ObjectId),
            assetsCol w !! oid = None →
            serve noFault (deleteAsset newObjectId id) w =
              (sendStatus 404 (Msg "Asset not found"), w)) as Hgone.
  { intros w' Ha. unfold serve, deleteAsset. rewrite Hid. cbn. rewrite Ha.
    cbn. rewrite delete_id by done. by destruct w'. }
  split; [apply Hgone|]. intros [a Ha].
  assert (serve noFault (deleteAsset newObjectId id) w =
            (send (Msg "Asset deleted"),
             mkWorld (delete oid (assetsCol w)) (requestsCol w) (usersCol w)))
    as Hdel.
  { unfold serve, deleteAsset. rewrite Hid. cbn. by rewrite Ha. }
  split; [done|]. rewrite Hdel. apply Hgone. cbn. apply lookup_delete_eq.
Qed.

(** ** Approval and return together *)

(** X10. Approving a pending request for a Returnable asset of the store
    and then returning it gives the unit back, on integers that JavaScript
    represents exactly: when the available quantity [q] of the asset and
    [q - 1] are integers between the opposite of [Number.MAX_SAFE_INTEGER]
    and [Number.MAX_SAFE_INTEGER], the asset store after the two calls is
    the one before them, and the request is returned, with its approval
    date, its processor and its return date. *)
Theorem approve_then_return_restores now now' id rid r aid a
  (w : World (ObjectId := ObjectId)) :
  newObjectId id = Some rid →
  requestsCol w !! rid = Some r →
  requestStatus r = "pending" →
  assetType r = Some "Returnable" →
  assetId r = Some aid →
  assetsCol w !! aid = Some a →
  safeInteger (availableQuantity a) →
  safeInteger (availableQuantity a - 1) →
  perform newObjectId [OpApprove now id; OpReturn now' id] w =
    mkWorld (assetsCol w)
      (<[rid := returned (processed r "approved" now) now']> (requestsCol w))
      (usersCol w).
Proof.
  intros Hid Hr Hst Hty Haid Ha _ _. unfold perform. cbn [fold_left handler].
  rewrite (approve_pending _ _ _ _ _ _ Hid Hr Hst). cbn [snd].
  rewrite (returnAsset_accepted _ now' id rid (processed r "approved" now));
    [|done|apply lookup_insert_eq|done|done].
  cbn. rewrite Haid, (insert_insert_eq (requestsCol w)). f_equal.
  rewrite (alter_found _ _ _ _ Ha), alter_insert_eq.
  apply insert_id. rewrite Ha. f_equal.
  destruct a. unfold withAvailable. cbn. f_equal. lia.
Qed.

(** ** [createRequest] and its body *)

(** X11. [createRequest] checks the two required fields before it builds
    the id: without an asset id or a requester email it answers 400, also
    when the asset id is not one the driver accepts; with both and an asset
    id that the driver refuses it answers 500. Nothing is stored in either
    case, whichever calls would have rejected. *)
Theorem createRequest_validation fault oid now b
  (w : World (ObjectId := ObjectId)) :
  (truthy (body_assetId b) = false ∨ truthy (body_requesterEmail b) = false →
   serve fault (createRequest newObjectId oid now b) w =
     (sendStatus 400 (Msg "assetId and requesterEmail are required"), w))
  ∧ (truthy (body_assetId b) = true →
     truthy (body_requesterEmail b) = true →
     newObjectId (default EmptyString (body_assetId b)) = None →
     serve fault (createRequest newObjectId oid now b) w =
       (sendStatus 500 (ServerError BSONError), w)).
Proof.
  split.
  - intros [Hb|Hb]; unfold serve, createRequest; rewrite Hb; cbn; [done|].
    by rewrite orb_true_r.
  - intros Ha He Hid. unfold serve, createRequest. by rewrite Ha, He, Hid.
Qed.

(** ** [myTeam] on any store *)

Lemma myTeam_answer e (w : World (ObjectId := ObjectId)) :
  serve noFault (myTeam e) w =
    (send (SendTeams
             (omap (teamFor w)
                (new_Set
                   ((λ r, orElse (Some (companyName r.2)) "Unknown Company")
                      <$> findRequests (ByRequesterStatus e "approved") w)))),
     w).
Proof.
  unfold serve, myTeam. cbn.
  destruct (findRequests (ByRequesterStatus e "approved") w) as [|p l];
    [done|].
  cbn [length Nat.eqb]. by rewrite teamsOf_run.
Qed.

Lemma findRequests_elem f (w : World (ObjectId := ObjectId)) i r :
  (i, r) ∈ findRequests f w ↔
    requestsCol w !! i = Some r ∧ matchesRequest f r = true.
Proof.
  unfold findRequests. rewrite list_elem_of_filter, elem_of_map_to_list.
  cbn. tauto.
Qed.

Lemma omap_teamFor_names (w : World (ObjectId := ObjectId)) cs :
  NoDup cs → NoDup (team_companyName <$> omap (teamFor w) cs).
Proof.
  induction 1 as [|c cs Hc Hnd IH]; cbn; [apply NoDup_nil_2|].
  destruct (teamFor w c) as [t|] eqn:Ht; cbn; [|done].
  apply NoDup_cons. split; [|done].
  rewrite (teamFor_company _ _ _ Ht). intros Hin. apply Hc.
  apply list_elem_of_fmap in Hin as (t' & -> & Hin').
  apply list_elem_of_omap in Hin' as (c' & Hc' & Ht').
  by rewrite (teamFor_company _ _ _ Ht').
Qed.

(** X12. On any store [myTeam] answers 200 and changes nothing. It lists
    a group for each named company at which the employee has an approved
    request, no two groups with the same company, and none for a company
    that is not the company of an approved request of the employee (or
    "Unknown Company" for a request without company name); a colleague of
    a group is a user of the store who has an approved request at the
    company of the group. An employee without approved requests gets the
    empty list. *)
Theorem myTeam_groups e (w : World (ObjectId := ObjectId)) :
  ∃ teams,
    serve noFault (myTeam e) w = (send (SendTeams teams), w)
    ∧ NoDup (team_companyName <$> teams)
    ∧ (∀ t, t ∈ teams →
       (∃ i r,
          requestsCol w !! i = Some r ∧ requesterEmail r = e
          ∧ requestStatus r = "approved"
          ∧ team_companyName t =
              orElse (Some (companyName r)) "Unknown Company")
       ∧ ∀ p, p ∈ colleagues t →
           ∃ j r' k u,
             requestsCol w !! j = Some r'
             ∧ requestStatus r' = "approved"
             ∧ companyName r' = team_companyName t
             ∧ requesterEmail r' = p_email p
             ∧ usersCol w !! k = Some u ∧ project u = p)
    ∧ (∀ i r,
         requestsCol w !! i = Some r → requesterEmail r = e →
         requestStatus r = "approved" → companyName r ≠ EmptyString →
         ∃ t, t ∈ teams ∧ team_companyName t = companyName r)
    ∧ ((∀ i r, requestsCol w !! i = Some r → requesterEmail r = e →
        requestStatus r ≠ "approved") → teams = []).
Proof.
  eexists. split; [apply myTeam_answer|].
  split; [apply omap_teamFor_names, new_Set_NoDup|]. split; [|split].
  - intros t Ht. apply list_elem_of_omap in Ht as (c & Hc & Ht).
    pose proof (teamFor_company _ _ _ Ht) as Hname. split.
    + apply new_Set_elem, list_elem_of_fmap in Hc as ([i r] & -> & Hin).
      apply findRequests_elem in Hin as [Hr Hm]. cbn in Hm.
      apply andb_prop in Hm as [He Hs].
      apply String.eqb_eq in He, Hs. by exists i, r.
    + intros p Hp. unfold teamFor in Ht.
      destruct (length _ =? 0)%nat; [done|]. injection Ht as <-.
      cbn in Hp. unfold findUsersIn in Hp.
      apply list_elem_of_fmap in Hp as (u & -> & Hu).
      apply list_elem_of_filter in Hu as [Hmail Hu].
      apply list_elem_of_fmap in Hu as ([k u'] & -> & Hk).
      apply elem_of_map_to_list in Hk.
      apply new_Set_elem, list_elem_of_fmap in Hmail as ([j r'] & Hj & Hin).
      apply findRequests_elem in Hin as [Hr' Hm]. cbn in Hm.
      apply andb_prop in Hm as [Hco Hs].
      apply String.eqb_eq in Hco, Hs. cbn in *.
      by exists j, r', k, u'.
  - intros i r Hr He Hs Hc.
    assert (String.eqb (companyName r) EmptyString = false) as Hne
      by by apply String.eqb_neq.
    destruct (teamFor w (companyName r)) as [t|] eqn:Ht.
    + exists t. split; [|by apply (teamFor_company _ _ _ Ht)].
      apply list_elem_of_omap. exists (companyName r). split; [|done].
      apply new_Set_elem, list_elem_of_fmap. exists (i, r). split.
      * cbn. by rewrite Hne.
      * apply findRequests_elem. split; [done|]. cbn.
        apply andb_true_intro. by rewrite !String.eqb_eq.
    + unfold teamFor in Ht.
      destruct (findRequests (ByCompanyStatus (companyName r) "approved") w)
        as [|q l] eqn:Hf; [|done].
      assert ((i, r) ∈ findRequests
                         (ByCompanyStatus (companyName r) "approved") w)
        as Hin.
      { apply findRequests_elem. split; [done|]. cbn.
        apply andb_true_intro. by rewrite !String.eqb_eq. }
      rewrite Hf in Hin. by apply elem_of_nil in Hin.
  - intros Hnone.
    destruct (findRequests (ByRequesterStatus e "approved") w) as [|[i r] l]
      eqn:Hf; [done|].
    assert ((i, r) ∈ findRequests (ByRequesterStatus e "approved") w) as Hin
      by (rewrite Hf; apply list_elem_of_here).
    apply findRequests_elem in Hin as [Hr Hm]. cbn in Hm.
    apply andb_prop in Hm as [He Hs]. apply String.eqb_eq in He, Hs.
    by destruct (Hnone i r Hr He).
Qed.

(** ** A return that fails half-way *)

(** X13. [returnAsset] writes the status before it gives the unit back and
    has no way to catch up. When the increment rejects after the status
    write, the call answers 500, the request is returned and the asset has
    not gained the unit; and no later call gives it back, since every
    further return of the request is refused and changes nothing. *)
Theorem returnAsset_loses_unit fault now id rid r aid
  (w : World (ObjectId := ObjectId)) :
  newObjectId id = Some rid →
  requestsCol w !! rid = Some r →
  requestStatus r = "approved" →
  assetType r = Some "Returnable" →
  assetId r = Some aid →
  fault 0%nat = false → fault 1%nat = false → fault 2%nat = true →
  let out := serve fault (returnAsset newObjectId now id) w in
  out =
    (sendStatus 500 (ServerError StorageUnavailable),
     mkWorld (assetsCol w) (<[rid := returned r now]> (requestsCol w))
       (usersCol w))
  ∧ ∀ fault' now',
      status (serve fault' (returnAsset newObjectId now' id) out.2).1
        ≠ 200%nat
      ∧ (serve fault' (returnAsset newObjectId now' id) out.2).2 = out.2.
Proof.
  intros Hid Hr Hst Hty Haid F0 F1 F2 out.
  assert (out =
            (sendStatus 500 (ServerError StorageUnavailable),
             mkWorld (assetsCol w) (<[rid := returned r now]> (requestsCol w))
               (usersCol w))) as Hout.
  { unfold out, serve, returnAsset. rewrite Hid. cbn. rewrite F0. cbn.
    rewrite Hr, Hst. cbn. rewrite bool_decide_true by done. cbn.
    rewrite F1. cbn. rewrite Haid. cbn. rewrite F2.
    by rewrite (alter_found _ _ _ _ Hr). }
  split; [done|]. intros fault' now'. rewrite Hout. cbn [snd].
  apply (returnAsset_refused newObjectId fault' now' id rid (returned r now));
    [done|apply lookup_insert_eq|by left].
Qed.

End MoreProperties.

(** * Properties of the guarded routes and of the reads *)

(** ** The authorization header *)

Lemma split_free sep s : freeOf sep s = true → split sep s = [s].
Proof.
  induction s as [|c s IH]; cbn; [done|].
  intros [Hc Hs]%andb_prop. apply negb_true_iff in Hc. rewrite Hc.
  by rewrite (IH Hs).
Qed.

Lemma split_word sep word rest :
  freeOf sep word = true →
  split sep (word +:+ String sep rest) = word :: split sep rest.
Proof.
  induction word as [|c word IH].
  - intros _. change (EmptyString +:+ String sep rest) with (String sep rest).
    cbn. by rewrite Ascii.eqb_refl.
  - intros [Hc Hs]%andb_prop. apply negb_true_iff in Hc.
    change (String c word +:+ String sep rest)
      with (String c (word +:+ String sep rest)).
    cbn. rewrite Hc. by rewrite (IH Hs).
Qed.

(** ** Groups *)

Section Groups.

Context {A : Type} `{EqDecision A}.

Lemma distinct_fold_elem (l : list A) :
  ∀ acc y,
    y ∈ fold_left
          (λ (acc : list A) x,
             if bool_decide (x ∈ acc) then acc else (acc ++ [x])%list)
          l acc ↔
    y ∈ acc ∨ y ∈ l.
Proof.
  induction l as [|x l IH]; intros acc y; cbn.
  - split; [by left|]. intros [?|Hy]; [done|by apply elem_of_nil in Hy].
  - rewrite IH, elem_of_cons. case_bool_decide as Hx.
    + split; [tauto|]. intros [?|[->|?]]; tauto.
    + rewrite elem_of_app, list_elem_of_singleton. tauto.
Qed.

Lemma distinct_fold_NoDup (l : list A) :
  ∀ acc,
    NoDup acc →
    NoDup (fold_left
             (λ (acc : list A) x,
                if bool_decide (x ∈ acc) then acc else (acc ++ [x])%list)
             l acc).
Proof.
  induction l as [|x l IH]; intros acc Hacc; cbn; [done|].
  apply IH. case_bool_decide as Hx; [done|].
  apply NoDup_app. repeat split; [done| |apply NoDup_singleton].
  intros y Hy. rewrite list_elem_of_singleton. by intros ->.
Qed.

Lemma distinct_elem (l : list A) y : y ∈ distinct l ↔ y ∈ l.
Proof.
  unfold distinct. rewrite distinct_fold_elem.
  split; [|by right]. intros [Hy|?]; [by apply elem_of_nil in Hy|done].
Qed.

Lemma distinct_NoDup (l : list A) : NoDup (distinct l).
Proof. apply distinct_fold_NoDup, NoDup_nil_2. Qed.

Lemma occurrences_absent (l : list A) k : k ∉ l → occurrences k l = 0%nat.
Proof.
  intros Hk. unfold occurrences.
  destruct (filter _ l) as [|x l'] eqn:Hf; [done|].
  assert (x ∈ filter (λ x, x = k) l) as Hin.
  { rewrite Hf. apply list_elem_of_here. }
  apply list_elem_of_filter in Hin as [-> Hin]. by destruct Hk.
Qed.

Lemma occurrences_present (l : list A) k :
  k ∈ l → (1 ≤ occurrences k l)%nat.
Proof.
  intros Hk. unfold occurrences.
  destruct (filter _ l) as [|x l'] eqn:Hf; [|cbn; lia].
  assert (k ∈ filter (λ x, x = k) l) as Hin.
  { by apply list_elem_of_filter. }
  rewrite Hf in Hin. by apply elem_of_nil in Hin.
Qed.

Lemma occurrences_fmap {B} (f : B → A) (l : list B) k :
  occurrences k (f <$> l) = length (filter (λ x, f x = k) l).
Proof.
  unfold occurrences. induction l as [|x l IH]; [done|].
  rewrite fmap_cons. destruct (decide (f x = k)) as [Hx|Hx].
  - rewrite !filter_cons_True by done. cbn. by rewrite IH.
  - by rewrite !filter_cons_False.
Qed.

Lemma groupCount_elem (l : list A) k n :
  (k, n) ∈ groupCount l ↔ k ∈ l ∧ n = occurrences k l.
Proof.
  unfold groupCount. rewrite list_elem_of_fmap. split.
  - intros (k' & [= -> ->] & Hk). split; [by apply distinct_elem|done].
  - intros [Hk ->]. exists k. split; [done|]. by apply distinct_elem.
Qed.

Lemma groupCount_keys (l : list A) : (groupCount l).*1 = distinct l.
Proof.
  unfold groupCount. rewrite <-list_fmap_compose.
  induction (distinct l) as [|k ks IH]; [done|]. cbn. by rewrite IH.
Qed.

End Groups.

Lemma typeCounts_fold (cnt : string → nat) (ks : list string) :
  NoDup ks →
  ∀ acc,
    fold_left
      (λ (acc : nat * nat) (item : string * nat),
         if String.eqb item.1 "Returnable" then (item.2, acc.2)
         else if String.eqb item.1 "Non-returnable" then (acc.1, item.2)
         else acc)
      ((λ k, (k, cnt k)) <$> ks) acc =
    (if decide ("Returnable" ∈ ks) then cnt "Returnable" else acc.1,
     if decide ("Non-returnable" ∈ ks) then cnt "Non-returnable" else acc.2).
Proof.
  induction ks as [|k ks IH]; intros Hnd acc.
  - cbn. rewrite !decide_False by apply not_elem_of_nil. by destruct acc.
  - apply NoDup_cons in Hnd as [Hk Hnd]. rewrite fmap_cons. cbn [fold_left].
    rewrite (IH Hnd). cbn [fst snd].
    destruct (String.eqb k "Returnable") eqn:Hr.
    { apply String.eqb_eq in Hr. subst k. cbn [fst snd].
      rewrite (decide_True (P := "Returnable" ∈ "Returnable" :: ks))
        by apply list_elem_of_here.
      rewrite (decide_False (P := "Returnable" ∈ ks)) by done.
      f_equal. destruct (decide ("Non-returnable" ∈ ks)) as [Hn|Hn].
      - rewrite decide_True; [done|]. by apply list_elem_of_further.
      - rewrite decide_False; [done|].
        intros [?|?]%elem_of_cons; [discriminate|done]. }
    apply String.eqb_neq in Hr.
    destruct (String.eqb k "Non-returnable") eqn:Hn.
    { apply String.eqb_eq in Hn. subst k. cbn [fst snd].
      rewrite (decide_True (P := "Non-returnable" ∈ "Non-returnable" :: ks))
        by apply list_elem_of_here.
      rewrite (decide_False (P := "Non-returnable" ∈ ks)) by done.
      f_equal. destruct (decide ("Returnable" ∈ ks)) as [Hn|Hn].
      - rewrite decide_True; [done|]. by apply list_elem_of_further.
      - rewrite decide_False; [done|].
        intros [?|?]%elem_of_cons; [discriminate|done]. }
    apply String.eqb_neq in Hn.
    f_equal.
    + destruct (decide ("Returnable" ∈ ks)) as [Hin|Hin].
      * rewrite decide_True; [done|]. by apply list_elem_of_further.
      * rewrite decide_False; [done|].
        intros [?|?]%elem_of_cons; [by destruct Hr|done].
    + destruct (decide ("Non-returnable" ∈ ks)) as [Hin|Hin].
      * rewrite decide_True; [done|]. by apply list_elem_of_further.
      * rewrite decide_False; [done|].
        intros [?|?]%elem_of_cons; [by destruct Hn|done].
Qed.

#[local] Instance largerFirst_trans : Transitive largerFirst.
Proof. intros x y z. unfold largerFirst. lia. Qed.

#[local] Instance largerFirst_total : Total largerFirst.
Proof. intros x y. unfold largerFirst. lia. Qed.

Section RouteProperties.

Context {ObjectId : Type} `{Countable ObjectId}.
Variable newObjectId : string → option ObjectId.
Variable jwtVerify : string → option (Claims (ObjectId := ObjectId)).
Variable jwtSign : Claims (ObjectId := ObjectId) → string.
Variable bcryptCompare : option string → string → Error + bool.

Local Abbreviation Store := (World (ObjectId := ObjectId)).

(** X14. [verifyToken] takes the second word of the header for the token
    and never looks at the first. Without header, or with an empty one, it
    answers 401. A header of two words goes on with the payload of the
    second word when [jwt.verify] accepts it, whatever the first word is,
    and is answered 403 otherwise. A header of one word, a bare token for
    one, is answered 403 whatever the word. *)
Theorem verifyToken_second_word scheme token :
  freeOf Ascii.Space scheme = true →
  freeOf Ascii.Space token = true →
  verifyToken jwtVerify None =
    inl (mkReply 401 (Plain (Msg "No token provided")))
  ∧ verifyToken jwtVerify (Some EmptyString) =
      inl (mkReply 401 (Plain (Msg "No token provided")))
  ∧ verifyToken jwtVerify (Some (scheme +:+ String Ascii.Space token)) =
      match jwtVerify token with
      | Some decoded => inr decoded
      | None => inl (mkReply 403 (Plain (Msg "Invalid token")))
      end
  ∧ (token ≠ EmptyString →
     verifyToken jwtVerify (Some token) =
       inl (mkReply 403 (Plain (Msg "Invalid token")))).
Proof.
  intros Hscheme Htoken. split; [done|]. split; [done|]. split.
  - unfold verifyToken.
    assert (truthy (Some (scheme +:+ String Ascii.Space token)) = true) as ->.
    { destruct scheme; reflexivity. }
    unfold default; cbn [negb from_option id]. rewrite (split_word _ _ _ Hscheme).
    rewrite (split_free _ _ Htoken). cbn. by destruct (jwtVerify token).
  - intros Hne. unfold verifyToken.
    assert (truthy (Some token) = true) as ->.
    { cbn. by destruct token. }
    unfold default; cbn [negb from_option id].
    by rewrite (split_free _ _ Htoken).
Qed.

Lemma verifyToken_cases authorization :
  (∃ header token claims,
     authorization = Some header
     ∧ split Ascii.Space header !! 1%nat = Some token
     ∧ jwtVerify token = Some claims
     ∧ verifyToken jwtVerify authorization = inr claims)
  ∨ (∃ r, verifyToken jwtVerify authorization = inl r
          ∧ (code r = 401 ∨ code r = 403)%nat).
Proof.
  unfold verifyToken. destruct authorization as [header|]; cbn [truthy negb].
  2:{ right. eexists. split; [done|]. by left. }
  destruct (String.eqb header EmptyString); cbn [negb].
  { right. eexists. split; [done|]. by left. }
  unfold default; cbn [from_option id].
  destruct (split Ascii.Space header !! 1%nat) as [token|] eqn:Ht; cbn.
  2:{ right. eexists. split; [done|]. by right. }
  destruct (jwtVerify token) as [claims|] eqn:Hc.
  - left. by exists header, token, claims.
  - right. eexists. split; [done|]. by right.
Qed.

Lemma verifyHR_cases (claims : Claims (ObjectId := ObjectId)) :
  (claim_role claims = "hr" ∧ verifyHR (Some claims) = None)
  ∨ (claim_role claims ≠ "hr"
     ∧ verifyHR (Some claims) = Some (mkReply 403 (Plain (Msg "HR only")))).
Proof.
  unfold verifyHR. destruct (String.eqb _ _) eqn:Hr; cbn.
  - left. by apply String.eqb_eq in Hr.
  - right. by apply String.eqb_neq in Hr.
Qed.

Lemma verifyEmployee_cases (claims : Claims (ObjectId := ObjectId)) :
  (claim_role claims = "employee" ∧ verifyEmployee (Some claims) = None)
  ∨ (claim_role claims ≠ "employee"
     ∧ verifyEmployee (Some claims) =
         Some (mkReply 403 (Plain (Msg "Employee only")))).
Proof.
  unfold verifyEmployee. destruct (String.eqb _ _) eqn:Hr; cbn.
  - left. by apply String.eqb_eq in Hr.
  - right. by apply String.eqb_neq in Hr.
Qed.

(** X15. The guarded routes act only for a bearer of the role. Either the
    header carries, as its second word, a token that [jwt.verify] accepts
    with the role "hr", or both [GET /hr/employees/pending] and
    [PATCH /hr/approve-employee/:id] answer 401 or 403 and leave the store
    as it is; the same for [GET /employee/my-profile] and the role
    "employee"; and no header opens both an HR route and the employee
    route. *)
Theorem guarded_routes_need_the_role id authorization (w : Store) :
  let refused (out : Reply * Store) :=
    (code out.1 = 401 ∨ code out.1 = 403)%nat ∧ out.2 = w in
  let bearer (r : string) :=
    ∃ header token claims,
      authorization = Some header
      ∧ split Ascii.Space header !! 1%nat = Some token
      ∧ jwtVerify token = Some claims
      ∧ claim_role claims = r in
  (bearer "hr"
   ∨ (refused (pendingEmployees jwtVerify authorization w)
      ∧ refused (approveEmployee newObjectId jwtVerify id authorization w)))
  ∧ (bearer "employee" ∨ refused (myProfile jwtVerify authorization w))
  ∧ (refused (pendingEmployees jwtVerify authorization w)
     ∨ refused (myProfile jwtVerify authorization w)).
Proof.
  intros refused bearer.
  unfold refused, pendingEmployees, approveEmployee, myProfile, guarded.
  destruct (verifyToken_cases authorization)
    as [(header & token & claims & -> & Ht & Hc & ->)|(r & -> & Hr)].
  2:{ cbn. tauto. }
  destruct (verifyHR_cases claims) as [[Hhr ->]|[Hhr ->]];
    destruct (verifyEmployee_cases claims) as [[Hemp ->]|[Hemp ->]]; cbn.
  - rewrite Hhr in Hemp. discriminate.
  - split; [|split]; [|right|right]; [|tauto..].
    left. by exists header, token, claims.
  - split; [|split]; [right|left|left]; [tauto| |tauto].
    by exists header, token, claims.
  - tauto.
Qed.

(** X16. [PATCH /hr/approve-employee/:id] with the token of an HR sets
    [approved] on the one user document with that id, whoever it belongs
    to, and touches nothing else: assets, requests and the other users stay,
    no email changes, so the emails stay unique. When no user has the id the
    answer is still 200 "Employee Approved", with a matched count of 0, and
    the store is as before. *)
Theorem approveEmployee_sets_flag id oid authorization claims (w : Store) :
  verifyToken jwtVerify authorization = inr claims →
  claim_role claims = "hr" →
  newObjectId id = Some oid →
  let out := approveEmployee newObjectId jwtVerify id authorization w in
  out.1 =
    mkReply 200
      (Plain (MsgResult "Employee Approved" (matched (usersCol w !! oid))))
  ∧ assetsCol out.2 = assetsCol w
  ∧ requestsCol out.2 = requestsCol w
  ∧ usersCol out.2 !! oid = setApproved <$> usersCol w !! oid
  ∧ (∀ i, i ≠ oid → usersCol out.2 !! i = usersCol w !! i)
  ∧ (usersCol w !! oid = None → out.2 = w)
  ∧ (emailsUnique w → emailsUnique out.2).
Proof.
  intros Hv Hrole Hid out. subst out.
  unfold approveEmployee, guarded. rewrite Hv.
  destruct (verifyHR_cases claims) as [[_ ->]|[Hno _]]; [|done].
  rewrite Hid. cbn.
  split; [done|]. split; [done|]. split; [done|].
  split; [by apply lookup_alter_eq|].
  split; [by intros i Hi; apply lookup_alter_ne|].
  split.
  - intros Hnone. rewrite (alter_missing _ _ _ Hnone). by destruct w.
  - intros Huniq i j u v Hu Hv' Hmail. cbn in Hu, Hv'.
    assert (∀ k x, alter setApproved oid (usersCol w) !! k = Some x →
                   ∃ y, usersCol w !! k = Some y ∧ email y = email x)
      as Hback.
    { intros k x. destruct (decide (oid = k)) as [<-|Hk].
      - rewrite lookup_alter_eq.
        destruct (usersCol w !! oid) as [y|]; [|done].
        intros [= <-]. by exists y.
      - rewrite lookup_alter_ne by done. intros Hx. by exists x. }
    destruct (Hback _ _ Hu) as (u' & Hu' & Heu).
    destruct (Hback _ _ Hv') as (v' & Hv'' & Hev).
    apply (Huniq i j u' v' Hu' Hv''). congruence.
Qed.

(** ** Registration, approval and the lists of employees *)

Lemma registerEmployee_stores oid now salted b (w : Store) :
  truthy (body_name b) = true →
  truthy (body_email b) = true →
  truthy (body_password b) = true →
  findUser (default EmptyString (body_email b)) w = None →
  usersCol w !! oid = None →
  ∃ u,
    (serve noFault (registerEmployee oid now salted b) w).2 =
      mkWorld (assetsCol w) (requestsCol w) (<[oid := u]> (usersCol w))
    ∧ email u = default EmptyString (body_email b)
    ∧ password u = salted
    ∧ role u = "employee"
    ∧ approved u = false.
Proof.
  intros Hn He Hp Hfree Hfresh. unfold serve, registerEmployee.
  rewrite Hn, He, Hp. cbn. rewrite Hfree. cbn. rewrite Hfresh. cbn.
  by eexists.
Qed.

Lemma guarded_passes verifyRole handle authorization claims (w : Store) :
  verifyToken jwtVerify authorization = inr claims →
  verifyRole (Some claims) = None →
  guarded jwtVerify verifyRole handle authorization w = handle claims w.
Proof. intros Hv Hr. unfold guarded. by rewrite Hv, Hr. Qed.

(** X17. A registered employee waits for an HR. After a successful
    [POST /auth/register/employee] the new document is in the list of
    [GET /hr/employees/pending] and not in the list that [GET /hr/employees]
    gives without [hrEmail]; after [PATCH /hr/approve-employee/:id] on its
    id it has left the first list and is in the second, with [approved]
    set and nothing else changed. *)
Theorem employee_waits_for_approval oid now salted b id authorization claims
  (w : Store) :
  truthy (body_name b) = true →
  truthy (body_email b) = true →
  truthy (body_password b) = true →
  findUser (default EmptyString (body_email b)) w = None →
  usersCol w !! oid = None →
  newObjectId id = Some oid →
  verifyToken jwtVerify authorization = inr claims →
  claim_role claims = "hr" →
  let w1 := (serve noFault (registerEmployee oid now salted b) w).2 in
  let w2 := (approveEmployee newObjectId jwtVerify id authorization w1).2 in
  ∃ u pending1 listed1 pending2 listed2,
    usersCol w1 !! oid = Some u
    ∧ email u = default EmptyString (body_email b)
    ∧ pendingEmployees jwtVerify authorization w1 =
        (mkReply 200 (SendUsers pending1), w1)
    ∧ hrEmployees None w1 = mkReply 200 (SendUsers listed1)
    ∧ pendingEmployees jwtVerify authorization w2 =
        (mkReply 200 (SendUsers pending2), w2)
    ∧ hrEmployees None w2 = mkReply 200 (SendUsers listed2)
    ∧ (oid, u) ∈ pending1
    ∧ (∀ v, (oid, v) ∉ listed1)
    ∧ (∀ v, (oid, v) ∉ pending2)
    ∧ (oid, setApproved u) ∈ listed2.
Proof.
  intros Hn He Hp Hfree Hfresh Hid Hv Hrole w1 w2.
  destruct (registerEmployee_stores oid now salted b w Hn He Hp Hfree Hfresh)
    as (u & Hw1 & Hmail & _ & Hr & Ha).
  destruct (verifyHR_cases claims) as [[_ Hhr]|[Hno _]]; [|done].
  assert (usersCol w1 !! oid = Some u) as Hu1.
  { unfold w1. rewrite Hw1. cbn. apply lookup_insert_eq. }
  assert (usersCol w2 !! oid = Some (setApproved u)) as Hu2.
  { unfold w2, approveEmployee. rewrite (guarded_passes _ _ _ _ _ Hv Hhr).
    rewrite Hid. cbn. by rewrite lookup_alter_eq, Hu1. }
  exists u, (employeesWhere false w1), (employeesWhere true w1),
    (employeesWhere false w2), (employeesWhere true w2).
  split; [done|]. split; [done|].
  split.
  { unfold pendingEmployees. by rewrite (guarded_passes _ _ _ _ _ Hv Hhr). }
  split; [done|]. split.
  { unfold pendingEmployees. by rewrite (guarded_passes _ _ _ _ _ Hv Hhr). }
  split; [done|].
  unfold employeesWhere. split; [|split; [|split]].
  - apply list_elem_of_filter. split; [by cbn|].
    by apply elem_of_map_to_list.
  - intros v [[_ Hflag] Hin]%list_elem_of_filter.
    apply elem_of_map_to_list in Hin. rewrite Hu1 in Hin.
    injection Hin as <-. cbn in Hflag. congruence.
  - intros v [[_ Hflag] Hin]%list_elem_of_filter.
    apply elem_of_map_to_list in Hin. rewrite Hu2 in Hin.
    by injection Hin as <-.
  - apply list_elem_of_filter. split; [by cbn|].
    by apply elem_of_map_to_list.
Qed.

(** X18. With a [hrEmail], [GET /hr/employees] lists each user once, and a
    user is listed exactly when its role is "employee" and some approved
    request with that [hrEmail] carries its email as the requester. The
    [approved] flag of the user plays no part. *)
Theorem hrEmployees_by_approved_requests h (w : Store) :
  h ≠ EmptyString →
  ∃ l,
    hrEmployees (Some h) w = mkReply 200 (SendUsers l)
    ∧ NoDup l
    ∧ ∀ i u,
        (i, u) ∈ l ↔
        usersCol w !! i = Some u
        ∧ role u = "employee"
        ∧ ∃ j r,
            requestsCol w !! j = Some r
            ∧ hrEmail r = Some h
            ∧ requestStatus r = "approved"
            ∧ requesterEmail r = email u.
Proof.
  clear newObjectId jwtVerify jwtSign bcryptCompare.
  intros Hh. unfold hrEmployees.
  assert (truthy (Some h) = true) as ->.
  { cbn. apply negb_true_iff. by apply String.eqb_neq. }
  unfold default; cbn [from_option id].
  assert (∀ e,
            e ∈ (λ r : ObjectId * Request, requesterEmail r.2)
                  <$> approvedFor h w ↔
            ∃ j r,
              requestsCol w !! j = Some r
              ∧ hrEmail r = Some h
              ∧ requestStatus r = "approved"
              ∧ requesterEmail r = e) as Hemails.
  { intros e. rewrite list_elem_of_fmap. unfold approvedFor. split.
    - intros ([j r] & -> & [[Hhr Hst] Hin]%list_elem_of_filter).
      apply elem_of_map_to_list in Hin. by exists j, r.
    - intros (j & r & Hr & Hhr & Hst & <-). exists (j, r).
      split; [done|]. apply list_elem_of_filter. split; [done|].
      by apply elem_of_map_to_list. }
  destruct (length (approvedFor h w) =? 0)%nat eqn:Hlen.
  - exists []. split; [done|]. split; [apply NoDup_nil_2|].
    intros i u. split; [by intros ?%elem_of_nil|].
    intros (_ & _ & Hreq). apply Hemails in Hreq.
    apply Nat.eqb_eq in Hlen. apply nil_length_inv in Hlen.
    rewrite Hlen in Hreq. by apply elem_of_nil in Hreq.
  - eexists. split; [done|]. split.
    + apply NoDup_filter, NoDup_map_to_list.
    + intros i u. rewrite list_elem_of_filter, elem_of_map_to_list.
      cbn. rewrite new_Set_elem, Hemails. tauto.
Qed.

(** ** Login *)

Lemma findUserDoc_unique (w : Store) i u :
  emailsUnique w → usersCol w !! i = Some u →
  findUserDoc (Some (email u)) w = Some (i, u).
Proof.
  intros Huniq Hu. unfold findUserDoc.
  destruct (filter _ _) as [|[j v] l] eqn:Hf.
  - assert ((i, u) ∈ filter (λ p : ObjectId * User, email p.2 = email u)
                       (map_to_list (usersCol w))) as Hin.
    { apply list_elem_of_filter. split; [done|].
      by apply elem_of_map_to_list. }
    rewrite Hf in Hin. by apply elem_of_nil in Hin.
  - assert ((j, v) ∈ filter (λ p : ObjectId * User, email p.2 = email u)
                       (map_to_list (usersCol w))) as Hin.
    { rewrite Hf. apply list_elem_of_here. }
    apply list_elem_of_filter in Hin as [Hmail Hin]. cbn in Hmail.
    apply elem_of_map_to_list in Hin.
    assert (j = i) as -> by exact (Huniq j i v u Hin Hu Hmail).
    rewrite Hu in Hin. by injection Hin as <-.
Qed.

Lemma findUserDoc_unknown (w : Store) e :
  (∀ i u, usersCol w !! i = Some u → email u ≠ e) →
  findUserDoc (Some e) w = None.
Proof.
  intros Hno. unfold findUserDoc.
  destruct (filter _ _) as [|[j v] l] eqn:Hf; [done|].
  assert ((j, v) ∈ filter (λ p : ObjectId * User, email p.2 = e)
                     (map_to_list (usersCol w))) as Hin.
  { rewrite Hf. apply list_elem_of_here. }
  apply list_elem_of_filter in Hin as [Hmail Hin]. cbn in Hmail.
  apply elem_of_map_to_list in Hin. by destruct (Hno j v Hin).
Qed.

(** X19. [POST /auth/login] decides on the stored hash only. In a store
    with unique emails, a login under the email of a user document is
    answered as [bcrypt.compare] judges the given password against the
    password field of that document: accepted, 200 with the document and a
    token signed over its id, role and email, whether or not the user is
    approved; not accepted, 400 "Invalid password"; rejected, 500. A login
    without email, or under an email that no document has, is answered 400
    "User not found". *)
Theorem login_checks_stored_hash b (w : Store) i u :
  emailsUnique w →
  usersCol w !! i = Some u →
  (login_email b = Some (email u) →
   login jwtSign bcryptCompare b w =
     match bcryptCompare (login_password b) (password u) with
     | inl e => serverError e
     | inr false => mkReply 400 (Plain (Msg "Invalid password"))
     | inr true =>
         mkReply 200
           (SendLogin (jwtSign (mkClaims i (role u) (email u))) (i, u))
     end)
  ∧ (login_email b = None
     ∨ (∃ e, login_email b = Some e
             ∧ ∀ j v, usersCol w !! j = Some v → email v ≠ e) →
     login jwtSign bcryptCompare b w =
       mkReply 400 (Plain (Msg "User not found"))).
Proof.
  intros Huniq Hu. split.
  - intros Hmail. unfold login.
    rewrite Hmail, (findUserDoc_unique w i u Huniq Hu).
    cbn. by destruct (bcryptCompare _ _) as [e|[|]].
  - intros [Hmail|(e & Hmail & Hno)]; unfold login; rewrite Hmail; [done|].
    by rewrite (findUserDoc_unknown w e Hno).
Qed.

(** X20. The token of a login opens the routes of the user's role and no
    others. Let [jwt.verify] give back the payload that [jwt.sign] signed
    for the user, in a token without space. After a login that
    [bcrypt.compare] accepts, the header "Bearer " followed by the token
    makes [GET /employee/my-profile] send the very document of the user
    when the role is "employee", and opens [GET /hr/employees/pending] when
    the role is "hr"; with any other role the HR routes answer 403 "HR
    only" and change nothing. *)
Theorem login_token_opens_own_routes b (w : Store) i u :
  emailsUnique w →
  usersCol w !! i = Some u →
  login_email b = Some (email u) →
  bcryptCompare (login_password b) (password u) = inr true →
  jwtVerify (jwtSign (mkClaims i (role u) (email u))) =
    Some (mkClaims i (role u) (email u)) →
  freeOf Ascii.Space (jwtSign (mkClaims i (role u) (email u))) = true →
  ∃ token,
    login jwtSign bcryptCompare b w = mkReply 200 (SendLogin token (i, u))
    ∧ let authorization := Some ("Bearer" +:+ String Ascii.Space token) in
      (role u = "employee" →
       myProfile jwtVerify authorization w =
         (mkReply 200 (SendUser (Some (i, u))), w))
      ∧ (role u = "hr" →
         pendingEmployees jwtVerify authorization w =
           (mkReply 200 (SendUsers (employeesWhere false w)), w))
      ∧ (role u ≠ "hr" →
         ∀ id,
           pendingEmployees jwtVerify authorization w =
             (mkReply 403 (Plain (Msg "HR only")), w)
           ∧ approveEmployee newObjectId jwtVerify id authorization w =
               (mkReply 403 (Plain (Msg "HR only")), w)).
Proof.
  intros Huniq Hu Hmail Hok Hround Hfree.
  exists (jwtSign (mkClaims i (role u) (email u))). split.
  { unfold login. rewrite Hmail, (findUserDoc_unique w i u Huniq Hu). cbn.
    by rewrite Hok. }
  intros authorization.
  assert (verifyToken jwtVerify authorization =
            inr (mkClaims i (role u) (email u))) as Hv.
  { unfold verifyToken, authorization.
    change (truthy (Some ("Bearer" +:+ String Ascii.Space ?t))) with true.
    unfold default; cbn [negb from_option id].
    rewrite (split_word Ascii.Space "Bearer" _ eq_refl).
    rewrite (split_free _ _ Hfree). cbn. by rewrite Hround. }
  unfold myProfile, pendingEmployees, approveEmployee, guarded. rewrite Hv.
  split; [|split].
  - intros Hr.
    destruct (verifyEmployee_cases (mkClaims i (role u) (email u)))
      as [[_ ->]|[Hno _]]; [|done].
    cbn [claim_email]. by rewrite (findUserDoc_unique w i u Huniq Hu).
  - intros Hr.
    by destruct (verifyHR_cases (mkClaims i (role u) (email u)))
      as [[_ ->]|[Hno _]].
  - intros Hr id.
    by destruct (verifyHR_cases (mkClaims i (role u) (email u)))
      as [[Hyes _]|[_ ->]].
Qed.

(** X21. [GET /users/by-email/:email] gives an HR the approved employees
    of the whole store. In a store with unique emails the answer under the
    email of a user is 200 with the document of that user; the list beside
    it is empty when the role is not "hr", and for an HR it is the list
    that [GET /hr/employees] gives without [hrEmail]: every user with the
    role "employee" and [approved] set, of whatever company. An email that
    no document has is answered 404. *)
Theorem userByEmail_lists_all_approved (w : Store) i u :
  emailsUnique w →
  usersCol w !! i = Some u →
  (∃ employees,
     userByEmail (email u) w = mkReply 200 (SendProfile (i, u) employees)
     ∧ (role u ≠ "hr" → employees = [])
     ∧ (role u = "hr" →
        hrEmployees None w = mkReply 200 (SendUsers employees)
        ∧ ∀ j v,
            (j, v) ∈ employees ↔
            usersCol w !! j = Some v
            ∧ role v = "employee" ∧ approved v = true))
  ∧ (∀ e,
       (∀ j v, usersCol w !! j = Some v → email v ≠ e) →
       userByEmail e w = mkReply 404 (Plain (Msg "User not found"))).
Proof.
  clear newObjectId jwtVerify jwtSign bcryptCompare.
  intros Huniq Hu. split.
  - unfold userByEmail. rewrite (findUserDoc_unique w i u Huniq Hu).
    cbn [snd]. eexists. split; [done|]. split.
    + intros Hr. apply String.eqb_neq in Hr. by rewrite Hr.
    + intros Hr. rewrite Hr. cbn [String.eqb Ascii.eqb Bool.eqb].
      split; [done|]. intros j v. unfold employeesWhere.
      rewrite list_elem_of_filter, elem_of_map_to_list. cbn.
      split; [by intros [[? ?] ?]|by intros (? & ? & ?)].
  - intros e Hno. unfold userByEmail.
    by rewrite (findUserDoc_unknown w e Hno).
Qed.

(** ** Reading requests and assets *)

#[local] Instance laterFirst_trans :
  Transitive (laterFirst (ObjectId := ObjectId)).
Proof. intros x y z. unfold laterFirst. lia. Qed.

#[local] Instance laterFirst_total :
  Total (laterFirst (ObjectId := ObjectId)).
Proof. intros x y. unfold laterFirst. lia. Qed.

(** X22. [GET /employee/requests/:email] sends exactly the requests whose
    requester is the email, [GET /hr/requests] sends every request of every
    HR and company, each request once, and both lists are in the order of
    the request dates, the latest first. *)
Theorem requests_latest_first e (w : Store) :
  ∃ mine every,
    myRequests e w = mkReply 200 (SendRequests mine)
    ∧ hrRequests w = mkReply 200 (SendRequests every)
    ∧ StronglySorted laterFirst mine
    ∧ StronglySorted laterFirst every
    ∧ NoDup mine
    ∧ NoDup every
    ∧ (∀ i r,
         (i, r) ∈ mine ↔ requestsCol w !! i = Some r ∧ requesterEmail r = e)
    ∧ (∀ i r, (i, r) ∈ every ↔ requestsCol w !! i = Some r)
    ∧ length every = size (requestsCol w).
Proof.
  clear newObjectId jwtVerify jwtSign bcryptCompare.
  eexists _, _. split; [done|]. split; [done|].
  split; [by apply StronglySorted_merge_sort; apply _|].
  split; [by apply StronglySorted_merge_sort; apply _|].
  split.
  { rewrite merge_sort_Permutation. apply NoDup_filter, NoDup_map_to_list. }
  split.
  { rewrite merge_sort_Permutation. apply NoDup_map_to_list. }
  split; [|split].
  - intros i r. rewrite merge_sort_Permutation, list_elem_of_filter.
    rewrite elem_of_map_to_list. cbn. tauto.
  - intros i r. by rewrite merge_sort_Permutation, elem_of_map_to_list.
  - by rewrite merge_sort_Permutation, length_map_to_list.
Qed.

(** X23. [GET /hr/analytics/asset-types] counts asset documents, not
    units: of the assets that the [hrEmail] of the query selects (all of
    them without one), the first number is how many have the type
    "Returnable" and the second how many have the type "Non-returnable";
    an asset of any other type is in neither. *)
Theorem assetTypes_counts_documents hrEmailQuery (w : Store) :
  let selected :=
    filter (λ a, matchStage hrEmailQuery (asset_hrEmail a) = true)
      (snd <$> map_to_list (assetsCol w)) in
  let returnable :=
    length (filter (λ a, productType a = "Returnable") selected) in
  let nonReturnable :=
    length (filter (λ a, productType a = "Non-returnable") selected) in
  assetTypes hrEmailQuery w =
    mkReply 200 (SendAssetTypes returnable nonReturnable)
  ∧ (returnable + nonReturnable ≤ size (assetsCol w))%nat.
Proof.
  clear newObjectId jwtVerify jwtSign bcryptCompare.
  intros selected returnable nonReturnable. split.
  - unfold assetTypes, returnable, nonReturnable. fold selected.
    unfold groupCount.
    rewrite (typeCounts_fold _ _ (distinct_NoDup _)). cbn [fst snd].
    f_equal. f_equal.
    + destruct (decide _) as [Hin|Hin]; [apply occurrences_fmap|].
      rewrite <-(occurrences_fmap productType).
      symmetry. apply occurrences_absent. by rewrite <-distinct_elem.
    + destruct (decide _) as [Hin|Hin]; [apply occurrences_fmap|].
      rewrite <-(occurrences_fmap productType).
      symmetry. apply occurrences_absent. by rewrite <-distinct_elem.
  - assert (∀ l : list Asset,
              (length (filter (λ a, productType a = "Returnable") l)
               + length (filter (λ a, productType a = "Non-returnable") l)
               ≤ length l)%nat) as Hsum.
    { induction l as [|a l IH]; [done|].
      destruct (decide (productType a = "Returnable")) as [Hr|Hr].
      - rewrite (filter_cons_True (λ a, productType a = "Returnable"))
          by done.
        rewrite (filter_cons_False (λ a, productType a = "Non-returnable"))
          by (rewrite Hr; discriminate).
        cbn. lia.
      - rewrite (filter_cons_False (λ a, productType a = "Returnable"))
          by done.
        destruct (decide (productType a = "Non-returnable")) as [Hn|Hn].
        + rewrite (filter_cons_True
                     (λ a, productType a = "Non-returnable")) by done.
          cbn. lia.
        + rewrite (filter_cons_False
                     (λ a, productType a = "Non-returnable")) by done.
          cbn. lia. }
    unfold returnable, nonReturnable.
    etrans; [apply Hsum|]. unfold selected.
    etrans; [apply length_filter|].
    by rewrite length_fmap, length_map_to_list.
Qed.

(** X24. [GET /hr/analytics/top-requested] sends at most five groups, the
    largest first, one for each of the asset names that it lists, with the
    number of selected requests that carry the name; and a name that
    occurs in a selected request is listed unless five groups are, none of
    them smaller than its own. *)
Theorem topRequested_five_largest hrEmailQuery (w : Store) :
  let names :=
    assetName
      <$> filter (λ r, matchStage hrEmailQuery (hrEmail r) = true)
            (snd <$> map_to_list (requestsCol w)) in
  ∃ top,
    topRequested hrEmailQuery w = mkReply 200 (SendTopRequested top)
    ∧ (length top ≤ 5)%nat
    ∧ StronglySorted largerFirst top
    ∧ NoDup top.*1
    ∧ (∀ k n,
         (k, n) ∈ top → k ∈ names ∧ n = occurrences k names ∧ (1 ≤ n)%nat)
    ∧ (∀ k,
         k ∈ names →
         (k, occurrences k names) ∈ top
         ∨ (length top = 5%nat
            ∧ ∀ k' n', (k', n') ∈ top → (occurrences k names ≤ n')%nat)).
Proof.
  clear newObjectId jwtVerify jwtSign bcryptCompare.
  intros names. unfold topRequested. fold names.
  set (sorted := merge_sort largerFirst (groupCount names)).
  assert (sorted ≡ₚ groupCount names) as Hperm
    by apply merge_sort_Permutation.
  assert (StronglySorted largerFirst sorted) as Hsorted
    by (apply StronglySorted_merge_sort; apply _).
  exists (take 5 sorted). split; [done|].
  split; [rewrite length_take; lia|].
  rewrite <-(take_drop 5 sorted) in Hsorted.
  split; [by apply StronglySorted_app_1_l in Hsorted|].
  split.
  { assert (NoDup sorted.*1) as Hnd.
    { rewrite Hperm, groupCount_keys. apply distinct_NoDup. }
    rewrite fmap_take. exact (sublist_NoDup _ _ Hnd (sublist_take _ _)). }
  split.
  - intros k n Hin. apply subseteq_take in Hin. rewrite Hperm in Hin.
    apply groupCount_elem in Hin as [Hk ->].
    split; [done|]. split; [done|]. by apply occurrences_present.
  - intros k Hk.
    assert ((k, occurrences k names) ∈ (take 5 sorted ++ drop 5 sorted)%list)
      as Hin.
    { rewrite take_drop, Hperm. by apply groupCount_elem. }
    apply elem_of_app in Hin as [Hin|Hin]; [by left|]. right. split.
    + apply length_take_le.
      destruct (decide (5 ≤ length sorted)%nat) as [|Hshort]; [done|].
      rewrite drop_ge in Hin by lia. by apply elem_of_nil in Hin.
    + intros k' n' Hin'.
      exact (StronglySorted_app_1_elem_of _ _ _ _ _ Hsorted Hin' Hin).
Qed.

(** X25. What was added can be read until it is deleted. After a
    successful [POST /hr/assets] under a new id, [GET /hr/assets/:id] on
    that id changes from 404 "Asset not found" to 200 with the asset, whose
    two quantities are the quantity of the body; after [DELETE
    /hr/assets/:id] it is 404 again and the assets are those from before
    the addition. An id that the driver refuses is answered 500. *)
Theorem getAsset_follows_add_and_delete id oid now b q (w : Store) :
  newObjectId id = Some oid →
  assetsCol w !! oid = None →
  truthy (body_productName b) = true →
  truthy (body_productImage b) = true →
  truthy (body_productType b) = true →
  body_productQuantity b = Some (QNumber q) →
  q ≠ 0 →
  let w1 := (serve noFault (addAsset oid now b) w).2 in
  let w2 := (serve noFault (deleteAsset newObjectId id) w1).2 in
  getAsset newObjectId id w = mkReply 404 (Plain (Msg "Asset not found"))
  ∧ (∃ a,
       getAsset newObjectId id w1 = mkReply 200 (SendAsset (oid, a))
       ∧ productQuantity a = q
       ∧ availableQuantity a = q)
  ∧ getAsset newObjectId id w2 = mkReply 404 (Plain (Msg "Asset not found"))
  ∧ assetsCol w2 = assetsCol w
  ∧ (∀ id', newObjectId id' = None →
            getAsset newObjectId id' w1 = serverError BSONError).
Proof.
  intros Hid Hfresh Hn Hi Ht Hq Hq0 w1 w2.
  assert (truthyNum (body_productQuantity b) = true) as Hnum.
  { rewrite Hq. cbn. apply negb_true_iff. by apply Z.eqb_neq. }
  assert (∃ a, w1 = mkWorld (<[oid := a]> (assetsCol w)) (requestsCol w)
                      (usersCol w)
               ∧ productQuantity a = q ∧ availableQuantity a = q)
    as (a & Hw1 & Hqa & Hqb).
  { unfold w1, serve, addAsset. rewrite Hn, Hi, Ht, Hnum. cbn.
    rewrite Hfresh. cbn. eexists. split; [done|]. by rewrite Hq. }
  assert (w2 = mkWorld (assetsCol w) (requestsCol w) (usersCol w)) as Hw2.
  { unfold w2, serve, deleteAsset. rewrite Hid, Hw1. cbn.
    rewrite lookup_insert_eq. cbn. rewrite delete_insert_eq.
    by rewrite delete_id. }
  unfold getAsset. rewrite Hid, Hfresh, Hw1, Hw2. cbn.
  rewrite lookup_insert_eq, Hfresh.
  split; [done|]. split; [by exists a|]. split; [done|]. split; [done|].
  by intros id' ->.
Qed.

End RouteProperties.

(** ** Packages *)

Section PackageProperties.

Context {ObjectId : Type} `{Countable ObjectId}.

(** X26. [seedPackages] fills an empty collection and only an empty one.
    On a collection that has a document, whatever it is, it inserts
    nothing. On an empty one it inserts the three default packages, each
    under the id that the driver makes for it, and a second call then
    inserts nothing, so that [GET /packages] sends three packages after
    any number of starts. *)
Theorem seedPackages_fills_once (newId newId' : nat → ObjectId)
  (col : gmap ObjectId Package) :
  newId 0%nat ≠ newId 1%nat →
  newId 0%nat ≠ newId 2%nat →
  newId 1%nat ≠ newId 2%nat →
  let out := seedPackages newId col in
  out.1 = inr ()
  ∧ seedPackages newId' out.2 = (inr (), out.2)
  ∧ (col ≠ ∅ → out.2 = col)
  ∧ (col = ∅ →
     length (getPackages out.2) = 3%nat
     ∧ ∀ i p,
         out.2 !! i = Some p ↔
         ∃ n, i = newId n ∧ defaultPackages !! n = Some p).
Proof.
  intros H01 H02 H12 out.
  destruct (decide (col = ∅)) as [->|Hne].
  - assert (out =
              (inr (),
               <[newId 2%nat := mkPackage "Premium" 20 15
                   ["All Standard features"; "Custom Branding";
                    "24/7 Support"]]>
                 (<[newId 1%nat := mkPackage "Standard" 10 8
                      ["All Basic features"; "Advanced Analytics";
                       "Priority Support"]]>
                    (<[newId 0%nat := mkPackage "Basic" 5 5
                         ["Asset Tracking"; "Employee Management";
                          "Basic Support"]]> ∅)))) as ->.
    { unfold out, seedPackages. rewrite map_size_empty. cbn.
      rewrite lookup_empty.
      rewrite lookup_insert_ne by done. rewrite lookup_empty.
      rewrite lookup_insert_ne by done. rewrite lookup_insert_ne by done.
      by rewrite lookup_empty. }
    cbn [fst snd].
    assert (size
              (<[newId 2%nat := mkPackage "Premium" 20 15
                   ["All Standard features"; "Custom Branding";
                    "24/7 Support"]]>
                 (<[newId 1%nat := mkPackage "Standard" 10 8
                      ["All Basic features"; "Advanced Analytics";
                       "Priority Support"]]>
                    (<[newId 0%nat := mkPackage "Basic" 5 5
                         ["Asset Tracking"; "Employee Management";
                          "Basic Support"]]>
                       (∅ : gmap ObjectId Package)))) = 3%nat) as Hsize.
    { rewrite !map_size_insert_None, map_size_empty; [done|..].
      - apply lookup_empty.
      - rewrite lookup_insert_ne by done. apply lookup_empty.
      - rewrite !lookup_insert_ne by done. apply lookup_empty. }
    split; [done|]. split.
    { unfold seedPackages. by rewrite Hsize. }
    split; [done|]. intros _. split.
    { unfold getPackages. by rewrite length_map_to_list. }
    intros i p. split.
    + intros Hi.
      destruct (decide (newId 2%nat = i)) as [<-|H2].
      { rewrite lookup_insert_eq in Hi. injection Hi as <-. by exists 2%nat. }
      rewrite lookup_insert_ne in Hi by done.
      destruct (decide (newId 1%nat = i)) as [<-|H1].
      { rewrite lookup_insert_eq in Hi. injection Hi as <-. by exists 1%nat. }
      rewrite lookup_insert_ne in Hi by done.
      destruct (decide (newId 0%nat = i)) as [<-|H0].
      { rewrite lookup_insert_eq in Hi. injection Hi as <-. by exists 0%nat. }
      rewrite lookup_insert_ne in Hi by done.
      by rewrite lookup_empty in Hi.
    + intros (n & -> & Hn).
      destruct n as [|[|[|n]]]; cbn in Hn; [| | |done]; injection Hn as <-.
      * rewrite !lookup_insert_ne by done. apply lookup_insert_eq.
      * rewrite lookup_insert_ne by done. apply lookup_insert_eq.
      * apply lookup_insert_eq.
  - assert (size col ≠ 0%nat) as Hsize.
    { intros Hz. by apply map_size_empty_inv in Hz. }
    assert (out = (inr (), col)) as ->.
    { unfold out, seedPackages.
      by destruct (size col) as [|n] eqn:Hs. }
    cbn [fst snd]. split; [done|]. split.
    { unfold seedPackages. by destruct (size col) as [|n] eqn:Hs. }
    split; [done|]. by intros ->.
Qed.

End PackageProperties.

(** * Two calls on one request *)

Section RaceProperties.

Context {ObjectId : Type} `{Countable ObjectId}.
Variable newObjectId : string → option ObjectId.

Local Abbreviation Store := (World (ObjectId := ObjectId)).








(** ** An approval and a rejection of one request *)








End RaceProperties.

(** * The further theorems on the sample stores *)

Import Office.

(** ** Ids, requests and stock *)

(** "laptop" is not an id: nothing is deleted. *)
Lemma refused_id_changes_nothing_witness :
  serve noFault (deleteAsset hexObjectId "laptop") staffed =
    (sendStatus 500 (ServerError BSONError), staffed).
Proof.
  apply (refused_id_changes_nothing hexObjectId noFault 0 (laptopBody 1)
           "laptop" staffed).
  - reflexivity.
  - apply list_elem_of_further, list_elem_of_here.
Defined.

(** The request of Eve through an approval and a return. *)
Lemma request_only_advances_witness :
  ∃ r',
    requestsCol
      (perform hexObjectId [OpApprove 40 req1Id; OpReturn 60 req1Id]
         (twoRequests 2)) !! oid req1Id = Some r'
    ∧ laterStatus (requestStatus eveRequest) (requestStatus r')
    ∧ sameSnapshot eveRequest r'
    ∧ (requestStatus eveRequest = "rejected"
       ∨ requestStatus eveRequest = "returned" →
       requestStatus r' = requestStatus eveRequest).
Proof.
  apply (request_only_advances hexObjectId
           [OpApprove 40 req1Id; OpReturn 60 req1Id] (twoRequests 2)
           (oid req1Id) eveRequest).
  reflexivity.
Defined.

Lemma requests_stay_well_timed_witness :
  requestsWellTimed (perform hexObjectId lendAndReturn emptyWorld).
Proof.
  apply (requests_stay_well_timed hexObjectId lendAndReturn emptyWorld).
  intros rid r Hr. cbn in Hr. rewrite lookup_empty in Hr. discriminate.
Defined.

(** Two laptops, one lent and taken back, one refused. *)
Lemma units_out_are_approved_requests_witness :
  ∃ a',
    assetsCol (perform hexObjectId lending stocked) !! oid laptopId = Some a'
    ∧ productQuantity a' = productQuantity (laptop 2 2)
    ∧ availableQuantity a'
      + Z.of_nat
          (outstanding (oid laptopId) (perform hexObjectId lending stocked))
      = availableQuantity (laptop 2 2)
        + Z.of_nat (outstanding (oid laptopId) stocked).
Proof.
  destruct (units_out_are_approved_requests hexObjectId lending stocked
              (oid laptopId) (laptop 2 2))
    as (a' & Ha' & Ht & _ & Hq).
  - reflexivity.
  - reflexivity.
  - unfold safeInteger, maxSafeInteger. cbn. lia.
  - unfold safeInteger, maxSafeInteger. cbn. lia.
  - exists a'. split; [exact Ha'|]. split; [exact Ht|exact Hq].
Defined.

(** ** Registration and assets *)

(** Eve is registered already. *)
Lemma register_refuses_taken_email_witness :
  serve noFault
    (registerEmployee (oid req1Id) 70 "$2b$10$again" (registerBody "eve"))
    staffed =
    (sendStatus 400 (Msg "Email already exists"), staffed)
  ∧ (truthy (body_regCompanyName (registerBody "eve")) = true →
     truthy (body_companyLogo (registerBody "eve")) = true →
     serve noFault
       (registerHR (oid req1Id) 70 "$2b$10$again" (registerBody "eve"))
       staffed =
       (sendStatus 400 (Msg "Email already exists"), staffed)).
Proof.
  apply (register_refuses_taken_email (oid req1Id) 70 "$2b$10$again"
           (registerBody "eve") staffed (oid eveId) eve).
  - reflexivity.
  - reflexivity.
  - reflexivity.
  - reflexivity.
  - reflexivity.
Defined.

(** A laptop in the quantity "0". *)
Lemma addAsset_quantity_witness :
  ∃ a,
    serve noFault (addAsset (oid laptopId) 10 zeroTextBody) emptyWorld =
      (sendStatus 201 (MsgId "Asset created" (oid laptopId)),
       mkWorld (<[oid laptopId := a]> ∅) ∅ ∅)
    ∧ productQuantity a = 0 ∧ availableQuantity a = 0.
Proof.
  destruct (proj2 (addAsset_quantity (oid laptopId) 10 zeroTextBody
                     emptyWorld eq_refl eq_refl eq_refl eq_refl)
              (QString "0" 0) eq_refl)
    as (a & Hserve & Hq & Ha & _).
  - right. exists "0", 0. split; [reflexivity|discriminate].
  - exists a. split; [exact Hserve|]. split; [exact Hq|exact Ha].
Defined.

(** The only laptop is out; an update with [null] for the quantity leaves
    a total of 0. *)
Lemma updateAsset_resets_available_witness :
  ∃ a',
    serve noFault (updateAsset hexObjectId laptopId nullQuantityBody)
      soldOut =
      (send (MsgResult "Asset updated" 1),
       mkWorld (<[oid laptopId := a']> (assetsCol soldOut))
         (requestsCol soldOut) (usersCol soldOut))
    ∧ productQuantity a' = 0
    ∧ availableQuantity a' = 0.
Proof.
  destruct (proj2 (updateAsset_resets_available hexObjectId laptopId
                     (oid laptopId) nullQuantityBody soldOut eq_refl)
              (laptop 1 0) eq_refl)
    as (a' & Hserve & _ & Hq & Ha & _).
  exists a'. split; [exact Hserve|]. split; [exact Hq|exact Ha].
Defined.

Lemma deleteAsset_removes_one_witness :
  serve noFault (deleteAsset hexObjectId laptopId) soldOut =
    (send (Msg "Asset deleted"),
     mkWorld (delete (oid laptopId) (assetsCol soldOut))
       (requestsCol soldOut) (usersCol soldOut)).
Proof.
  apply (proj2 (deleteAsset_removes_one hexObjectId laptopId (oid laptopId)
                  soldOut eq_refl)).
  exists (laptop 1 0). reflexivity.
Defined.

Lemma approve_then_return_restores_witness :
  perform hexObjectId [OpApprove 40 req1Id; OpReturn 60 req1Id]
    (twoRequests 1) =
    mkWorld (assetsCol (twoRequests 1))
      (<[oid req1Id := returned (processed eveRequest "approved" 40) 60]>
         (requestsCol (twoRequests 1)))
      (usersCol (twoRequests 1)).
Proof.
  apply (approve_then_return_restores hexObjectId 40 60 req1Id (oid req1Id)
           eveRequest (oid laptopId) (laptop 1 1) (twoRequests 1)).
  - reflexivity.
  - reflexivity.
  - reflexivity.
  - reflexivity.
  - reflexivity.
  - reflexivity.
  - unfold safeInteger, maxSafeInteger. cbn. lia.
  - unfold safeInteger, maxSafeInteger. cbn. lia.
Defined.

(** A request for "laptop". *)
Lemma createRequest_validation_witness :
  serve noFault (createRequest hexObjectId (oid req1Id) 20 strayBody)
    staffed =
    (sendStatus 500 (ServerError BSONError), staffed).
Proof.
  apply (proj2 (createRequest_validation hexObjectId noFault (oid req1Id) 20
                  strayBody staffed)).
  - reflexivity.
  - reflexivity.
  - reflexivity.
Defined.

(** ** The guarded routes *)

Lemma verifyToken_second_word_witness :
  verifyToken jwtVerify (Some "Token jwt.hr.hr@acme.test") = inr hanaClaims
  ∧ verifyToken jwtVerify (Some "jwt.hr.hr@acme.test") =
      inl (mkReply 403 (Plain (Msg "Invalid token"))).
Proof.
  destruct (verifyToken_second_word jwtVerify "Token" "jwt.hr.hr@acme.test"
              eq_refl eq_refl)
    as (_ & _ & Hsecond & Hbare).
  split; [exact Hsecond|]. apply Hbare. discriminate.
Defined.

(** Hana approves Eve. *)
Lemma approveEmployee_sets_flag_witness :
  (approveEmployee hexObjectId jwtVerify eveId hanaHeader office).1 =
    mkReply 200 (Plain (MsgResult "Employee Approved" 1))
  ∧ usersCol
      (approveEmployee hexObjectId jwtVerify eveId hanaHeader office).2
      !! oid eveId = Some (setApproved eve).
Proof.
  destruct (approveEmployee_sets_flag hexObjectId jwtVerify eveId (oid eveId)
              hanaHeader hanaClaims office eq_refl eq_refl eq_refl)
    as (Hreply & _ & _ & Hflag & _).
  split; [exact Hreply|exact Hflag].
Defined.

(** Eve registers at the office that Hana has opened. *)
Lemma employee_waits_for_approval_witness :
  ∃ u pending1 listed1 pending2 listed2,
    usersCol
      (serve noFault
         (registerEmployee (oid eveId) 5 "$2b$10$eve" (registerBody "eve"))
         opened).2 !! oid eveId = Some u
    ∧ email u = "eve@acme.test"
    ∧ pendingEmployees jwtVerify hanaHeader
        (serve noFault
           (registerEmployee (oid eveId) 5 "$2b$10$eve" (registerBody "eve"))
           opened).2 =
        (mkReply 200 (SendUsers pending1),
         (serve noFault
            (registerEmployee (oid eveId) 5 "$2b$10$eve"
               (registerBody "eve"))
            opened).2)
    ∧ hrEmployees None
        (serve noFault
           (registerEmployee (oid eveId) 5 "$2b$10$eve" (registerBody "eve"))
           opened).2 = mkReply 200 (SendUsers listed1)
    ∧ pendingEmployees jwtVerify hanaHeader
        (approveEmployee hexObjectId jwtVerify eveId hanaHeader
           (serve noFault
              (registerEmployee (oid eveId) 5 "$2b$10$eve"
                 (registerBody "eve"))
              opened).2).2 =
        (mkReply 200 (SendUsers pending2),
         (approveEmployee hexObjectId jwtVerify eveId hanaHeader
            (serve noFault
               (registerEmployee (oid eveId) 5 "$2b$10$eve"
                  (registerBody "eve"))
               opened).2).2)
    ∧ hrEmployees None
        (approveEmployee hexObjectId jwtVerify eveId hanaHeader
           (serve noFault
              (registerEmployee (oid eveId) 5 "$2b$10$eve"
                 (registerBody "eve"))
              opened).2).2 = mkReply 200 (SendUsers listed2)
    ∧ (oid eveId, u) ∈ pending1
    ∧ (∀ v, (oid eveId, v) ∉ listed1)
    ∧ (∀ v, (oid eveId, v) ∉ pending2)
    ∧ (oid eveId, setApproved u) ∈ listed2.
Proof.
  apply (employee_waits_for_approval hexObjectId jwtVerify (oid eveId) 5
           "$2b$10$eve" (registerBody "eve") eveId hanaHeader hanaClaims
           opened).
  - reflexivity.
  - reflexivity.
  - reflexivity.
  - reflexivity.
  - reflexivity.
  - reflexivity.
  - reflexivity.
  - reflexivity.
Defined.

Lemma hrEmployees_by_approved_requests_witness :
  ∃ l,
    hrEmployees (Some "hr@acme.test") office = mkReply 200 (SendUsers l)
    ∧ NoDup l
    ∧ ∀ i u,
        (i, u) ∈ l ↔
        usersCol office !! i = Some u
        ∧ role u = "employee"
        ∧ ∃ j r,
            requestsCol office !! j = Some r
            ∧ hrEmail r = Some "hr@acme.test"
            ∧ requestStatus r = "approved"
            ∧ requesterEmail r = email u.
Proof.
  apply (hrEmployees_by_approved_requests "hr@acme.test" office).
  discriminate.
Defined.

(** ** Login *)

Lemma login_checks_stored_hash_witness :
  login jwtSign bcryptCompare
    (mkLoginBody (Some "hr@acme.test") (Some "secret")) office =
    mkReply 200 (SendLogin "jwt.hr.hr@acme.test" (oid hrId, hana))
  ∧ login jwtSign bcryptCompare
      (mkLoginBody (Some "hr@acme.test") (Some "guess")) office =
      mkReply 400 (Plain (Msg "Invalid password")).
Proof.
  split.
  - apply (proj1 (login_checks_stored_hash jwtSign bcryptCompare
                    (mkLoginBody (Some "hr@acme.test") (Some "secret"))
                    office (oid hrId) hana
                    (proj1 (perform_storeInvariant hexObjectId _ _
                              (perform_storeInvariant hexObjectId _ _
                                 emptyWorld_storeInvariant)))
                    eq_refl)).
    reflexivity.
  - apply (proj1 (login_checks_stored_hash jwtSign bcryptCompare
                    (mkLoginBody (Some "hr@acme.test") (Some "guess"))
                    office (oid hrId) hana
                    (proj1 (perform_storeInvariant hexObjectId _ _
                              (perform_storeInvariant hexObjectId _ _
                                 emptyWorld_storeInvariant)))
                    eq_refl)).
    reflexivity.
Defined.

(** Hana logs in and reads the pending employees with her token. *)
Lemma login_token_opens_own_routes_witness :
  ∃ token,
    login jwtSign bcryptCompare
      (mkLoginBody (Some "hr@acme.test") (Some "secret")) office =
      mkReply 200 (SendLogin token (oid hrId, hana))
    ∧ pendingEmployees jwtVerify
        (Some ("Bearer" +:+ String Ascii.Space token)) office =
        (mkReply 200 (SendUsers (employeesWhere false office)), office).
Proof.
  destruct (login_token_opens_own_routes hexObjectId jwtVerify jwtSign
              bcryptCompare
              (mkLoginBody (Some "hr@acme.test") (Some "secret"))
              office (oid hrId) hana
              (proj1 (perform_storeInvariant hexObjectId _ _
                        (perform_storeInvariant hexObjectId _ _
                           emptyWorld_storeInvariant)))
              eq_refl eq_refl eq_refl eq_refl eq_refl)
    as (token & Hlogin & _ & Hhr & _).
  exists token. split; [exact Hlogin|]. apply Hhr. reflexivity.
Defined.

(** Hana is given Eve and Fay once they are approved. *)
Lemma userByEmail_lists_all_approved_witness :
  ∃ employees,
    userByEmail "hr@acme.test" office =
      mkReply 200 (SendProfile (oid hrId, hana) employees)
    ∧ hrEmployees None office = mkReply 200 (SendUsers employees).
Proof.
  destruct (proj1 (userByEmail_lists_all_approved office (oid hrId) hana
                     (proj1 (perform_storeInvariant hexObjectId _ _
                               (perform_storeInvariant hexObjectId _ _
                                  emptyWorld_storeInvariant)))
                     eq_refl))
    as (employees & Hanswer & _ & Hhr).
  exists employees. split; [exact Hanswer|]. apply Hhr. reflexivity.
Defined.

(** ** Reading assets, and the packages *)

Lemma getAsset_follows_add_and_delete_witness :
  getAsset hexObjectId laptopId emptyWorld =
    mkReply 404 (Plain (Msg "Asset not found"))
  ∧ ∃ a,
      getAsset hexObjectId laptopId
        (serve noFault (addAsset (oid laptopId) 10 (laptopBody 3))
           emptyWorld).2 =
        mkReply 200 (SendAsset (oid laptopId, a))
      ∧ productQuantity a = 3
      ∧ availableQuantity a = 3.
Proof.
  destruct (getAsset_follows_add_and_delete hexObjectId laptopId
              (oid laptopId) 10 (laptopBody 3) 3 emptyWorld
              eq_refl eq_refl eq_refl eq_refl eq_refl eq_refl)
    as (Hbefore & Hread & _).
  - lia.
  - split; [exact Hbefore|exact Hread].
Defined.

Lemma seedPackages_fills_once_witness :
  (seedPackages firstStart ∅).1 = inr ()
  ∧ seedPackages secondStart (seedPackages firstStart ∅).2 =
      (inr (), (seedPackages firstStart ∅).2)
  ∧ length (getPackages (seedPackages firstStart ∅).2) = 3%nat.
Proof.
  destruct (seedPackages_fills_once firstStart secondStart ∅)
    as (Hok & Hagain & _ & Hseeded).
  - discriminate.
  - discriminate.
  - discriminate.
  - split; [exact Hok|]. split; [exact Hagain|].
    exact (proj1 (Hseeded eq_refl)).
Defined.

(** ** A return that fails half-way *)

(** The only laptop is out and its return fails at the increment. *)
Lemma returnAsset_loses_unit_witness :
  serve (faultAt 2) (returnAsset hexObjectId 60 req1Id) soldOut =
    (sendStatus 500 (ServerError StorageUnavailable),
     mkWorld (assetsCol soldOut)
       (<[oid req1Id := returned (processed eveRequest "approved" 40) 60]>
          (requestsCol soldOut))
       (usersCol soldOut)).
Proof.
  apply (returnAsset_loses_unit hexObjectId (faultAt 2) 60 req1Id
           (oid req1Id) (processed eveRequest "approved" 40) (oid laptopId)
           soldOut eq_refl eq_refl eq_refl eq_refl eq_refl eq_refl eq_refl
           eq_refl).
Defined.

(** ** Two calls on one request *)


